(** * LobeHub Markdown Editor for VS Code: host / webview synchronisation core

    A shallow embedding of the extension host (the custom text editor
    provider: line-ending normalisation, asset upload, echo guard around
    workspace edits) and of the webview surface (remote snapshot
    application, local change propagation, table-of-contents extraction),
    then of the command that opens the editor, of the rest of the outline
    and of the Mermaid code block plugin, followed by the properties proved
    about them.

    JavaScript strings are embedded as [string]; the regular expressions of
    the source only test ASCII classes, so a code unit above 127 behaves as
    any other character outside those classes. *)

From Stdlib Require Import ZArith Lia Bool List Ascii String.
From stdpp Require Import base option list strings gmap pretty.

Local Open Scope string_scope.

(** ** JavaScript string primitives used by the sources *)

Module Js.

Definition CR : ascii := "013"%char.
Definition LF : ascii := "010"%char.

(** Does [s] start with the literal [pat]? *)
Fixpoint startsWith (pat s : string) {struct pat} : bool :=
  match pat with
  | EmptyString => true
  | String a pat' =>
      match s with
      | EmptyString => false
      | String b s' => Ascii.eqb a b && startsWith pat' s'
      end
  end.

(** [s.replace(/pat/g, rep)] for a pattern that is a literal, non-empty
    string: matches are found left to right and do not overlap.  [skip]
    counts the characters of the current match still to be dropped. *)
Fixpoint replace_go (pat rep : string) (skip : nat) (s : string) : string :=
  match s with
  | EmptyString => EmptyString
  | String c s' =>
      match skip with
      | S k => replace_go pat rep k s'
      | O =>
          if startsWith pat s
          then rep ++ replace_go pat rep (String.length pat - 1) s'
          else String c (replace_go pat rep O s')
      end
  end.

Definition replace_all (pat rep s : string) : string := replace_go pat rep 0 s.

(** [s.includes(c)] and [s.indexOf(c)] for a one-character needle. *)
Fixpoint includes (c : ascii) (s : string) : bool :=
  match s with
  | EmptyString => false
  | String a s' => if Ascii.eqb a c then true else includes c s'
  end.

Fixpoint indexOf (c : ascii) (s : string) : nat :=
  match s with
  | EmptyString => 0
  | String a s' => if Ascii.eqb a c then 0 else S (indexOf c s')
  end.

(** [s.slice(n)] for [0 <= n]. *)
Fixpoint slice (n : nat) (s : string) : string :=
  match n, s with
  | O, _ => s
  | S k, EmptyString => EmptyString
  | S k, String _ s' => slice k s'
  end.

(** [hay.includes(needle)] for a string needle. *)
Fixpoint includesStr (needle hay : string) : bool :=
  startsWith needle hay ||
  match hay with
  | EmptyString => false
  | String _ hay' => includesStr needle hay'
  end.

(** Character classes of the regular expressions in the sources. *)
Definition code (c : ascii) : N := N_of_ascii c.
Definition between (lo hi : N) (c : ascii) : bool :=
  ((lo <=? code c) && (code c <=? hi))%N.
Definition isUpper : ascii -> bool := between 65 90.
Definition isLower : ascii -> bool := between 97 122.
Definition isDigit : ascii -> bool := between 48 57.
Definition isChar (a c : ascii) : bool := Ascii.eqb c a.

(** [\w] *)
Definition isWord (c : ascii) : bool :=
  isUpper c || isLower c || isDigit c || isChar "_" c.

(** White space removed by [trim()], among the 8-bit code units: TAB, LF,
    VT, FF, CR, SPACE and NBSP. *)
Definition isSpace (c : ascii) : bool :=
  between 9 13 c || isChar " " c || (code c =? 160)%N.

(** [toLowerCase()] on 8-bit code units (ASCII and Latin-1 capitals). *)
Definition lowerChar (c : ascii) : ascii :=
  if isUpper c || (between 192 222 c && negb (code c =? 215)%N)
  then ascii_of_N (code c + 32) else c.

Fixpoint toLowerCase (s : string) : string :=
  match s with
  | EmptyString => EmptyString
  | String c s' => String (lowerChar c) (toLowerCase s')
  end.

(** [s.replace(/^[cls]+/, '')] *)
Fixpoint dropWhile (cls : ascii -> bool) (s : string) : string :=
  match s with
  | EmptyString => EmptyString
  | String c s' => if cls c then dropWhile cls s' else s
  end.

(** [s.replace(/[cls]+$/, '')] *)
Fixpoint dropWhileEnd (cls : ascii -> bool) (s : string) : string :=
  match s with
  | EmptyString => EmptyString
  | String c s' =>
      match dropWhileEnd cls s' with
      | EmptyString => if cls c then EmptyString else String c EmptyString
      | r => String c r
      end
  end.

Definition trim (s : string) : string := dropWhileEnd isSpace (dropWhile isSpace s).

(** [s.replace(/[cls]+/g, rep)]: every maximal run of class characters
    becomes one [rep]. *)
Fixpoint replaceRuns (cls : ascii -> bool) (rep : string) (inRun : bool) (s : string) : string :=
  match s with
  | EmptyString => EmptyString
  | String c s' =>
      if cls c
      then (if inRun then EmptyString else rep) ++ replaceRuns cls rep true s'
      else String c (replaceRuns cls rep false s')
  end.

(** [String(n).padStart(2, '0')] *)
Definition pad2 (n : Z) : string :=
  let s := pretty n in
  match String.length s with
  | 0 => "00"
  | 1 => "0" ++ s
  | _ => s
  end.

(** [(bytes / 1024 / 1024).toFixed(1)] for a byte count: both divisions
    are by powers of two, hence exact in double precision, and [toFixed]
    rounds the exact quotient to the nearest tenth, ties upwards. *)
Definition toFixed1_MiB (bytes : Z) : string :=
  let tenths := ((20 * bytes + 1048576) / 2097152)%Z in
  pretty (tenths / 10)%Z ++ "." ++ pretty (tenths mod 10)%Z.

(** Values a field of a message received over [postMessage] may hold. *)
Inductive Value :=
  | VUndefined
  | VNull
  | VBool (b : bool)
  | VNumber (n : Z)
  | VString (s : string).

(** [!v] is false exactly on truthy values. *)
Definition truthy (v : Value) : bool :=
  match v with
  | VUndefined | VNull => false
  | VBool b => b
  | VNumber n => negb (n =? 0)%Z
  | VString s => negb (String.eqb s "")
  end.

(** [typeof v === 'string'], and the string a string value holds. *)
Definition isString (v : Value) : bool :=
  match v with VString _ => true | _ => false end.

Definition stringOf (v : Value) : string :=
  match v with VString s => s | _ => "" end.

(** [v ?? d] *)
Definition nullish (v d : Value) : Value :=
  match v with
  | VUndefined | VNull => d
  | _ => v
  end.

(** What a [throw] carries: an [Error] made by the program, with its
    message; an error of the operating system as Node reports it, an
    [Error] with a [code] besides its message; or another value. *)
Inductive Thrown :=
  | JsError (message : string)
  | SystemError (code message : string)
  | NonError.

End Js.

(** ** Programs with state, an effect log and exceptions

    A handler of the sources is a function from the state before to its
    completion (a value or a thrown exception), the state after and the
    effects it performed, in order. *)

Module Prog.

Inductive Completion (A : Type) :=
  | Normal (a : A)
  | Throw (e : Js.Thrown).
Arguments Normal {A} a.
Arguments Throw {A} e.

Definition Prog (St Ev A : Type) : Type := St -> Completion A * St * list Ev.

Section Ops.
Context {St Ev : Type}.

Definition ret {A} (a : A) : Prog St Ev A := fun s => (Normal a, s, []).

Definition bind {A B} (f : A -> Prog St Ev B) (m : Prog St Ev A) : Prog St Ev B :=
  fun s =>
    match m s with
    | (Normal a, s1, l1) =>
        match f a s1 with
        | (r, s2, l2) => (r, s2, (l1 ++ l2)%list)
        end
    | (Throw e, s1, l1) => (Throw e, s1, l1)
    end.

Definition get : Prog St Ev St := fun s => (Normal s, s, []).
Definition gets {A} (f : St -> A) : Prog St Ev A := fun s => (Normal (f s), s, []).
Definition modify (f : St -> St) : Prog St Ev unit := fun s => (Normal tt, f s, []).
Definition emit (e : Ev) : Prog St Ev unit := fun s => (Normal tt, s, [e]).
Definition throw {A} (e : Js.Thrown) : Prog St Ev A := fun s => (Throw e, s, []).

(** [try { m } catch (e) { h e }] *)
Definition tryCatch {A} (m : Prog St Ev A) (h : Js.Thrown -> Prog St Ev A) : Prog St Ev A :=
  fun s =>
    match m s with
    | (Normal a, s1, l1) => (Normal a, s1, l1)
    | (Throw e, s1, l1) =>
        match h e s1 with
        | (r, s2, l2) => (r, s2, (l1 ++ l2)%list)
        end
    end.

(** [try { m } finally { f }], for a [finally] block that completes
    normally. *)
Definition tryFinally {A} (m : Prog St Ev A) (f : Prog St Ev unit) : Prog St Ev A :=
  fun s =>
    match m s with
    | (r, s1, l1) =>
        match f s1 with
        | (Normal _, s2, l2) => (r, s2, (l1 ++ l2)%list)
        | (Throw e, s2, l2) => (Throw e, s2, (l1 ++ l2)%list)
        end
    end.

(** [for (const x of xs) body x] *)
Fixpoint forEach {A} (body : A -> Prog St Ev unit) (xs : list A) : Prog St Ev unit :=
  match xs with
  | [] => ret tt
  | x :: xs' => bind (fun _ => forEach body xs') (body x)
  end.

Definition stateOf {A} (r : Completion A * St * list Ev) : St := snd (fst r).
Definition effectsOf {A} (r : Completion A * St * list Ev) : list Ev := snd r.
Definition resultOf {A} (r : Completion A * St * list Ev) : Completion A := fst (fst r).

End Ops.

#[global] Instance prog_ret {St Ev} : MRet (Prog St Ev) := @ret St Ev.
#[global] Instance prog_bind {St Ev} : MBind (Prog St Ev) := @bind St Ev.

End Prog.

(** ** Extension host *)

Module Host.

Import Js Prog.

(** What the host takes from Node and from the VS Code API: buffers, the
    [path] module, the values read from the workbench when a snapshot is
    posted, and the errors, code and message, with which the file system
    refuses to make a directory or to write a file, when it does (a name
    too long, a permission missing, a full disk). *)
Class Runtime := {
  Buffer : Type;
  Buffer_from_base64 : string -> Buffer;
  Buffer_length : Buffer -> Z;
  fs_mkdir_fault : string -> option (string * string);
  fs_writeFile_fault : string -> Buffer -> option (string * string);
  path_dirname : string -> string;
  path_basename : string -> string;
  path_join : string -> string -> string;
  path_resolve : string -> string -> string;
  path_relative : string -> string -> string;
  path_extname : string -> string;
  path_parse_name : string -> string;
  path_sep : string;
  getRelativePath : string -> string;
  getConfig : Z * bool;
  getThemeKind : bool
}.

(** [vscode.EndOfLine] *)
Inductive EndOfLine := EOL_LF | EOL_CRLF.

Definition normalizeContentForDocument (content : string) (eol : EndOfLine) : string :=
  let normalizedLf :=
    replace_all (String CR "") (String LF "")
      (replace_all (String CR (String LF "")) (String LF "") content) in
  match eol with
  | EOL_LF => normalizedLf
  | EOL_CRLF => replace_all (String LF "") (String CR (String LF "")) normalizedLf
  end.

(** The media-type table of [inferImageExtension], with the keys it
    declares. *)
Definition extensionTable : list (string * string) :=
  [ ("image/avif", ".avif"); ("image/bmp", ".bmp"); ("image/gif", ".gif");
    ("image/jpeg", ".jpg"); ("image/jpg", ".jpg"); ("image/png", ".png");
    ("image/svg+xml", ".svg"); ("image/webp", ".webp") ].

(** The table is an object literal: [map[key]] also finds what the object
    inherits from [Object.prototype].  Two of the inherited members have a
    name that a lower-cased media type can be, [constructor] (the function
    [Object]) and [__proto__] (the prototype itself); neither is nullish,
    so [??] keeps them, and the template literal that builds the file name
    writes them out as follows. *)
Definition inheritedMembers : list (string * string) :=
  [ ("constructor", "function Object() { [native code] }");
    ("__proto__", "[object Object]") ].

Fixpoint lookupTable (key : string) (tbl : list (string * string)) : option string :=
  match tbl with
  | [] => None
  | (k, v) :: tbl' => if String.eqb k key then Some v else lookupTable key tbl'
  end.

(** [new Date()] as read by the file-name generator. *)
Record DateTime := {
  getFullYear : Z;
  getMonth : Z;
  getDate : Z;
  getHours : Z;
  getMinutes : Z;
  getSeconds : Z
}.

Definition stampOf (now : DateTime) : string :=
  pretty (getFullYear now) ++ pad2 (getMonth now + 1) ++ pad2 (getDate now)
  ++ "-" ++ pad2 (getHours now) ++ pad2 (getMinutes now) ++ pad2 (getSeconds now).

(** The test [/^[\w+/]+=*$/] of the upload path: one or more characters
    of the class, then only [=] up to the end. *)
Definition isBase64Class (c : ascii) : bool := isWord c || isChar "+" c || isChar "/" c.

Fixpoint onlyPadding (s : string) : bool :=
  match s with
  | EmptyString => true
  | String c s' => isChar "=" c && onlyPadding s'
  end.

Fixpoint base64Body (seen : bool) (s : string) : bool :=
  match s with
  | EmptyString => seen
  | String c s' => if isBase64Class c then base64Body true s' else seen && onlyPadding s
  end.

Definition base64Test (raw : string) : bool := base64Body false raw.

(** The part of the payload after a data-URI prefix. *)
Definition stripDataUri (dataBase64 : string) : string :=
  if includes "," dataBase64
  then slice (indexOf "," dataBase64 + 1) dataBase64
  else dataBase64.

Definition MAX_SIZE : Z := 10 * 1024 * 1024.

(** Messages of the two directions. *)
Record WebviewMessage := {
  command : string;
  content : Value;
  href : Value;
  requestId : Value;
  fileName : option string;
  mimeType : option string;
  dataBase64 : Value
}.

Inductive SnapshotType := Init | Update.

Record WebviewInitPayload := {
  payloadType : SnapshotType;
  payloadContent : string;
  metaFileName : string;
  metaFilePath : string;
  metaRelativePath : string;
  payloadOptions : Z * bool;
  payloadTheme : bool
}.

Record UploadImageResultMessage := {
  resultRequestId : Value;
  resultOk : bool;
  resultUrl : option string;
  resultError : option string
}.

Inductive HostMessage :=
  | MsgUpdate (payload : WebviewInitPayload)
  | MsgUploadImageResult (result : UploadImageResultMessage).

Inductive OpenTarget :=
  | UriParse (href : string)
  | UriFile (absolutePath : string).

Inductive Effect :=
  | PostMessage (m : HostMessage)
  | ExecuteOpen (target : OpenTarget)
  | DocumentSave.

(** How VS Code answers [workspace.applyEdit]. *)
Inductive EditOutcome :=
  | EditApplied
  | EditRejected
  | EditFailed (e : Thrown).

Section WithRuntime.
Context {R : Runtime}.

(** When the media type names an inherited member of the table, the
    function returns that member, which is no string; the definition gives
    the text the file name gets from it. *)
Definition inferImageExtension (fileName mimeType : option string) : string :=
  let extFromName :=
    match fileName with
    | Some f => if String.eqb f "" then "" else path_extname f
    | None => ""
    end in
  if negb (String.eqb extFromName "") then toLowerCase extFromName
  else
    match lookupTable (toLowerCase (default "" mimeType))
            (extensionTable ++ inheritedMembers)%list with
    | Some ext => ext
    | None => ".png"
    end.

Definition isUnsafeNameChar (c : ascii) : bool :=
  negb (isLower c || isDigit c || isChar "-" c || isChar "_" c).
Definition isEdgeChar (c : ascii) : bool :=
  isChar "-" c || isChar "_" c || isChar "." c.

Definition safeImageBaseName (fileName : option string) : string :=
  let original :=
    match fileName with
    | Some f => if String.eqb f "" then "image" else path_parse_name f
    | None => "image"
    end in
  let normalized :=
    dropWhileEnd isEdgeChar (dropWhile isEdgeChar
      (replaceRuns (isChar "-") "-" false
        (replaceRuns isUnsafeNameChar "-" false (toLowerCase (trim original))))) in
  if String.eqb normalized "" then "image" else normalized.

(** The file system as the upload path sees it. *)
Record FileSystem := {
  files : gmap string Buffer;
  dirs : gset string
}.

Record State := {
  documentText : string;
  documentEol : EndOfLine;
  documentPath : string;
  isApplyingFromWebview : bool;
  panelTitle : string;
  fs : FileSystem
}.

Definition setText (x : string) (s : State) : State :=
  {| documentText := x; documentEol := documentEol s; documentPath := documentPath s;
     isApplyingFromWebview := isApplyingFromWebview s; panelTitle := panelTitle s;
     fs := fs s |}.
Definition setApplying (b : bool) (s : State) : State :=
  {| documentText := documentText s; documentEol := documentEol s;
     documentPath := documentPath s; isApplyingFromWebview := b;
     panelTitle := panelTitle s; fs := fs s |}.
Definition setTitle (x : string) (s : State) : State :=
  {| documentText := documentText s; documentEol := documentEol s;
     documentPath := documentPath s; isApplyingFromWebview := isApplyingFromWebview s;
     panelTitle := x; fs := fs s |}.
Definition setFs (x : FileSystem) (s : State) : State :=
  {| documentText := documentText s; documentEol := documentEol s;
     documentPath := documentPath s; isApplyingFromWebview := isApplyingFromWebview s;
     panelTitle := panelTitle s; fs := x |}.

Definition HostProg := Prog State Effect.

(** [fs.mkdir(dir, { recursive: true })]: fails when a file has the name,
    and when the file system refuses. *)
Definition fs_mkdir (dir : string) : HostProg unit :=
  s ← get;
  if decide (is_Some (files (fs s) !! dir))
  then throw (SystemError "EEXIST" ("EEXIST: file already exists, mkdir '" ++ dir ++ "'"))
  else
    match fs_mkdir_fault dir with
    | Some (code, text) => throw (SystemError code text)
    | None => modify (setFs {| files := files (fs s); dirs := {[dir]} ∪ dirs (fs s) |})
    end.

(** [fs.access(p)]: fails when nothing has the name. *)
Definition fs_access (p : string) : HostProg unit :=
  s ← get;
  if decide (is_Some (files (fs s) !! p) ∨ p ∈ dirs (fs s))
  then mret tt
  else throw (SystemError "ENOENT"
                ("ENOENT: no such file or directory, access '" ++ p ++ "'")).

(** [fs.writeFile(p, data)]: fails when the file system refuses. *)
Definition fs_writeFile (p : string) (data : Buffer) : HostProg unit :=
  s ← get;
  match fs_writeFile_fault p data with
  | Some (code, text) => throw (SystemError code text)
  | None => modify (setFs {| files := <[p := data]> (files (fs s)); dirs := dirs (fs s) |})
  end.

Definition candidateName (baseName stamp extension : string) (index : nat) : string :=
  let suffix := match index with O => "" | _ => "-" ++ pretty index end in
  baseName ++ "-" ++ stamp ++ suffix ++ extension.

(** The loop [for (let index = 0; index < 1000; index += 1)], with
    [remaining = 1000 - index]. *)
Fixpoint probeFrom (assetsDir baseName stamp extension : string)
    (remaining index : nat) : HostProg string :=
  match remaining with
  | O => throw (JsError "Could not generate a unique image filename. Please try again.")
  | S remaining' =>
      let candidate := path_join assetsDir (candidateName baseName stamp extension index) in
      free ← tryCatch (fs_access candidate;; mret false) (fun _ => mret true);
      if free : bool then mret candidate
      else probeFrom assetsDir baseName stamp extension remaining' (S index)
  end.

Definition createUniqueImageFilePath (now : DateTime)
    (assetsDir baseName extension : string) : HostProg string :=
  probeFrom assetsDir baseName (stampOf now) extension 1000 0.

(** [saveImageToAssets], run from its first line to its last with no
    other listener in between; its parts between two [await]s are
    [saveImage_findPath] and [saveImage_store] below. *)
Definition saveImageToAssets (now : DateTime)
    (payloadData : string) (payloadFileName payloadMimeType : option string)
    : HostProg string :=
  s ← get;
  let parentDir := path_dirname (documentPath s) in
  let assetsDir := path_join parentDir "assets" in
  fs_mkdir assetsDir;;
  let extension := inferImageExtension payloadFileName payloadMimeType in
  let baseName := safeImageBaseName payloadFileName in
  absolutePath ← createUniqueImageFilePath now assetsDir baseName extension;
  let raw := stripDataUri payloadData in
  if negb (base64Test raw) then throw (JsError "Invalid base64 image data.")
  else
    let buffer := Buffer_from_base64 raw in
    if (Buffer_length buffer =? 0)%Z then throw (JsError "Image data is empty. Save failed.")
    else if (Buffer_length buffer >? MAX_SIZE)%Z
    then throw (JsError ("Image exceeds the 10 MB size limit (got "
                         ++ toFixed1_MiB (Buffer_length buffer) ++ " MB)."))
    else
      fs_writeFile absolutePath buffer;;
      mret (replace_all path_sep "/" (path_relative parentDir absolutePath)).

Definition refreshTitle : HostProg unit :=
  s ← get; modify (setTitle (path_basename (documentPath s))).

Definition postDocumentToWebview (type : SnapshotType) : HostProg unit :=
  s ← get;
  emit (PostMessage (MsgUpdate
    {| payloadType := type;
       payloadContent := documentText s;
       metaFileName := path_basename (documentPath s);
       metaFilePath := documentPath s;
       metaRelativePath := getRelativePath (documentPath s);
       payloadOptions := getConfig;
       payloadTheme := getThemeKind |}));;
  refreshTitle.

(** The listener of [workspace.onDidChangeTextDocument]; a document is
    identified by its path. *)
Definition onDidChangeTextDocument (eventDocument : string) : HostProg unit :=
  s ← get;
  if negb (String.eqb eventDocument (documentPath s)) then mret tt
  else if isApplyingFromWebview s then mret tt
  else postDocumentToWebview Update.

(** [await vscode.workspace.applyEdit(edit)] for the edit that replaces
    the whole text: when VS Code applies it, the document changes and the
    change listeners run before the call resolves. *)
Definition workspace_applyEdit (outcome : EditOutcome) (newText : string) : HostProg bool :=
  match outcome with
  | EditApplied =>
      s ← get;
      modify (setText newText);;
      onDidChangeTextDocument (documentPath s);;
      mret true
  | EditRejected => mret false
  | EditFailed e => throw e
  end.

(** [applyContent], run from its first line to its last with no other
    listener in between but the change listener that VS Code calls when it
    applies the edit; its parts between two [await]s are
    [applyContent_request], [editApplies] and [applyContent_resume]
    below. *)
Definition applyContent (outcome : EditOutcome) (newContent : string) : HostProg unit :=
  s ← get;
  let normalizedContent := normalizeContentForDocument newContent (documentEol s) in
  if String.eqb normalizedContent (documentText s) then mret tt
  else
    modify (setApplying true);;
    tryFinally (workspace_applyEdit outcome normalizedContent) (modify (setApplying false));;
    refreshTitle.

(** A change of some document that VS Code reports on its own account
    (typing in a text editor, a revert, another extension): the text is
    replaced, then the listener runs, with the flag as it then is. *)
Definition documentChangedOutside (eventDocument newText : string) : HostProg unit :=
  s ← get;
  (if String.eqb eventDocument (documentPath s) then modify (setText newText) else mret tt);;
  onDidChangeTextDocument eventDocument.

(** *** The asynchronous handlers between two [await]s

    The listener of the messages is an [async] function that nobody
    awaits: at an [await] it yields, and VS Code may call a listener, this
    one included, before it resumes.  The parts below are what runs in
    one piece. *)

(** [applyContent] up to [await vscode.workspace.applyEdit(edit)]: the
    replacement asked of VS Code, when one is asked. *)
Definition applyContent_request (newContent : string) : HostProg (option string) :=
  s ← get;
  let normalizedContent := normalizeContentForDocument newContent (documentEol s) in
  if String.eqb normalizedContent (documentText s) then mret None
  else
    modify (setApplying true);;
    mret (Some normalizedContent).

(** VS Code applies a replacement it was asked for: the text changes and
    the change listener runs, with the flag as it then is. *)
Definition editApplies (newText : string) : HostProg unit :=
  s ← get;
  modify (setText newText);;
  onDidChangeTextDocument (documentPath s).

(** [applyContent] from the [await] on, once [applyEdit] has settled: the
    [finally] block, then the error of [applyEdit] if it failed, else the
    title. *)
Definition applyContent_resume (failure : option Thrown) : HostProg unit :=
  modify (setApplying false);;
  match failure with
  | Some e => throw e
  | None => refreshTitle
  end.

(** [saveImageToAssets] up to the name of the file: the directory is
    made, and a name that nothing has is looked for. *)
Definition saveImage_findPath (now : DateTime)
    (payloadFileName payloadMimeType : option string) : HostProg string :=
  s ← get;
  let parentDir := path_dirname (documentPath s) in
  let assetsDir := path_join parentDir "assets" in
  fs_mkdir assetsDir;;
  let extension := inferImageExtension payloadFileName payloadMimeType in
  let baseName := safeImageBaseName payloadFileName in
  createUniqueImageFilePath now assetsDir baseName extension.

(** [saveImageToAssets] from there on: the checks of the payload, the
    write, and the path that is returned. *)
Definition saveImage_store (payloadData absolutePath : string) : HostProg string :=
  s ← get;
  let parentDir := path_dirname (documentPath s) in
  let raw := stripDataUri payloadData in
  if negb (base64Test raw) then throw (JsError "Invalid base64 image data.")
  else
    let buffer := Buffer_from_base64 raw in
    if (Buffer_length buffer =? 0)%Z then throw (JsError "Image data is empty. Save failed.")
    else if (Buffer_length buffer >? MAX_SIZE)%Z
    then throw (JsError ("Image exceeds the 10 MB size limit (got "
                         ++ toFixed1_MiB (Buffer_length buffer) ++ " MB)."))
    else
      fs_writeFile absolutePath buffer;;
      mret (replace_all path_sep "/" (path_relative parentDir absolutePath)).

Definition isHttpUrl (h : string) : bool :=
  startsWith "http://" (toLowerCase h) || startsWith "https://" (toLowerCase h).

Definition postResult (result : UploadImageResultMessage) : HostProg unit :=
  emit (PostMessage (MsgUploadImageResult result)).

Definition errorMessage (e : Thrown) : string :=
  match e with
  | JsError m => m
  | SystemError _ m => m
  | NonError => "Failed to save image."
  end.

(** The listener of [webview.onDidReceiveMessage]. *)
Definition onDidReceiveMessage (now : DateTime) (outcome : EditOutcome)
    (message : WebviewMessage) : HostProg unit :=
  if String.eqb (command message) "ready" then postDocumentToWebview Init
  else if String.eqb (command message) "edit" then
    match content message with
    | VString c => applyContent outcome c
    | _ => mret tt
    end
  else if String.eqb (command message) "save" then
    match content message with
    | VString c => applyContent outcome c
    | _ => mret tt
    end;;
    emit DocumentSave;;
    refreshTitle
  else if String.eqb (command message) "open-link" then
    match href message with
    | VString h =>
        let h := trim h in
        if String.eqb h "" then mret tt
        else if isHttpUrl h then emit (ExecuteOpen (UriParse h))
        else
          s ← get;
          emit (ExecuteOpen (UriFile (path_resolve (path_dirname (documentPath s)) h)))
    | _ => mret tt
    end
  else if String.eqb (command message) "upload-image" then
    let requestId := requestId message in
    if negb (truthy requestId) || negb (isString requestId) then
      postResult {| resultRequestId := nullish requestId (VString "");
                    resultOk := false; resultUrl := None;
                    resultError := Some "Missing requestId." |}
    else if negb (truthy (dataBase64 message)) || negb (isString (dataBase64 message)) then
      postResult {| resultRequestId := requestId; resultOk := false;
                    resultUrl := None; resultError := Some "Invalid image data." |}
    else
      tryCatch
        (url ← saveImageToAssets now (stringOf (dataBase64 message))
                 (fileName message) (mimeType message);
         postResult {| resultRequestId := requestId; resultOk := true;
                       resultUrl := Some url; resultError := None |})
        (fun error =>
           postResult {| resultRequestId := requestId; resultOk := false;
                         resultUrl := None;
                         resultError := Some (errorMessage error) |})
  else mret tt.

(** What the provider reacts to: a message from the surface, with the time
    and the answer of VS Code to an edit should it need them, or a change
    of a document reported by VS Code. *)
Inductive HostEvent :=
  | MessageReceived (now : DateTime) (outcome : EditOutcome) (message : WebviewMessage)
  | DocumentChanged (eventDocument newText : string).

Definition handleEvent (ev : HostEvent) : HostProg unit :=
  match ev with
  | MessageReceived now outcome message => onDidReceiveMessage now outcome message
  | DocumentChanged eventDocument newText => documentChangedOutside eventDocument newText
  end.

(** The events of a session in which every event is handled to its end
    before the next one arrives, each with the effects of its handling. *)
Fixpoint runEvents (evs : list HostEvent) (s : State) : list (HostEvent * list Effect) * State :=
  match evs with
  | [] => ([], s)
  | ev :: evs' =>
      let r := handleEvent ev s in
      let rest := runEvents evs' (stateOf r) in
      ((ev, effectsOf r) :: fst rest, snd rest)
  end.

(** The provider's state when a document is opened. *)
Definition openDocument (path text : string) (eol : EndOfLine) (disk : FileSystem) : State :=
  {| documentText := text; documentEol := eol; documentPath := path;
     isApplyingFromWebview := false; panelTitle := path_basename path; fs := disk |}.

End WithRuntime.

(** *** A runtime to run the host on concrete inputs

    Paths are POSIX paths without normalisation.  A buffer is abstracted
    to its byte count: a payload of [n] characters before the padding
    decodes to [3 n / 4] bytes, times [scale], so that a payload standing
    for several megabytes can be written down ([scale = 1] is base64
    itself).  The file system refuses nothing. *)

(** The text before the last [sep], when there is one. *)
Fixpoint beforeLast (sep : ascii) (s : string) : option string :=
  match s with
  | EmptyString => None
  | String c s' =>
      match beforeLast sep s' with
      | Some d => Some (String c d)
      | None => if Ascii.eqb c sep then Some EmptyString else None
      end
  end.

(** The text after the last [sep], or all of it. *)
Fixpoint afterLast (sep : ascii) (s : string) : string :=
  match s with
  | EmptyString => EmptyString
  | String c s' =>
      if includes sep s' then afterLast sep s'
      else if Ascii.eqb c sep then s' else s
  end.

Definition posix_dirname (p : string) : string :=
  match beforeLast "/" p with
  | Some EmptyString => "/"
  | Some d => d
  | None => "."
  end.

Definition posix_extname (p : string) : string :=
  let base := afterLast "/" p in
  match beforeLast "." base with
  | Some EmptyString | None => ""
  | Some _ => "." ++ afterLast "." base
  end.

Definition posix_name (p : string) : string :=
  let base := afterLast "/" p in
  match beforeLast "." base with
  | Some EmptyString | None => base
  | Some stem => stem
  end.

Definition posix_relative (from to : string) : string :=
  if startsWith (from ++ "/") to then slice (String.length from + 1) to else to.

Fixpoint payloadLength (s : string) : nat :=
  match s with
  | EmptyString => 0
  | String c s' => if isChar "=" c then 0 else S (payloadLength s')
  end.

Definition exampleRuntime (scale : Z) : Runtime :=
  {| Buffer := Z;
     Buffer_from_base64 := fun raw => (scale * (3 * Z.of_nat (payloadLength raw) / 4))%Z;
     Buffer_length := fun b => b;
     fs_mkdir_fault := fun _ => None;
     fs_writeFile_fault := fun _ _ => None;
     path_dirname := posix_dirname;
     path_basename := afterLast "/";
     path_join := fun a b => a ++ "/" ++ b;
     path_resolve := fun a b => a ++ "/" ++ b;
     path_relative := posix_relative;
     path_extname := posix_extname;
     path_parse_name := posix_name;
     path_sep := "/";
     getRelativePath := afterLast "/";
     getConfig := (780%Z, true);
     getThemeKind := false |}.

Definition emptyDisk (scale : Z) : @FileSystem (exampleRuntime scale) :=
  @Build_FileSystem (exampleRuntime scale) ∅ ∅.

Definition exampleHost (scale : Z) : @State (exampleRuntime scale) :=
  @openDocument (exampleRuntime scale) "/notes/readme.md" "# A" EOL_LF (emptyDisk scale).

(** The same host over a disk that holds the named files, one byte each. *)
Definition diskWith (scale : Z) (names : list string) : @FileSystem (exampleRuntime scale) :=
  @Build_FileSystem (exampleRuntime scale) (list_to_map ((fun n => (n, 1%Z)) <$> names)) ∅.

Definition hostWithFiles (scale : Z) (names : list string) : @State (exampleRuntime scale) :=
  @openDocument (exampleRuntime scale) "/notes/readme.md" "# A" EOL_LF (diskWith scale names).

Definition uploadMessage (rid : Value) (data : Value) (name : option string) : WebviewMessage :=
  {| command := "upload-image"; content := VUndefined; href := VUndefined;
     requestId := rid; fileName := name; mimeType := Some "image/png";
     dataBase64 := data |}.

Definition contentMessage (cmd content : string) : WebviewMessage :=
  {| command := cmd; content := VString content; href := VUndefined;
     requestId := VUndefined; fileName := None; mimeType := None;
     dataBase64 := VUndefined |}.


Definition newYear2024 : DateTime :=
  {| getFullYear := 2024; getMonth := 0; getDate := 1;
     getHours := 0; getMinutes := 0; getSeconds := 0 |}.

End Host.

(** ** Webview surface *)

Module Surface.

Import Js Prog.

(** The editing engine ([IEditor] and its Lexical editor) as the surface
    uses it: the markdown and text projections of the document, the
    replacement of the document from markdown, and the updates the engine
    commits, and reports to update listeners, while such a replacement is
    running. *)
Record UpdateEvent := {
  dirtyElements : nat;
  dirtyLeaves : nat
}.

Class Engine := {
  Doc : Type;
  getMarkdown : Doc -> string;
  getText : Doc -> string;
  setMarkdown : string -> Doc -> Doc;
  updatesDuringSet : string -> Doc -> list UpdateEvent
}.

(** Messages from the host, with the fields the handler reads. *)
Record UpdateMessage := {
  content : Value;
  theme : option bool;
  optionsEditorMaxWidth : option Z;
  optionsUseVscodeThemeColor : Value;
  metaFileName : option string
}.

Inductive HostMessage :=
  | CmdTheme (dark : option bool)
  | CmdUploadImageResult (requestId : string) (ok : bool) (url error : option string)
  | CmdUpdate (m : UpdateMessage)
  | CmdOther.

(** Messages to the host. *)
Inductive Outgoing :=
  | OutReady
  | OutEdit (markdown : string)
  | OutSave (markdown : string)
  | OutUploadImage (requestId data fileName mimeType : string).

Inductive Effect :=
  | PostMessage (m : Outgoing)
  | SetDocument (markdown : string)
  | CancelAnimationFrame
  | RequestTocFrame
  | OnThemeChange (dark : bool)
  | SetEditorMaxWidth (w : Z)
  | SetUseVscodeThemeColor (b : bool)
  | SetFileName (name : string)
  | ResolveUpload (requestId url : string)
  | RejectUpload (requestId message : string).

Section WithEngine.
Context {E : Engine}.

Record State := {
  editor : Doc;
  readyRef : bool;
  applyingRemoteRef : bool;
  hasUserInteractionRef : bool;
  lastSyncedMarkdownRef : string;
  pendingRemoteContentRef : option string;
  previousContent : string;
  tocRafRef : bool;
  uploadResolversRef : gset string
}.

Definition setEditor (x : Doc) (s : State) : State :=
  {| editor := x; readyRef := readyRef s; applyingRemoteRef := applyingRemoteRef s;
     hasUserInteractionRef := hasUserInteractionRef s;
     lastSyncedMarkdownRef := lastSyncedMarkdownRef s;
     pendingRemoteContentRef := pendingRemoteContentRef s;
     previousContent := previousContent s; tocRafRef := tocRafRef s;
     uploadResolversRef := uploadResolversRef s |}.
Definition setReady (x : bool) (s : State) : State :=
  {| editor := editor s; readyRef := x; applyingRemoteRef := applyingRemoteRef s;
     hasUserInteractionRef := hasUserInteractionRef s;
     lastSyncedMarkdownRef := lastSyncedMarkdownRef s;
     pendingRemoteContentRef := pendingRemoteContentRef s;
     previousContent := previousContent s; tocRafRef := tocRafRef s;
     uploadResolversRef := uploadResolversRef s |}.
Definition setApplyingRemote (x : bool) (s : State) : State :=
  {| editor := editor s; readyRef := readyRef s; applyingRemoteRef := x;
     hasUserInteractionRef := hasUserInteractionRef s;
     lastSyncedMarkdownRef := lastSyncedMarkdownRef s;
     pendingRemoteContentRef := pendingRemoteContentRef s;
     previousContent := previousContent s; tocRafRef := tocRafRef s;
     uploadResolversRef := uploadResolversRef s |}.
Definition setHasUserInteraction (x : bool) (s : State) : State :=
  {| editor := editor s; readyRef := readyRef s; applyingRemoteRef := applyingRemoteRef s;
     hasUserInteractionRef := x;
     lastSyncedMarkdownRef := lastSyncedMarkdownRef s;
     pendingRemoteContentRef := pendingRemoteContentRef s;
     previousContent := previousContent s; tocRafRef := tocRafRef s;
     uploadResolversRef := uploadResolversRef s |}.
Definition setLastSynced (x : string) (s : State) : State :=
  {| editor := editor s; readyRef := readyRef s; applyingRemoteRef := applyingRemoteRef s;
     hasUserInteractionRef := hasUserInteractionRef s;
     lastSyncedMarkdownRef := x;
     pendingRemoteContentRef := pendingRemoteContentRef s;
     previousContent := previousContent s; tocRafRef := tocRafRef s;
     uploadResolversRef := uploadResolversRef s |}.
Definition setPending (x : option string) (s : State) : State :=
  {| editor := editor s; readyRef := readyRef s; applyingRemoteRef := applyingRemoteRef s;
     hasUserInteractionRef := hasUserInteractionRef s;
     lastSyncedMarkdownRef := lastSyncedMarkdownRef s;
     pendingRemoteContentRef := x;
     previousContent := previousContent s; tocRafRef := tocRafRef s;
     uploadResolversRef := uploadResolversRef s |}.
Definition setPreviousContent (x : string) (s : State) : State :=
  {| editor := editor s; readyRef := readyRef s; applyingRemoteRef := applyingRemoteRef s;
     hasUserInteractionRef := hasUserInteractionRef s;
     lastSyncedMarkdownRef := lastSyncedMarkdownRef s;
     pendingRemoteContentRef := pendingRemoteContentRef s;
     previousContent := x; tocRafRef := tocRafRef s;
     uploadResolversRef := uploadResolversRef s |}.
Definition setTocRaf (x : bool) (s : State) : State :=
  {| editor := editor s; readyRef := readyRef s; applyingRemoteRef := applyingRemoteRef s;
     hasUserInteractionRef := hasUserInteractionRef s;
     lastSyncedMarkdownRef := lastSyncedMarkdownRef s;
     pendingRemoteContentRef := pendingRemoteContentRef s;
     previousContent := previousContent s; tocRafRef := x;
     uploadResolversRef := uploadResolversRef s |}.
Definition setUploadResolvers (x : gset string) (s : State) : State :=
  {| editor := editor s; readyRef := readyRef s; applyingRemoteRef := applyingRemoteRef s;
     hasUserInteractionRef := hasUserInteractionRef s;
     lastSyncedMarkdownRef := lastSyncedMarkdownRef s;
     pendingRemoteContentRef := pendingRemoteContentRef s;
     previousContent := previousContent s; tocRafRef := tocRafRef s;
     uploadResolversRef := x |}.

Definition SurfaceProg := Prog State Effect.

Definition scheduleTocSync : SurfaceProg unit :=
  s ← get;
  (if tocRafRef s then emit CancelAnimationFrame else mret tt);;
  emit RequestTocFrame;;
  modify (setTocRaf true).

(** The end of the frame callback of [scheduleTocSync], after the outline
    pass ([updateTocFromDom] below) has run. *)
Definition tocFrameDone : SurfaceProg unit := modify (setTocRaf false).

Definition syncToHost : SurfaceProg unit :=
  s ← get;
  if applyingRemoteRef s then mret tt
  else if negb (hasUserInteractionRef s) then mret tt
  else
    let markdown := getMarkdown (editor s) in
    if String.eqb markdown (lastSyncedMarkdownRef s) then mret tt
    else
      modify (setLastSynced markdown);;
      emit (PostMessage (OutEdit markdown)).

(** The listener registered with [registerUpdateListener]. *)
Definition updateListener (u : UpdateEvent) : SurfaceProg unit :=
  if Nat.eqb (dirtyElements u) 0 && Nat.eqb (dirtyLeaves u) 0 then mret tt
  else
    s ← get;
    let currentContent := getText (editor s) in
    if String.eqb currentContent (previousContent s) then mret tt
    else
      modify (setPreviousContent currentContent);;
      syncToHost;;
      scheduleTocSync.

(** An update the engine commits on its own account (typing, a command,
    a deferred re-render): the document is [newDoc], and the listener runs. *)
Definition engineUpdate (newDoc : Doc) (u : UpdateEvent) : SurfaceProg unit :=
  modify (setEditor newDoc);;
  updateListener u.

(** [editor.setDocument('markdown', markdown, { keepId: true })] *)
Definition editor_setDocument (markdown : string) : SurfaceProg unit :=
  s ← get;
  emit (SetDocument markdown);;
  modify (setEditor (setMarkdown markdown (editor s)));;
  forEach updateListener (updatesDuringSet markdown (editor s)).

Definition setEditorMarkdown (markdown : string) : SurfaceProg unit :=
  modify (setHasUserInteraction false);;
  s ← get;
  if negb (readyRef s) then modify (setPending (Some markdown))
  else
    let currentMarkdown := getMarkdown (editor s) in
    if String.eqb currentMarkdown markdown then modify (setLastSynced markdown)
    else
      modify (setApplyingRemote true);;
      editor_setDocument markdown;;
      modify (setApplyingRemote false);;
      modify (setLastSynced markdown);;
      scheduleTocSync.

Definition handleSave : SurfaceProg unit :=
  s ← get;
  let markdown := getMarkdown (editor s) in
  modify (setLastSynced markdown);;
  emit (PostMessage (OutSave markdown)).

(** The capture-phase listener of the interaction events; [inEditorFrame]
    says whether the event target lies inside [.editor-frame]. *)
Definition markUserInteraction (inEditorFrame : bool) : SurfaceProg unit :=
  if negb inEditorFrame then mret tt
  else modify (setHasUserInteraction true).

(** The [onInit] callback of the [Editor] component. *)
Definition onInit : SurfaceProg unit :=
  modify (setReady true);;
  s ← get;
  match pendingRemoteContentRef s with
  | Some pendingContent =>
      modify (setApplyingRemote true);;
      editor_setDocument pendingContent;;
      modify (setApplyingRemote false);;
      modify (setLastSynced pendingContent)
  | None => mret tt
  end;;
  scheduleTocSync.

Definition handleImageUpload (requestId data fileName mimeType : string) : SurfaceProg unit :=
  s ← get;
  modify (setUploadResolvers ({[requestId]} ∪ uploadResolversRef s));;
  emit (PostMessage (OutUploadImage requestId data fileName mimeType)).

(** The text of a failed upload that comes without one, by the language
    of the browser. *)
Definition uploadFailedText (userLanguage : string) : string :=
  if startsWith "zh" userLanguage then "图片保存失败。" else "Image upload failed.".

Definition handleMessage (userLanguage : string) (message : HostMessage) : SurfaceProg unit :=
  match message with
  | CmdTheme dark => emit (OnThemeChange (default false dark))
  | CmdUploadImageResult requestId ok url error =>
      s ← get;
      if decide (requestId ∈ uploadResolversRef s) then
        modify (setUploadResolvers (uploadResolversRef s ∖ {[requestId]}));;
        let reason :=
          match error with
          | Some e => if String.eqb e "" then uploadFailedText userLanguage else e
          | None => uploadFailedText userLanguage
          end in
        match ok, url with
        | true, Some u =>
            if String.eqb u "" then emit (RejectUpload requestId reason)
            else emit (ResolveUpload requestId u)
        | _, _ => emit (RejectUpload requestId reason)
        end
      else mret tt
  | CmdUpdate m =>
      match theme m with Some d => emit (OnThemeChange d) | None => mret tt end;;
      match optionsEditorMaxWidth m with
      | Some w => if (w =? 0)%Z then mret tt else emit (SetEditorMaxWidth w)
      | None => mret tt
      end;;
      match optionsUseVscodeThemeColor m with
      | VBool b => emit (SetUseVscodeThemeColor b)
      | _ => mret tt
      end;;
      match metaFileName m with
      | Some f => if String.eqb f "" then mret tt else emit (SetFileName f)
      | None => mret tt
      end;;
      match content m with
      | VString c => setEditorMarkdown c
      | _ => mret tt
      end
  | CmdOther => mret tt
  end.

(** The refs and the listener's closure variable when the component
    mounts over a document [doc]. *)
Definition initialState (doc : Doc) : State :=
  {| editor := doc; readyRef := false; applyingRemoteRef := false;
     hasUserInteractionRef := false; lastSyncedMarkdownRef := "";
     pendingRemoteContentRef := None; previousContent := getText doc;
     tocRafRef := false; uploadResolversRef := ∅ |}.

End WithEngine.

(** An engine whose document is its markdown text, and which reports one
    update with dirty nodes while a document is being set; used to run the
    surface on concrete inputs. *)
Definition plainEngine : Engine :=
  {| Doc := string;
     getMarkdown := fun d => d;
     getText := fun d => d;
     setMarkdown := fun markdown _ => markdown;
     updatesDuringSet := fun _ _ => [ {| dirtyElements := 1; dirtyLeaves := 1 |} ] |}.

(** An engine that keeps its markdown with LF line endings, and that
    reports the update of a replaced document once [setDocument] has
    returned. *)
Definition lfEngine : Engine :=
  {| Doc := string;
     getMarkdown := fun d => d;
     getText := fun d => d;
     setMarkdown := fun markdown _ =>
       replace_all (String CR (String LF "")) (String LF "") markdown;
     updatesDuringSet := fun _ _ => [] |}.

(** The surface over [plainEngine] showing the text [doc], before the
    editor has initialised, and after it has and the user has touched the
    editing region. *)
Definition exampleMounted (doc : string) : @State plainEngine :=
  initialState (E := plainEngine) doc.

Definition exampleTouched (doc : string) : @State plainEngine :=
  stateOf (markUserInteraction true (stateOf (onInit (exampleMounted doc)))).

(** A two-line text with LF, and the same text with CRLF. *)
Definition twoLinesLf : string := String "a" (String LF "b").
Definition twoLinesCrlf : string := String "a" (String CR (String LF "b")).

(** *** Table of contents *)

(** The elements matched by the heading selector ([h1] to [h6] inside the
    editor frame), in document order. *)
Inductive HeadingTag := H1 | H2 | H3 | H4 | H5 | H6.

(** [Number.parseInt(node.tagName.slice(1), 10)] *)
Definition levelOf (tag : HeadingTag) : Z :=
  match tag with
  | H1 => 1 | H2 => 2 | H3 => 3 | H4 => 4 | H5 => 5 | H6 => 6
  end.

Record HeadingNode := {
  tagName : HeadingTag;
  textContent : option string;
  datasetTocId : option string
}.

Record TocItem := {
  depth : Z;
  id : string;
  level : Z;
  text : string
}.

Definition tocTitleId : string := "toc-document-title".

Definition headingId (index : nat) : string := "toc-heading-" ++ pretty index.

(** [node.textContent?.trim() ?? ''] *)
Definition headingText (node : HeadingNode) : string :=
  match textContent node with
  | Some t => trim t
  | None => ""
  end.

Definition hasText (node : HeadingNode) : bool := negb (String.eqb (headingText node) "").

Definition itemOf (index : nat) (node : HeadingNode) : TocItem :=
  {| depth := Z.max 0 (levelOf (tagName node) - 1);
     id := headingId index;
     level := levelOf (tagName node);
     text := headingText node |}.

(** The items of the headings that keep a text, numbered in their order. *)
Definition extractItems (headingNodes : list HeadingNode) : list TocItem :=
  imap itemOf (List.filter hasText headingNodes).

(** The [data-toc-id] attributes after the pass: set on the headings that
    keep a text, removed from the others. *)
Fixpoint tagNodes (index : nat) (headingNodes : list HeadingNode) : list HeadingNode :=
  match headingNodes with
  | [] => []
  | node :: rest =>
      if hasText node
      then {| tagName := tagName node; textContent := textContent node;
              datasetTocId := Some (headingId index) |} :: tagNodes (S index) rest
      else {| tagName := tagName node; textContent := textContent node;
              datasetTocId := None |} :: tagNodes index rest
  end.

Definition titleItem (titleText : string) : TocItem :=
  {| depth := 0; id := tocTitleId; level := 1; text := titleText |}.

(** [nextItems] of [updateTocFromDom], after the [unshift]. *)
Definition nextTocItems (titleText : string) (headingNodes : list HeadingNode) : list TocItem :=
  match extractItems headingNodes with
  | [] => []
  | items => titleItem titleText :: items
  end.

Fixpoint sameItems (a b : list TocItem) : bool :=
  match a, b with
  | [], [] => true
  | x :: a', y :: b' =>
      String.eqb (id x) (id y) && (depth x =? depth y)%Z && (level x =? level y)%Z
      && String.eqb (text x) (text y) && sameItems a' b'
  | _, _ => false
  end.

Definition isSameToc (a b : list TocItem) : bool :=
  if negb (Nat.eqb (length a) (length b)) then false else sameItems a b.

(** The component state the outline pass writes. *)
Record TocState := {
  tocItems : list TocItem;
  tocCollapsed : bool;
  activeTocId : option string
}.

Definition updateTocFromDom (titleText : string) (headingNodes : list HeadingNode)
    (st : TocState) : list HeadingNode * TocState :=
  let nextItems := nextTocItems titleText headingNodes in
  let items := if isSameToc (tocItems st) nextItems then tocItems st else nextItems in
  (tagNodes 0 headingNodes,
   match nextItems with
   | [] => {| tocItems := items; tocCollapsed := true; activeTocId := None |}
   | _ => {| tocItems := items; tocCollapsed := tocCollapsed st;
             activeTocId := activeTocId st |}
   end).

End Surface.

(** * Further operations of the sources *)

(** ** The Markdown extension test shared by the host and the surface *)

Module Markdown.

Import Js.

(** Does [s] end with [suffix], the case of the letters apart? *)
Definition endsWithCI (suffix s : string) : bool :=
  (String.length suffix <=? String.length s)%nat
  && String.eqb (toLowerCase (slice (String.length s - String.length suffix) s)) suffix.

(** [/\.(md|markdown)$/i.test(s)] *)
Definition hasMarkdownExtension (s : string) : bool :=
  endsWithCI ".md" s || endsWithCI ".markdown" s.

(** [s.replace(/\.(md|markdown)$/i, '')] *)
Definition stripMarkdownExtension (s : string) : string :=
  if endsWithCI ".md" s then substring 0 (String.length s - 3) s
  else if endsWithCI ".markdown" s then substring 0 (String.length s - 9) s
  else s.

End Markdown.

(** ** The command that opens the editor *)

Module Commands.

Import Js Host Markdown.

Definition VIEW_TYPE : string := "lobehub-markdown-editor.customEditor".

Inductive CommandEffect :=
  | ShowErrorMessage (text : string)
  | ExecuteOpenWith (target viewType : string).

Definition isMarkdownUri (fsPath : string) : bool := hasMarkdownExtension fsPath.

Definition showError (message : string) : CommandEffect :=
  ShowErrorMessage ("[LobeHub Markdown Editor] " ++ message).

(** The command [lobehub-markdown-editor.openEditor], given the path of
    the argument and of the document of the active text editor, when there
    are such. *)
Definition openEditor {R : Runtime} (uri activeDocument : option string) : list CommandEffect :=
  let targetUri := match uri with Some u => Some u | None => activeDocument end in
  match targetUri with
  | None => [showError "Please open a Markdown file first."]
  | Some target =>
      if negb (isMarkdownUri target)
      then [showError ("Only .md / .markdown files are supported. Current file: "
                       ++ path_basename target)]
      else [ExecuteOpenWith target VIEW_TYPE]
  end.

End Commands.

(** ** More of the surface *)

Module Outline.

Import Js Prog Surface Markdown.

(** [titleText], from the file name kept by the component. *)
Definition titleTextOf (fileName : string) : string :=
  let name := if String.eqb (trim fileName) "" then "Untitled" else trim fileName in
  let stripped := stripMarkdownExtension name in
  if String.eqb stripped "" then name else stripped.

Definition isMarkdownFile (fileName : string) : bool := hasMarkdownExtension fileName.

(** [fileToBase64]: what the promise resolves with, given the result of
    the reader when it is a string. *)
Definition fileToBase64 (readerResult : option string) : string :=
  let raw := default "" readerResult in
  if includes "," raw then slice (indexOf "," raw + 1) raw else raw.

(** A heading that carries a [data-toc-id], as the scroll pass sees it:
    its identifier, and whether its top is at or above the anchor line
    ([getBoundingClientRect().top <= anchorY + hysteresis]). *)
Record ScrollNode := {
  scrollTocId : string;
  reachedAnchor : bool
}.

(** The loop over the headings, with its [continue] and its [break]. *)
Fixpoint scanHeadings (currentId : option string) (nodes : list ScrollNode) : option string :=
  match nodes with
  | [] => currentId
  | node :: rest =>
      if String.eqb (scrollTocId node) "" then scanHeadings currentId rest
      else if reachedAnchor node then scanHeadings (Some (scrollTocId node)) rest
      else currentId
  end.

(** [updateActiveTocFromScroll]: the active entry after the pass, given
    the identifier of the heading or title that holds the selection anchor,
    when there is one. *)
Definition updateActiveTocFromScroll (selectionTocId : option string)
    (headingNodes : list ScrollNode) (tocItems : list TocItem) : option string :=
  let bySelection :=
    match selectionTocId with
    | Some i => if String.eqb i "" then None else Some i
    | None => None
    end in
  match bySelection with
  | Some activeHeadingId => Some activeHeadingId
  | None =>
      match headingNodes with
      | [] => None
      | first :: _ =>
          let currentId :=
            if existsb (fun item => String.eqb (id item) tocTitleId) tocItems
            then Some tocTitleId
            else Some (scrollTocId first) in
          scanHeadings currentId headingNodes
      end
  end.

Section WithEngine.
Context {E : Engine}.

Definition uploadTimeoutText (userLanguage : string) : string :=
  if startsWith "zh" userLanguage then "图片保存超时，请重试。" else "Image upload timed out.".

(** The callback of the 30 second timer of an upload, which runs when no
    result has cleared it. *)
Definition uploadTimedOut (userLanguage requestId : string) : SurfaceProg unit :=
  s ← get;
  modify (setUploadResolvers (uploadResolversRef s ∖ {[requestId]}));;
  emit (RejectUpload requestId (uploadTimeoutText userLanguage)).

Definition editorClosedText (userLanguage : string) : string :=
  if startsWith "zh" userLanguage then "编辑器已关闭。" else "Editor closed.".

(** The effect that registers [handleMessage]: what it does when it runs,
    and its cleanup.  React runs the cleanup and then the effect again
    whenever [setEditorMarkdown], [onThemeChange] or [userLanguage] is a
    new value, which [setEditorMarkdown] is after a change of the title or
    of the outline; the cleanup also runs when the component unmounts.
    The table of the pending uploads is embedded as a set: the uploads are
    rejected here in the order of its elements, in the source in the order
    of the requests. *)
Definition messageEffect : SurfaceProg unit := emit (PostMessage OutReady).

Definition messageEffectCleanup (userLanguage : string) : SurfaceProg unit :=
  s ← get;
  forEach (fun requestId => emit (RejectUpload requestId (editorClosedText userLanguage)))
    (elements (uploadResolversRef s));;
  modify (setUploadResolvers ∅).

End WithEngine.

End Outline.

(** ** The Mermaid code block plugin *)

Module Mermaid.

Import Js.

Record Mode := {
  ext : list string;
  name : string;
  syntax : string;
  value : string
}.

Definition MERMAID_MODE_VALUE : string := "mermaid".

(** [ensureMermaidMode], on the list [MODES] of the code block plugin. *)
Definition ensureMermaidMode (MODES : list Mode) : list Mode :=
  if existsb (fun mode => String.eqb (value mode) MERMAID_MODE_VALUE) MODES then MODES
  else (MODES ++ [ {| ext := ["mermaid"; "mmd"]; name := "Mermaid";
                      syntax := "markdown"; value := MERMAID_MODE_VALUE |} ])%list.

Definition isMermaidLanguage (language : option string) : bool :=
  match language with
  | None => false
  | Some l =>
      let normalized := toLowerCase (trim l) in
      String.eqb normalized "mermaid" || String.eqb normalized "mmd"
  end.

Inductive ThemeType := Dark | Light.

Definition themeEqb (a b : ThemeType) : bool :=
  match a, b with
  | Dark, Dark | Light, Light => true
  | _, _ => false
  end.

(** The argument of [mermaid.initialize]. *)
Record MermaidConfig := {
  securityLevel : string;
  startOnLoad : bool;
  suppressErrorRendering : bool;
  theme : string
}.

(** [initMermaid], over the module variable [initializedMermaidTheme]:
    the calls of [mermaid.initialize] it makes and the variable after. *)
Definition initMermaid (requested : ThemeType) (initializedMermaidTheme : option ThemeType)
    : list MermaidConfig * option ThemeType :=
  match initializedMermaidTheme with
  | Some current =>
      if themeEqb current requested then ([], initializedMermaidTheme)
      else ([ {| securityLevel := "strict"; startOnLoad := false;
                 suppressErrorRendering := true;
                 theme := match requested with Dark => "dark" | Light => "default" end |} ],
            Some requested)
  | None =>
      ([ {| securityLevel := "strict"; startOnLoad := false;
            suppressErrorRendering := true;
            theme := match requested with Dark => "dark" | Light => "default" end |} ],
       Some requested)
  end.

(** A run of renders, each asking for its theme. *)
Fixpoint initAll (requests : list ThemeType) (initialized : option ThemeType)
    : list MermaidConfig * option ThemeType :=
  match requests with
  | [] => ([], initialized)
  | requested :: rest =>
      let first := initMermaid requested initialized in
      let others := initAll rest (snd first) in
      ((fst first ++ fst others)%list, snd others)
  end.

(** The preview of a Mermaid block: the token of the last render started,
    what the canvas holds, and the two pieces of component state. *)
Record PreviewState := {
  renderTokenRef : nat;
  innerHTML : string;
  error : option string;
  isEmpty : bool
}.

(** The effect of [MermaidPreview] up to the start of the asynchronous
    render: the state it leaves and, when it starts a render, the token and
    the source of that render.  [mounted] says whether
    [containerRef.current] is set. *)
Definition startRender (mounted : bool) (code : string) (st : PreviewState)
    : PreviewState * option (nat * string) :=
  if negb mounted then (st, None)
  else
    let source :=
      trim (replace_all (String CR "") (String LF "")
              (replace_all (String CR (String LF "")) (String LF "") code)) in
    if String.eqb source "" then
      ({| renderTokenRef := renderTokenRef st; innerHTML := "";
          error := None; isEmpty := true |}, None)
    else
      ({| renderTokenRef := S (renderTokenRef st); innerHTML := innerHTML st;
          error := None; isEmpty := false |},
       Some (S (renderTokenRef st), source)).

(** How [mermaid.render] settles. *)
Inductive RenderResult :=
  | Rendered (svg : string)
  | RenderFailed (reason : Thrown).

(** What runs once the render started with [currentToken] has settled. *)
Definition finishRender (mounted isZh : bool) (currentToken : nat) (result : RenderResult)
    (st : PreviewState) : PreviewState :=
  if negb mounted || negb (Nat.eqb currentToken (renderTokenRef st)) then st
  else
    match result with
    | Rendered svg =>
        {| renderTokenRef := renderTokenRef st; innerHTML := svg;
           error := error st; isEmpty := isEmpty st |}
    | RenderFailed reason =>
        {| renderTokenRef := renderTokenRef st; innerHTML := "";
           error := Some match reason with
                         | JsError message => message
                         | SystemError _ message => message
                         | NonError =>
                             if isZh then "Mermaid 渲染失败"
                             else "Failed to render Mermaid diagram"
                         end;
           isEmpty := isEmpty st |}
    end.

End Mermaid.

(** * Vocabulary of the properties *)

Section LineEndings.

Import Js Host.

(** Does the text hold a carriage return? *)
Fixpoint has_cr (s : string) : bool :=
  match s with
  | EmptyString => false
  | String c s' => if Ascii.eqb c CR then true else has_cr s'
  end.

(** The three replacements of [normalizeContentForDocument]. *)
Definition crlf_to_lf := replace_all (String CR (String LF "")) (String LF "").
Definition cr_to_lf := replace_all (String CR "") (String LF "").
Definition lf_to_crlf := replace_all (String LF "") (String CR (String LF "")).

(** The LF form computed by the first two replacements. *)
Definition toLf (s : string) : string := cr_to_lf (crlf_to_lf s).

(** Normalisation as the specification words it, in one pass over the
    text: [toCanonical] rewrites every CR LF and every bare CR to LF, and
    [toTargetConvention] expands every LF to CR LF for a CRLF document. *)
Fixpoint toCanonical (s : string) : string :=
  match s with
  | EmptyString => EmptyString
  | String c s' =>
      if Ascii.eqb c CR then
        match s' with
        | String c' s'' =>
            if Ascii.eqb c' LF then String LF (toCanonical s'')
            else String LF (toCanonical s')
        | EmptyString => String LF EmptyString
        end
      else String c (toCanonical s')
  end.

Fixpoint expandLf (s : string) : string :=
  match s with
  | EmptyString => EmptyString
  | String c s' =>
      if Ascii.eqb c LF then String CR (String LF (expandLf s'))
      else String c (expandLf s')
  end.

Definition toTargetConvention (canonical : string) (eol : EndOfLine) : string :=
  match eol with
  | EOL_LF => canonical
  | EOL_CRLF => expandLf canonical
  end.

End LineEndings.

Section SurfaceVocabulary.

Import Js Prog Surface.
Context {E : Engine}.

(** The three conditions under which a change is propagated. *)
Definition shouldSync (s : State) : bool :=
  negb (applyingRemoteRef s) && hasUserInteractionRef s
  && negb (String.eqb (getMarkdown (editor s)) (lastSyncedMarkdownRef s)).

(** [s'] differs from [s] at most by the listener's bookkeeping: the
    previous text projection and the pending outline frame. *)
Definition sameSyncState (s s' : State) : Prop :=
  editor s' = editor s /\ readyRef s' = readyRef s /\
  applyingRemoteRef s' = applyingRemoteRef s /\
  hasUserInteractionRef s' = hasUserInteractionRef s /\
  lastSyncedMarkdownRef s' = lastSyncedMarkdownRef s /\
  pendingRemoteContentRef s' = pendingRemoteContentRef s /\
  uploadResolversRef s' = uploadResolversRef s.

(** Effects that post a message to the host, and that set the document. *)
Definition isPost (e : Effect) : bool :=
  match e with PostMessage _ => true | _ => false end.
Definition isSetDocument (e : Effect) : bool :=
  match e with SetDocument _ => true | _ => false end.

(** The state after a run of snapshots received before initialisation. *)
Definition buffered (ms : list string) (s : State) : State :=
  fold_left (fun s m => setPending (Some m) (setHasUserInteraction false s)) ms s.

End SurfaceVocabulary.

Section HostVocabulary.

Import Js Prog Host.
Context {R : Runtime}.

(** Something, file or directory, has the name [p]. *)
Definition pathExists (disk : FileSystem) (p : string) : Prop :=
  is_Some (files disk !! p) \/ p ∈ dirs disk.

(** The path probed at [index]. *)
Definition candidate (assetsDir baseName stamp extension : string) (index : nat) : string :=
  path_join assetsDir (candidateName baseName stamp extension index).

(** The [assets] directory beside the document. *)
Definition assetsDirOf (s : State) : string :=
  path_join (path_dirname (documentPath s)) "assets".

(** The state once [assets] has been made. *)
Definition withAssetsDir (s : State) : State :=
  setFs {| files := files (fs s); dirs := {[assetsDirOf s]} ∪ dirs (fs s) |} s.

(** The outcome of the checks and of the write, for the name [p]. *)
Definition checkedWrite (s1 : State) (p raw : string) : Completion string * State * list Effect :=
  if negb (base64Test raw) then (Throw (JsError "Invalid base64 image data."), s1, [])
  else if (Buffer_length (Buffer_from_base64 raw) =? 0)%Z
  then (Throw (JsError "Image data is empty. Save failed."), s1, [])
  else if (Buffer_length (Buffer_from_base64 raw) >? MAX_SIZE)%Z
  then (Throw (JsError ("Image exceeds the 10 MB size limit (got "
                        ++ toFixed1_MiB (Buffer_length (Buffer_from_base64 raw)) ++ " MB).")),
        s1, [])
  else
    match fs_writeFile_fault p (Buffer_from_base64 raw) with
    | Some (code, text) => (Throw (SystemError code text), s1, [])
    | None =>
        (Normal (replace_all path_sep "/"
                   (path_relative (path_dirname (documentPath s1)) p)),
         setFs {| files := <[p := Buffer_from_base64 raw]> (files (fs s1));
                  dirs := dirs (fs s1) |} s1,
         [])
    end.

(** The result posted for a request, from the outcome of the save. *)
Definition answerOf (rid : string) (saved : Completion string) : UploadImageResultMessage :=
  match saved with
  | Normal url =>
      {| resultRequestId := VString rid; resultOk := true;
         resultUrl := Some url; resultError := None |}
  | Throw e =>
      {| resultRequestId := VString rid; resultOk := false;
         resultUrl := None; resultError := Some (errorMessage e) |}
  end.

(** A negative result with its message. *)
Definition rejection (rid : Value) (message : string) : UploadImageResultMessage :=
  {| resultRequestId := rid; resultOk := false; resultUrl := None;
     resultError := Some message |}.

(** The upload gets as far as the checks of the payload: [assets] can be
    made (no file has the name and the file system does not refuse), and
    one of the 1000 names is free. *)
Definition validationReached (now : DateTime) (fn mt : option string) (s : State) : Prop :=
  files (fs s) !! assetsDirOf s = None /\
  fs_mkdir_fault (assetsDirOf s) = None /\
  exists p, resultOf (createUniqueImageFilePath now (assetsDirOf s) (safeImageBaseName fn)
                        (inferImageExtension fn mt) (withAssetsDir s)) = Normal p.

(** Effects that post a snapshot to the surface. *)
Definition isUpdate (e : Effect) : bool :=
  match e with PostMessage (MsgUpdate _) => true | _ => false end.

(** An [edit] or [save] message that carries a content. *)
Definition carriesContent (ev : HostEvent) : Prop :=
  match ev with
  | MessageReceived _ _ message =>
      (command message = "edit" \/ command message = "save") /\
      exists c, content message = VString c
  | DocumentChanged _ _ => False
  end.

End HostVocabulary.

Section EncodingVocabulary.

Import Js Host.

(** Every character of [s] is in the class. *)
Fixpoint allOf (cls : ascii -> bool) (s : string) : bool :=
  match s with
  | EmptyString => true
  | String c s' => cls c && allOf cls s'
  end.

(** The language of [/^[\w+/]+=*$/]: one or more characters among the
    letters, the digits, [_], [+] and [/], then any number of [=]. *)
Definition matchesBase64Regex (raw : string) : Prop :=
  exists body pad,
    raw = body ++ pad /\ body <> "" /\
    allOf isBase64Class body = true /\ allOf (isChar "=") pad = true.

(** The alphabet as the specification words it: letters, digits, [+] and
    [/], and [=] only as trailing padding. *)
Definition isExpectedChar (c : ascii) : bool :=
  isUpper c || isLower c || isDigit c || isChar "+" c || isChar "/" c.

Fixpoint inExpectedAlphabet (s : string) : bool :=
  match s with
  | EmptyString => true
  | String c s' =>
      if isExpectedChar c then inExpectedAlphabet s'
      else isChar "=" c && allOf (isChar "=") s'
  end.

End EncodingVocabulary.

(** ** Vocabulary of the further properties *)

Section NameVocabulary.

Import Js Host.

(** The characters [safeImageBaseName] lets through: [a-z0-9_-]. *)
Definition isSafeNameChar (c : ascii) : bool :=
  isLower c || isDigit c || isChar "-" c || isChar "_" c.

Definition firstChar (s : string) : option ascii :=
  match s with
  | EmptyString => None
  | String c _ => Some c
  end.

Fixpoint lastChar (s : string) : option ascii :=
  match s with
  | EmptyString => None
  | String c EmptyString => Some c
  | String _ s' => lastChar s'
  end.

(** No two hyphens in a row. *)
Fixpoint noDoubleHyphen (s : string) : bool :=
  match s with
  | EmptyString => true
  | String c s' =>
      negb (isChar "-" c && match s' with String d _ => isChar "-" d | EmptyString => false end)
      && noDoubleHyphen s'
  end.

(** The extensions of the table of [inferImageExtension]. *)
Definition knownExtensions : list string :=
  [".avif"; ".bmp"; ".gif"; ".jpg"; ".png"; ".svg"; ".webp"].

(** A text in the CRLF convention: every CR is followed by an LF, and
    every LF follows a CR. *)
Fixpoint crlfOnly (s : string) : bool :=
  match s with
  | EmptyString => true
  | String c s' =>
      if Ascii.eqb c CR then
        match s' with
        | String c' s'' => Ascii.eqb c' LF && crlfOnly s''
        | EmptyString => false
        end
      else negb (Ascii.eqb c LF) && crlfOnly s'
  end.

End NameVocabulary.

Section UploadVocabulary.

Import Js Prog Host.
Context {R : Runtime}.

Definition isUploadEvent (ev : HostEvent) : Prop :=
  match ev with
  | MessageReceived _ _ message => command message = "upload-image"
  | DocumentChanged _ _ => False
  end.

(** Results with [ok: true] among the effects of a session. *)
Definition isPositiveAnswer (e : Effect) : bool :=
  match e with
  | PostMessage (MsgUploadImageResult result) => resultOk result
  | _ => false
  end.

Definition positiveAnswers (log : list (HostEvent * list Effect)) : nat :=
  length (List.filter isPositiveAnswer (concat (map snd log))).

End UploadVocabulary.
Section SurfaceSession.

Import Js Prog Surface.
Context {E : Engine}.

(** What the surface reacts to once it is mounted: a message from the
    host, an update committed by the engine, an interaction event caught in
    the capture phase, the initialisation of the editor, the save shortcut,
    the animation frame of the outline pass, and a new run of the effect
    that registers the message handler. *)
Inductive SurfaceEvent :=
  | HostSent (message : HostMessage)
  | EngineUpdated (newDoc : Doc) (u : UpdateEvent)
  | UserInteracted (inEditorFrame : bool)
  | EditorInitialised
  | SaveRequested
  | TocFrameFired
  | MessageEffectReran.

Definition handleSurfaceEvent (userLanguage : string) (ev : SurfaceEvent) : SurfaceProg unit :=
  match ev with
  | HostSent message => handleMessage userLanguage message
  | EngineUpdated newDoc u => engineUpdate newDoc u
  | UserInteracted inEditorFrame => markUserInteraction inEditorFrame
  | EditorInitialised => onInit
  | SaveRequested => handleSave
  | TocFrameFired => s ← get; if tocRafRef s then tocFrameDone else mret tt
  | MessageEffectReran => Outline.messageEffectCleanup userLanguage;; Outline.messageEffect
  end.

(** The effects of a session, and the state it ends in. *)
Fixpoint runSurface (userLanguage : string) (evs : list SurfaceEvent) (s : State)
    : list Effect * State :=
  match evs with
  | [] => ([], s)
  | ev :: evs' =>
      let r := handleSurfaceEvent userLanguage ev s in
      let rest := runSurface userLanguage evs' (stateOf r) in
      ((effectsOf r ++ fst rest)%list, snd rest)
  end.

(** Effects that post an [edit]. *)
Definition isEdit (e : Effect) : bool :=
  match e with PostMessage (OutEdit _) => true | _ => false end.

(** An interaction inside the editing region. *)
Definition touchesEditor (ev : SurfaceEvent) : bool :=
  match ev with UserInteracted true => true | _ => false end.

(** Effects that settle the upload [requestId]. *)
Definition settlesUpload (requestId : string) (e : Effect) : bool :=
  match e with
  | ResolveUpload r _ | RejectUpload r _ => String.eqb r requestId
  | _ => false
  end.

(** A snapshot that carries the content [c]. *)
Definition snapshotOf (c : string) : UpdateMessage :=
  {| content := VString c; theme := None; optionsEditorMaxWidth := None;
     optionsUseVscodeThemeColor := VUndefined; metaFileName := None |}.

End SurfaceSession.
Section OutlineVocabulary.

Import Js Surface Outline.

(** The headings that carry a non-empty identifier. *)
Definition bearsId (node : ScrollNode) : bool := negb (String.eqb (scrollTocId node) "").

(** The identifiers of the headings at or above the anchor line, up to the
    first heading below it. *)
Fixpoint reachedIds (nodes : list ScrollNode) : list string :=
  match nodes with
  | [] => []
  | node :: rest => if reachedAnchor node then scrollTocId node :: reachedIds rest else []
  end.

End OutlineVocabulary.

Section MermaidVocabulary.

Import Js Mermaid.

Definition isMermaidMode (mode : Mode) : bool := String.eqb (value mode) MERMAID_MODE_VALUE.

(** The name Mermaid has for a theme of the editor. *)
Definition mermaidThemeOf (t : ThemeType) : string :=
  match t with Dark => "dark" | Light => "default" end.

(** No two equal neighbours. *)
Fixpoint adjacentDistinct (l : list string) : bool :=
  match l with
  | [] => true
  | a :: rest =>
      match rest with
      | [] => true
      | b :: _ => negb (String.eqb a b) && adjacentDistinct rest
      end
  end.

End MermaidVocabulary.

(** Unfolding the operations of programs. *)

Ltac prog_unfold :=
  unfold mbind, mret, Prog.prog_bind, Prog.prog_ret, Prog.bind, Prog.ret, Prog.get,
    Prog.gets, Prog.modify, Prog.emit, Prog.throw, Prog.tryCatch, Prog.tryFinally,
    Prog.stateOf, Prog.effectsOf, Prog.resultOf in *.

Ltac prog_simpl := prog_unfold; cbn.

(** * Properties *)

(** ** Line-ending normalisation *)

Section Normalisation.

Import Js Host.

Lemma crlf_to_lf_nil : crlf_to_lf "" = "".
Proof. reflexivity. Qed.

Lemma crlf_to_lf_pair s : crlf_to_lf (String CR (String LF s)) = String LF (crlf_to_lf s).
Proof. reflexivity. Qed.

Lemma crlf_to_lf_other c s :
  c <> CR -> crlf_to_lf (String c s) = String c (crlf_to_lf s).
Proof.
  intros Hc. unfold crlf_to_lf, replace_all. cbn [replace_go startsWith].
  destruct (Ascii.eqb_spec CR c) as [E|_]; [congruence|reflexivity].
Qed.

Lemma crlf_to_lf_lone s :
  (forall t, s <> String LF t) ->
  crlf_to_lf (String CR s) = String CR (crlf_to_lf s).
Proof.
  intros Hs. unfold crlf_to_lf, replace_all. cbn [replace_go startsWith].
  rewrite Ascii.eqb_refl. cbn [andb].
  destruct s as [|b t]; [reflexivity|].
  destruct (Ascii.eqb_spec LF b) as [E|_]; [subst b; exfalso; exact (Hs t eq_refl)|reflexivity].
Qed.

Lemma cr_to_lf_cons c s :
  cr_to_lf (String c s) = String (if Ascii.eqb c CR then LF else c) (cr_to_lf s).
Proof.
  unfold cr_to_lf, replace_all. cbn [replace_go startsWith].
  rewrite (Ascii.eqb_sym CR c), andb_true_r.
  destruct (Ascii.eqb c CR); reflexivity.
Qed.

Lemma lf_to_crlf_cons c s :
  lf_to_crlf (String c s) =
  if Ascii.eqb c LF then String CR (String LF (lf_to_crlf s)) else String c (lf_to_crlf s).
Proof.
  unfold lf_to_crlf, replace_all. cbn [replace_go startsWith].
  rewrite (Ascii.eqb_sym LF c), andb_true_r.
  destruct (Ascii.eqb c LF); reflexivity.
Qed.

Lemma cr_to_lf_no_cr s : has_cr (cr_to_lf s) = false.
Proof.
  induction s as [|c s IH]; [reflexivity|].
  rewrite cr_to_lf_cons. cbn [has_cr].
  destruct (Ascii.eqb_spec c CR) as [->|N].
  - cbn. exact IH.
  - destruct (Ascii.eqb_spec c CR); [congruence|exact IH].
Qed.

Lemma crlf_to_lf_id s : has_cr s = false -> crlf_to_lf s = s.
Proof.
  induction s as [|c s IH]; [reflexivity|].
  cbn [has_cr]. destruct (Ascii.eqb_spec c CR) as [->|N]; [discriminate|].
  intros H. rewrite crlf_to_lf_other by assumption. now rewrite IH.
Qed.

Lemma cr_to_lf_id s : has_cr s = false -> cr_to_lf s = s.
Proof.
  induction s as [|c s IH]; [reflexivity|].
  cbn [has_cr]. rewrite cr_to_lf_cons.
  destruct (Ascii.eqb c CR); [discriminate|].
  intros H. now rewrite IH.
Qed.

(** Collapsing the line endings of a re-expanded CR-free text gives the
    text back. *)
Lemma crlf_to_lf_expand s : has_cr s = false -> crlf_to_lf (lf_to_crlf s) = s.
Proof.
  induction s as [|c s IH]; [reflexivity|].
  cbn [has_cr]. destruct (Ascii.eqb_spec c CR) as [->|N]; [discriminate|].
  intros H. rewrite lf_to_crlf_cons.
  destruct (Ascii.eqb_spec c LF) as [->|NL].
  - rewrite crlf_to_lf_pair. now rewrite IH.
  - rewrite crlf_to_lf_other by assumption. now rewrite IH.
Qed.

Lemma toLf_no_cr s : has_cr (toLf s) = false.
Proof. apply cr_to_lf_no_cr. Qed.

Lemma toLf_id s : has_cr s = false -> toLf s = s.
Proof. intros H. unfold toLf. rewrite crlf_to_lf_id by assumption. now apply cr_to_lf_id. Qed.

Lemma toLf_expand s : has_cr s = false -> toLf (lf_to_crlf s) = s.
Proof. intros H. unfold toLf. rewrite crlf_to_lf_expand by assumption. now apply cr_to_lf_id. Qed.

Lemma normalizeContentForDocument_unfold content eol :
  normalizeContentForDocument content eol =
  match eol with EOL_LF => toLf content | EOL_CRLF => lf_to_crlf (toLf content) end.
Proof. destruct eol; reflexivity. Qed.

(** The two replacements that give the LF form amount to one pass. *)
Lemma toLf_toCanonical s :
  toLf s = toCanonical s /\ forall c, toLf (String c s) = toCanonical (String c s).
Proof.
  unfold toLf. induction s as [|a s [IH1 IH2]].
  - split; [reflexivity|]. intros c. cbn [toCanonical].
    destruct (Ascii.eqb_spec c CR) as [->|Hc]; [reflexivity|].
    rewrite crlf_to_lf_other by assumption. rewrite cr_to_lf_cons.
    destruct (Ascii.eqb_spec c CR); [contradiction|reflexivity].
  - split; [apply IH2|]. intros c. cbn [toCanonical].
    destruct (Ascii.eqb_spec c CR) as [->|Hc].
    + destruct (Ascii.eqb_spec a LF) as [->|Ha].
      * rewrite crlf_to_lf_pair, cr_to_lf_cons. cbn. now rewrite IH1.
      * rewrite crlf_to_lf_lone by (intros t' Ht; injection Ht as ->; contradiction).
        rewrite cr_to_lf_cons, Ascii.eqb_refl. now rewrite IH2.
    + rewrite crlf_to_lf_other by assumption. rewrite cr_to_lf_cons.
      destruct (Ascii.eqb_spec c CR); [contradiction|]. now rewrite IH2.
Qed.

Lemma lf_to_crlf_expandLf s : lf_to_crlf s = expandLf s.
Proof.
  induction s as [|c s IH]; [reflexivity|].
  rewrite lf_to_crlf_cons. cbn [expandLf]. rewrite IH. reflexivity.
Qed.

(** C4. Line-ending normalisation is idempotent: for every content string
    and both end-of-line conventions of the target document, normalising an
    already normalised content changes nothing; normalising is rewriting
    every CR LF and every bare CR to LF, then, for a CRLF document,
    expanding every LF to CR LF. *)
Theorem normalizeContentForDocument_idempotent (x : string) (eol : EndOfLine) :
  normalizeContentForDocument (normalizeContentForDocument x eol) eol
  = normalizeContentForDocument x eol
  /\ normalizeContentForDocument x eol = toTargetConvention (toCanonical x) eol.
Proof.
  rewrite !normalizeContentForDocument_unfold. split.
  - destruct eol.
    + apply toLf_id, toLf_no_cr.
    + f_equal. apply toLf_expand, toLf_no_cr.
  - destruct (toLf_toCanonical x) as [-> _]. destruct eol; [reflexivity|].
    apply lf_to_crlf_expandLf.
Qed.

End Normalisation.

(** ** Local change propagation on the surface *)

Section SurfaceSync.

Import Js Prog Surface.
Context {E : Engine}.

Lemma shouldSync_spec s :
  shouldSync s = true <->
  applyingRemoteRef s = false /\ hasUserInteractionRef s = true /\
  getMarkdown (editor s) <> lastSyncedMarkdownRef s.
Proof.
  unfold shouldSync.
  destruct (applyingRemoteRef s), (hasUserInteractionRef s),
    (String.eqb_spec (getMarkdown (editor s)) (lastSyncedMarkdownRef s)); cbn;
    intuition congruence.
Qed.

Lemma syncToHost_run s :
  syncToHost s =
  if shouldSync s
  then (Normal tt, setLastSynced (getMarkdown (editor s)) s,
        [PostMessage (OutEdit (getMarkdown (editor s)))])
  else (Normal tt, s, []).
Proof.
  unfold syncToHost, shouldSync. prog_simpl.
  destruct (applyingRemoteRef s), (hasUserInteractionRef s),
    (String.eqb (getMarkdown (editor s)) (lastSyncedMarkdownRef s)); reflexivity.
Qed.

(** [syncToHost] by itself posts an [edit] message exactly when no remote
    update is being applied, the user has interacted with the editor, and
    the current markdown differs from the last synchronised one.  In that
    case the posted message carries the current markdown, which is also
    the new last synchronised content; in every other case nothing is
    posted and the state is unchanged. *)
Lemma syncToHost_emits_iff (s : State) :
  let current := getMarkdown (editor s) in
  let r := syncToHost s in
  ((exists m, PostMessage (OutEdit m) ∈ effectsOf r) <->
   (applyingRemoteRef s = false /\ hasUserInteractionRef s = true /\
    current <> lastSyncedMarkdownRef s))
  /\ ((exists m, PostMessage (OutEdit m) ∈ effectsOf r) ->
      effectsOf r = [PostMessage (OutEdit current)] /\
      lastSyncedMarkdownRef (stateOf r) = current /\
      stateOf r = setLastSynced current s)
  /\ (~ (exists m, PostMessage (OutEdit m) ∈ effectsOf r) ->
      effectsOf r = [] /\ stateOf r = s).
Proof.
  intros current r. subst r current. rewrite syncToHost_run.
  pose proof (shouldSync_spec s) as Hs.
  destruct (shouldSync s); unfold effectsOf, stateOf; cbn.
  - assert (Hin : exists m, PostMessage (OutEdit m) ∈ [PostMessage (OutEdit (getMarkdown (editor s)))]).
    { eexists. apply list_elem_of_singleton. reflexivity. }
    split; [|split].
    + split; intros _; [apply Hs; reflexivity|exact Hin].
    + intros _. auto.
    + intros Hn. destruct (Hn Hin).
  - assert (Hnin : ~ exists m, PostMessage (OutEdit m) ∈ @nil Effect).
    { intros [m Hm]. inversion Hm. }
    split; [|split].
    + split; [intros H; destruct (Hnin H)|].
      intros H. apply Hs in H. discriminate.
    + intros H. destruct (Hnin H).
    + auto.
Qed.

Lemma scheduleTocSync_run (s : State) :
  scheduleTocSync s =
  (Normal tt, setTocRaf true s,
   ((if tocRafRef s then [CancelAnimationFrame] else []) ++ [RequestTocFrame])%list).
Proof. unfold scheduleTocSync. prog_simpl. destruct (tocRafRef s); reflexivity. Qed.

(** The update listener forwards to [syncToHost] the updates that have a
    dirty node and change the text projection, and drops the others. *)
Lemma updateListener_run (u : UpdateEvent) (s : State) :
  updateListener u s =
  if Nat.eqb (dirtyElements u) 0 && Nat.eqb (dirtyLeaves u) 0 then (Normal tt, s, [])
  else if String.eqb (getText (editor s)) (previousContent s) then (Normal tt, s, [])
  else
    let s1 := setPreviousContent (getText (editor s)) s in
    let s2 := stateOf (syncToHost s1) in
    (Normal tt, setTocRaf true s2,
     (effectsOf (syncToHost s1)
      ++ (if tocRafRef s then [CancelAnimationFrame] else []) ++ [RequestTocFrame])%list).
Proof.
  unfold updateListener.
  destruct (Nat.eqb (dirtyElements u) 0 && Nat.eqb (dirtyLeaves u) 0); [reflexivity|].
  prog_simpl.
  destruct (String.eqb (getText (editor s)) (previousContent s)); [reflexivity|].
  rewrite syncToHost_run.
  destruct (shouldSync _); cbn; rewrite scheduleTocSync_run; cbn;
    destruct (tocRafRef s); reflexivity.
Qed.

(** An update handled by the listener posts an [edit] only when it has a
    dirty node, changes the text projection, and finds the three
    conditions of [syncToHost] met. *)
Lemma updateListener_posts (u : UpdateEvent) (s : State) :
  List.filter isPost (effectsOf (updateListener u s)) =
  if negb (Nat.eqb (dirtyElements u) 0 && Nat.eqb (dirtyLeaves u) 0)
     && negb (String.eqb (getText (editor s)) (previousContent s))
     && shouldSync s
  then [PostMessage (OutEdit (getMarkdown (editor s)))]
  else [].
Proof.
  rewrite updateListener_run.
  destruct (_ && _); [reflexivity|].
  destruct (String.eqb _ _); [reflexivity|].
  cbv zeta. rewrite syncToHost_run.
  change (shouldSync (setPreviousContent (getText (editor s)) s)) with (shouldSync s).
  destruct (shouldSync s); cbn; destruct (tocRafRef s); reflexivity.
Qed.

Lemma updateListener_quiet (u : UpdateEvent) (s : State) :
  shouldSync s = false -> List.filter isPost (effectsOf (updateListener u s)) = [].
Proof.
  intros H. rewrite updateListener_posts, H, andb_false_r. reflexivity.
Qed.

Lemma no_edit_among (l : list Effect) :
  List.filter isPost l = [] -> ~ exists m, PostMessage (OutEdit m) ∈ l.
Proof.
  intros Hl [m Hm]. apply list_elem_of_In in Hm.
  assert (Hin : In (PostMessage (OutEdit m)) (List.filter isPost l))
    by (apply List.filter_In; split; [exact Hm|reflexivity]).
  rewrite Hl in Hin. destruct Hin.
Qed.

(** C1 (amended). A change notification of the engine is passed on to
    [syncToHost] only when it has a dirty node and changes the text
    projection of the document; any other notification posts nothing and
    changes nothing.  A notification that is passed on posts an [edit]
    exactly when no remote update is being applied, the user has interacted
    with the editor and the markdown differs from the last synchronised
    one; the message then carries the current markdown, which has become
    the last synchronised content.  In every other case no message is
    posted and the last synchronised content is unchanged. *)
Theorem updateListener_emits_iff (u : UpdateEvent) (s : State) :
  let current := getMarkdown (editor s) in
  let r := updateListener u s in
  let passedOn :=
    negb (Nat.eqb (dirtyElements u) 0 && Nat.eqb (dirtyLeaves u) 0)
    && negb (String.eqb (getText (editor s)) (previousContent s)) in
  ((exists m, PostMessage (OutEdit m) ∈ effectsOf r) <->
   (passedOn = true /\ applyingRemoteRef s = false /\ hasUserInteractionRef s = true /\
    current <> lastSyncedMarkdownRef s))
  /\ ((exists m, PostMessage (OutEdit m) ∈ effectsOf r) ->
      List.filter isPost (effectsOf r) = [PostMessage (OutEdit current)] /\
      lastSyncedMarkdownRef (stateOf r) = current)
  /\ (~ (exists m, PostMessage (OutEdit m) ∈ effectsOf r) ->
      List.filter isPost (effectsOf r) = [] /\
      lastSyncedMarkdownRef (stateOf r) = lastSyncedMarkdownRef s)
  /\ (passedOn = false -> r = (Normal tt, s, [])).
Proof.
  intros current r passedOn.
  pose proof (updateListener_posts u s) as Hposts. fold r passedOn in Hposts.
  pose proof (shouldSync_spec s) as Hspec.
  assert (Hstate : lastSyncedMarkdownRef (stateOf r)
                   = if passedOn && shouldSync s then current
                     else lastSyncedMarkdownRef s).
  { subst r passedOn. rewrite updateListener_run.
    destruct (Nat.eqb (dirtyElements u) 0 && Nat.eqb (dirtyLeaves u) 0); [reflexivity|].
    destruct (String.eqb (getText (editor s)) (previousContent s)); [reflexivity|].
    cbv zeta. rewrite syncToHost_run.
    change (shouldSync (setPreviousContent (getText (editor s)) s)) with (shouldSync s).
    destruct (shouldSync s); reflexivity. }
  assert (Hdrop : passedOn = false -> r = (Normal tt, s, [])).
  { subst r passedOn. rewrite updateListener_run.
    destruct (Nat.eqb (dirtyElements u) 0 && Nat.eqb (dirtyLeaves u) 0); [reflexivity|].
    destruct (String.eqb (getText (editor s)) (previousContent s)); [reflexivity|].
    discriminate. }
  destruct (passedOn && shouldSync s) eqn:Hgo.
  - apply andb_true_iff in Hgo as [Hpass Hsync].
    assert (Hin : exists m, PostMessage (OutEdit m) ∈ effectsOf r).
    { exists current. apply list_elem_of_In.
      assert (H : In (PostMessage (OutEdit current)) (List.filter isPost (effectsOf r)))
        by (rewrite Hposts; now left).
      now apply List.filter_In in H as [H _]. }
    split; [|split; [|split]].
    + split; [intros _; split; [exact Hpass|now apply Hspec]|intros _; exact Hin].
    + intros _. auto.
    + intros Hn. destruct (Hn Hin).
    + rewrite Hpass. discriminate.
  - assert (Hnin : ~ exists m, PostMessage (OutEdit m) ∈ effectsOf r)
      by now apply no_edit_among.
    split; [|split; [|split]].
    + split; [intros H; destruct (Hnin H)|].
      intros (Hpass & Hcond). apply Hspec in Hcond.
      rewrite Hpass, Hcond in Hgo. discriminate.
    + intros H. destruct (Hnin H).
    + auto.
    + exact Hdrop.
Qed.

Lemma sameSyncState_refl s : sameSyncState s s.
Proof. repeat split. Qed.

Lemma sameSyncState_trans s1 s2 s3 :
  sameSyncState s1 s2 -> sameSyncState s2 s3 -> sameSyncState s1 s3.
Proof. unfold sameSyncState. intuition congruence. Qed.

(** While a remote update is being applied, no update reported by the
    engine is propagated, whatever the user did before: the listener only
    moves its own bookkeeping. *)
Lemma updateListener_guarded (u : UpdateEvent) (s : State) :
  applyingRemoteRef s = true ->
  resultOf (updateListener u s) = Normal tt /\
  sameSyncState s (stateOf (updateListener u s)) /\
  List.filter isPost (effectsOf (updateListener u s)) = [] /\
  List.filter isSetDocument (effectsOf (updateListener u s)) = [].
Proof.
  intros Hg. rewrite updateListener_run.
  destruct (_ && _); [cbn; auto using sameSyncState_refl|].
  destruct (String.eqb _ _); [cbn; auto using sameSyncState_refl|].
  cbv zeta. rewrite syncToHost_run.
  assert (Hs : shouldSync (setPreviousContent (getText (editor s)) s) = false).
  { unfold shouldSync. cbn. rewrite Hg. reflexivity. }
  rewrite Hs. cbn. repeat split; destruct (tocRafRef s); reflexivity.
Qed.

Lemma updates_guarded (us : list UpdateEvent) (s : State) :
  applyingRemoteRef s = true ->
  resultOf (forEach updateListener us s) = Normal tt /\
  sameSyncState s (stateOf (forEach updateListener us s)) /\
  List.filter isPost (effectsOf (forEach updateListener us s)) = [] /\
  List.filter isSetDocument (effectsOf (forEach updateListener us s)) = [].
Proof.
  revert s. induction us as [|u us IH]; intros s Hg.
  - cbn. auto using sameSyncState_refl.
  - destruct (updateListener_guarded u s Hg) as (Hr & Hsame & Hp & Hd).
    cbn [forEach]. unfold Prog.bind.
    destruct (updateListener u s) as [[r s1] l1] eqn:Hu.
    unfold resultOf, stateOf, effectsOf in Hr, Hsame, Hp, Hd. cbn in Hr, Hsame, Hp, Hd.
    subst r.
    assert (Hg1 : applyingRemoteRef s1 = true).
    { destruct Hsame as (_ & _ & Ha & _). congruence. }
    destruct (IH s1 Hg1) as (Hr' & Hsame' & Hp' & Hd').
    destruct (forEach updateListener us s1) as [[r2 s2] l2].
    unfold resultOf, stateOf, effectsOf in *. cbn in *.
    rewrite !List.filter_app, Hp, Hp', Hd, Hd'.
    eauto using sameSyncState_trans.
Qed.

Lemma editor_setDocument_guarded (markdown : string) (s : State) :
  applyingRemoteRef s = true ->
  resultOf (editor_setDocument markdown s) = Normal tt /\
  sameSyncState (setEditor (setMarkdown markdown (editor s)) s)
    (stateOf (editor_setDocument markdown s)) /\
  List.filter isPost (effectsOf (editor_setDocument markdown s)) = [] /\
  List.filter isSetDocument (effectsOf (editor_setDocument markdown s)) = [SetDocument markdown].
Proof.
  intros Hg. unfold editor_setDocument. prog_simpl.
  pose proof (updates_guarded (updatesDuringSet markdown (editor s))
                (setEditor (setMarkdown markdown (editor s)) s) Hg) as (Hr & Hsame & Hp & Hd).
  destruct (forEach updateListener _ _) as [[r s2] l2].
  unfold resultOf, stateOf, effectsOf in *. cbn in *.
  rewrite Hp, Hd. auto.
Qed.

Lemma setEditorMarkdown_not_ready (markdown : string) (s : State) :
  readyRef s = false ->
  setEditorMarkdown markdown s =
  (Normal tt, setPending (Some markdown) (setHasUserInteraction false s), []).
Proof. intros Hr. unfold setEditorMarkdown. prog_simpl. rewrite Hr. reflexivity. Qed.

Lemma setEditorMarkdown_same (markdown : string) (s : State) :
  readyRef s = true -> getMarkdown (editor s) = markdown ->
  setEditorMarkdown markdown s =
  (Normal tt, setLastSynced markdown (setHasUserInteraction false s), []).
Proof.
  intros Hr Hm. unfold setEditorMarkdown. prog_simpl. rewrite Hr, Hm, String.eqb_refl.
  reflexivity.
Qed.

(** A snapshot that differs from the editor's markdown replaces the
    document once, under the guard, and asks for an outline pass. *)
Lemma setEditorMarkdown_differs (markdown : string) (s : State) :
  readyRef s = true -> getMarkdown (editor s) <> markdown ->
  let r := setEditorMarkdown markdown s in
  resultOf r = Normal tt /\
  editor (stateOf r) = setMarkdown markdown (editor s) /\
  readyRef (stateOf r) = true /\
  applyingRemoteRef (stateOf r) = false /\
  hasUserInteractionRef (stateOf r) = false /\
  lastSyncedMarkdownRef (stateOf r) = markdown /\
  List.filter isPost (effectsOf r) = [] /\
  List.filter isSetDocument (effectsOf r) = [SetDocument markdown] /\
  RequestTocFrame ∈ effectsOf r.
Proof.
  intros Hr Hm r. subst r. unfold setEditorMarkdown. prog_simpl. rewrite Hr. cbn.
  destruct (String.eqb_spec (getMarkdown (editor s)) markdown) as [?|_]; [contradiction|].
  set (s1 := setApplyingRemote true (setHasUserInteraction false s)).
  pose proof (editor_setDocument_guarded markdown s1 eq_refl) as (Hres & Hsame & Hp & Hd).
  destruct (editor_setDocument markdown s1) as [[r s2] l2].
  unfold resultOf, stateOf, effectsOf in *. cbn in *. subst r. cbn.
  rewrite scheduleTocSync_run. cbn.
  destruct Hsame as (He & Hrd & Ha & Hu & Hl & Hpend & Hup). cbn in *.
  rewrite !List.filter_app, Hp, Hd.
  repeat split; try assumption; try congruence.
  - destruct (tocRafRef s2); reflexivity.
  - destruct (tocRafRef s2); reflexivity.
  - rewrite !elem_of_app. right. destruct (tocRafRef s2); cbn;
      rewrite ?elem_of_cons; auto.
Qed.

(** C2 (amended). Once the editor is ready, a snapshot whose content is,
    character for character, the editor's current markdown changes the
    last synchronised content
    (set to that content) and the interaction latch (reset), and nothing
    else: the document is not touched, no message is posted and no outline
    pass is requested.  Applying the same snapshot again changes nothing
    more. *)
Theorem setEditorMarkdown_same_content (s : State) (markdown : string) :
  readyRef s = true ->
  getMarkdown (editor s) = markdown ->
  let r1 := setEditorMarkdown markdown s in
  let r2 := setEditorMarkdown markdown (stateOf r1) in
  resultOf r1 = Normal tt /\ effectsOf r1 = [] /\
  stateOf r1 = setLastSynced markdown (setHasUserInteraction false s) /\
  editor (stateOf r1) = editor s /\
  effectsOf r2 = [] /\ stateOf r2 = stateOf r1.
Proof.
  intros Hr Hm r1 r2. subst r2 r1.
  pose proof (setEditorMarkdown_same markdown s Hr Hm) as H1.
  pose proof (setEditorMarkdown_same markdown
                (setLastSynced markdown (setHasUserInteraction false s)) Hr Hm) as H2.
  rewrite H1. unfold resultOf, stateOf, effectsOf. cbn [fst snd].
  rewrite H2. cbn [fst snd]. repeat split; reflexivity.
Qed.

(** Applying a snapshot twice: when the engine gives back the markdown it
    was given, the second application finds the content in place and does
    not touch the document nor the outline. *)
Lemma setEditorMarkdown_twice (s : State) (markdown : string) :
  readyRef s = true ->
  getMarkdown (setMarkdown markdown (editor s)) = markdown ->
  let r1 := setEditorMarkdown markdown s in
  effectsOf (setEditorMarkdown markdown (stateOf r1)) = [].
Proof.
  intros Hr Hrt r1. subst r1.
  destruct (String.eqb_spec (getMarkdown (editor s)) markdown) as [Hm|Hm].
  - rewrite (setEditorMarkdown_same markdown s Hr Hm). unfold stateOf. cbn [fst snd].
    now rewrite (setEditorMarkdown_same markdown
                   (setLastSynced markdown (setHasUserInteraction false s)) Hr Hm).
  - pose proof (setEditorMarkdown_differs markdown s Hr Hm) as H. cbv zeta in H.
    destruct H as (_ & He & Hrd & _).
    rewrite (setEditorMarkdown_same markdown (stateOf (setEditorMarkdown markdown s)));
      [reflexivity|assumption|congruence].
Qed.

Lemma buffered_frame ms s :
  editor (buffered ms s) = editor s /\
  readyRef (buffered ms s) = readyRef s /\
  applyingRemoteRef (buffered ms s) = applyingRemoteRef s /\
  lastSyncedMarkdownRef (buffered ms s) = lastSyncedMarkdownRef s.
Proof.
  revert s. induction ms as [|m ms IH]; intros s; [cbn; auto|].
  cbn [buffered fold_left]. destruct (IH (setPending (Some m) (setHasUserInteraction false s)))
    as (H1 & H2 & H3 & H4).
  unfold buffered in *. rewrite H1, H2, H3, H4. auto.
Qed.

Lemma buffered_last ms m s :
  pendingRemoteContentRef (buffered (ms ++ [m]) s) = Some m.
Proof. unfold buffered. rewrite fold_left_app. reflexivity. Qed.

Lemma pre_init_run ms s :
  readyRef s = false ->
  forEach setEditorMarkdown ms s = (Normal tt, buffered ms s, []).
Proof.
  revert s. induction ms as [|m ms IH]; intros s Hr; [reflexivity|].
  cbn [forEach]. unfold Prog.bind. rewrite (setEditorMarkdown_not_ready m s Hr).
  rewrite IH by exact Hr. reflexivity.
Qed.

(** C10 (amended). Snapshots that arrive before the editor has initialised are
    buffered: none touches the document, the last synchronised content or
    the channel to the host, and each replaces the one buffered before.
    When the editor initialises, whatever the user did in between, the last
    buffered content is set exactly once, with the guard up while the
    engine reports its updates, then becomes the last synchronised content;
    no message is posted to the host, neither then nor by an update the
    engine reports afterwards, as long as the user has not touched the
    editor or the engine shows the markdown it was given. *)
Theorem pre_init_snapshots_applied_once
    (s : State) (ms : list string) (m : string) (interacted : bool) :
  readyRef s = false ->
  let before := forEach setEditorMarkdown (ms ++ [m]) s in
  let s1 := setHasUserInteraction interacted (stateOf before) in
  let during := setEditor (setMarkdown m (editor s1)) (setApplyingRemote true (setReady true s1)) in
  let after := onInit s1 in
  (effectsOf before = [] /\
   editor (stateOf before) = editor s /\
   lastSyncedMarkdownRef (stateOf before) = lastSyncedMarkdownRef s /\
   pendingRemoteContentRef (stateOf before) = Some m)
  /\ (List.filter isSetDocument (effectsOf after) = [SetDocument m] /\
      List.filter isPost (effectsOf after) = [] /\
      applyingRemoteRef during = true /\
      (forall u, List.filter isPost (effectsOf (updateListener u during)) = []) /\
      editor (stateOf after) = setMarkdown m (editor s) /\
      readyRef (stateOf after) = true /\
      applyingRemoteRef (stateOf after) = false /\
      lastSyncedMarkdownRef (stateOf after) = m /\
      (forall u,
         interacted = false \/ getMarkdown (setMarkdown m (editor s)) = m ->
         List.filter isPost (effectsOf (updateListener u (stateOf after))) = [])).
Proof.
  intros Hr before s1 during after.
  assert (Hb : before = (Normal tt, buffered (ms ++ [m]) s, [])).
  { subst before. now apply pre_init_run. }
  destruct (buffered_frame (ms ++ [m]) s) as (Hed & Hrd & Hap & Hls).
  pose proof (buffered_last ms m s) as Hpend.
  split.
  - rewrite Hb. unfold effectsOf, stateOf. cbn [fst snd]. auto.
  - assert (Hs1 : s1 = setHasUserInteraction interacted (buffered (ms ++ [m]) s)).
    { subst s1. rewrite Hb. reflexivity. }
    assert (Hp1 : pendingRemoteContentRef s1 = Some m) by (rewrite Hs1; exact Hpend).
    assert (He1 : editor s1 = editor s) by (rewrite Hs1; exact Hed).
    assert (Hi1 : hasUserInteractionRef s1 = interacted) by (rewrite Hs1; reflexivity).
    clearbody s1. clear Hb before Hs1.
    subst after. unfold onInit. prog_simpl. rewrite Hp1. cbn.
    set (s2 := setApplyingRemote true (setReady true s1)).
    pose proof (editor_setDocument_guarded m s2 eq_refl) as (Hres & Hsame & Hp & Hd).
    destruct (editor_setDocument m s2) as [[r s3] l3].
    unfold resultOf, stateOf, effectsOf in *. cbn in *. subst r. cbn.
    rewrite scheduleTocSync_run. cbn.
    destruct Hsame as (He & Hrd' & Ha & Hu & Hl & Hpd & Hup). cbn in *.
    rewrite !List.filter_app, Hp, Hd.
    repeat split.
    + cbn. destruct (tocRafRef s3); reflexivity.
    + cbn. destruct (tocRafRef s3); reflexivity.
    + intros u. apply (updateListener_guarded u during eq_refl).
    + congruence.
    + exact Hrd'.
    + intros u Hquiet. apply updateListener_quiet. unfold shouldSync. cbn.
      rewrite Hu, He, He1, Hi1. cbn.
      destruct Hquiet as [-> | Hback]; [reflexivity|].
      rewrite Hback, String.eqb_refl. now rewrite andb_false_r.
Qed.

(** On the surface, a result settles the pending upload of its
    identifier once and forgets it; a result for an identifier that is not
    pending, the empty one included, is ignored. *)
Lemma upload_result_settles_once (userLanguage requestId : string) (ok : bool)
    (url error : option string) (s : State) :
  let r := handleMessage userLanguage (CmdUploadImageResult requestId ok url error) s in
  ((requestId ∉ uploadResolversRef s) -> r = (Normal tt, s, [])) /\
  ((requestId ∈ uploadResolversRef s) ->
   (requestId ∉ uploadResolversRef (stateOf r)) /\
   exists e, effectsOf r = [e] /\
     (e = ResolveUpload requestId (default "" url) \/ exists text, e = RejectUpload requestId text)).
Proof.
  intros r. subst r. unfold handleMessage. prog_unfold.
  destruct (decide (requestId ∈ uploadResolversRef s)) as [Hin|Hout].
  - split; [contradiction|]. intros _.
    destruct ok, url as [u|]; cbn; try destruct (String.eqb u "");
      (split; [intros Hstill; cbn [fst snd uploadResolversRef setUploadResolvers] in Hstill;
                 apply elem_of_difference in Hstill as [_ Hnot];
                 apply Hnot; now apply elem_of_singleton_2|]);
      eexists; (split; [reflexivity|]); eauto.
  - split; [reflexivity|contradiction].
Qed.

End SurfaceSync.

(** C1 fails as stated on the notifications that the listener of the
    engine does not pass on.  The editor is ready and shows a text the user
    has touched, no remote update is being applied and the markdown differs
    from the last synchronised content; yet a notification that leaves the
    text projection as it was posts nothing, and so does one without a
    dirty node, whatever the document it comes with. *)
Lemma notification_not_passed_on_posts_nothing :
  (Surface.applyingRemoteRef (Surface.exampleTouched "# A") = false /\
   Surface.hasUserInteractionRef (Surface.exampleTouched "# A") = true /\
   Surface.getMarkdown (Surface.editor (Surface.exampleTouched "# A"))
   <> Surface.lastSyncedMarkdownRef (Surface.exampleTouched "# A"))
  /\ ~ (exists m, Surface.PostMessage (Surface.OutEdit m) ∈
          Prog.effectsOf (Surface.engineUpdate (E := Surface.plainEngine) "# A"
                            {| Surface.dirtyElements := 1; Surface.dirtyLeaves := 1 |}
                            (Surface.exampleTouched "# A")))
  /\ ~ (exists m, Surface.PostMessage (Surface.OutEdit m) ∈
          Prog.effectsOf (Surface.engineUpdate (E := Surface.plainEngine) "# B"
                            {| Surface.dirtyElements := 0; Surface.dirtyLeaves := 0 |}
                            (Surface.exampleTouched "# A"))).
Proof.
  split; [split; [reflexivity|split; [reflexivity|discriminate]]|].
  split; intros [m Hm]; vm_compute in Hm; inversion Hm.
Qed.

(** C2 fails as stated, at a ready editor showing a text the user has
    just touched: applying a snapshot with the same text also resets the
    interaction latch.  Before initialisation the snapshot is buffered and
    the last synchronised content is left alone.  And a snapshot that
    differs from the editor's markdown by its line endings only, hence is
    equal to it in canonical form, is compared as it is and replaces the
    document. *)
Lemma setEditorMarkdown_changes_more_than_lastSynced :
  (Surface.readyRef (Surface.exampleTouched "# A") = true /\
   Surface.getMarkdown (Surface.editor (Surface.exampleTouched "# A")) = "# A" /\
   Surface.hasUserInteractionRef (Surface.exampleTouched "# A") = true /\
   Surface.hasUserInteractionRef
     (Prog.stateOf (Surface.setEditorMarkdown "# A" (Surface.exampleTouched "# A"))) = false /\
   Prog.stateOf (Surface.setEditorMarkdown "# A" (Surface.exampleTouched "# A"))
     <> Surface.setLastSynced "# A" (Surface.exampleTouched "# A"))
  /\ (Surface.lastSyncedMarkdownRef
        (Prog.stateOf (Surface.setEditorMarkdown "# A" (Surface.exampleMounted "# A"))) = "" /\
      Surface.pendingRemoteContentRef
        (Prog.stateOf (Surface.setEditorMarkdown "# A" (Surface.exampleMounted "# A")))
      = Some "# A")
  /\ (toCanonical Surface.twoLinesCrlf
      = toCanonical
          (Surface.getMarkdown (Surface.editor (Surface.exampleTouched Surface.twoLinesLf))) /\
      List.filter isSetDocument
        (Prog.effectsOf (Surface.setEditorMarkdown Surface.twoLinesCrlf
                           (Surface.exampleTouched Surface.twoLinesLf)))
      = [Surface.SetDocument Surface.twoLinesCrlf]).
Proof.
  repeat split; try reflexivity.
  intros H. apply (f_equal Surface.hasUserInteractionRef) in H. discriminate H.
Qed.

Lemma setEditorMarkdown_same_content_witness :
  let s := Surface.exampleTouched "# A" in
  Prog.effectsOf (Surface.setEditorMarkdown "# A" s) = [] /\
  Prog.stateOf (Surface.setEditorMarkdown "# A" s)
  = Surface.setLastSynced "# A" (Surface.setHasUserInteraction false s).
Proof.
  pose proof (@setEditorMarkdown_same_content Surface.plainEngine
                (Surface.exampleTouched "# A") "# A" eq_refl eq_refl) as H.
  cbv zeta in H. destruct H as (_ & H1 & H2 & _). split; assumption.
Defined.

Lemma pre_init_snapshots_applied_once_witness :
  List.filter isSetDocument
    (Prog.effectsOf (Surface.onInit
       (Prog.stateOf (Prog.forEach Surface.setEditorMarkdown ["# A"; "# B"]
                        (Surface.exampleMounted "")))))
  = [Surface.SetDocument "# B"].
Proof.
  pose proof (@pre_init_snapshots_applied_once Surface.plainEngine
                (Surface.exampleMounted "") ["# A"] "# B" false eq_refl) as H.
  cbv zeta in H. destruct H as (_ & H & _). exact H.
Defined.

(** ** Outline extraction *)

Section Outline.

Import Js Surface.

Lemma sameItems_eq (a b : list TocItem) : sameItems a b = true <-> a = b.
Proof.
  revert b. induction a as [|x a IH]; intros [|y b]; cbn; try (split; congruence).
  rewrite !andb_true_iff, IH, !String.eqb_eq, !Z.eqb_eq.
  split.
  - intros ((((Hi & Hd) & Hl) & Ht) & ->). destruct x, y; cbn in *; congruence.
  - intros H. injection H as -> ->. auto.
Qed.

Lemma isSameToc_eq (a b : list TocItem) : isSameToc a b = true <-> a = b.
Proof.
  unfold isSameToc. destruct (Nat.eqb_spec (length a) (length b)) as [Hl|Hl]; cbn.
  - apply sameItems_eq.
  - split; [discriminate|]. intros ->. contradiction.
Qed.

(** The outline kept by the component after a pass is the extracted one,
    whether or not the previous array was reused. *)
Lemma updateTocFromDom_items titleText headingNodes st :
  tocItems (snd (updateTocFromDom titleText headingNodes st))
  = nextTocItems titleText headingNodes.
Proof.
  unfold updateTocFromDom. cbn [snd].
  destruct (isSameToc (tocItems st) (nextTocItems titleText headingNodes)) eqn:Hs.
  - apply isSameToc_eq in Hs. destruct (nextTocItems titleText headingNodes); exact Hs.
  - destruct (nextTocItems titleText headingNodes); reflexivity.
Qed.

Lemma headingId_not_title (index : nat) : headingId index <> tocTitleId.
Proof. unfold headingId, tocTitleId. cbn. discriminate. Qed.

Lemma nextTocItems_cons (titleText : string) (headingNodes : list HeadingNode) :
  extractItems headingNodes <> [] ->
  nextTocItems titleText headingNodes = titleItem titleText :: extractItems headingNodes.
Proof. unfold nextTocItems. destruct (extractItems headingNodes); [congruence|reflexivity]. Qed.

Lemma nextTocItems_nil (titleText : string) (headingNodes : list HeadingNode) :
  extractItems headingNodes = [] -> nextTocItems titleText headingNodes = [].
Proof. unfold nextTocItems. intros ->. reflexivity. Qed.

(** C9. The outline lists, in document order, the headings whose trimmed
    text is not empty; the one at position [k] among them gets the
    identifier [toc-heading-k], its level and the depth [max 0 (level - 1)].
    A single title entry of depth 0 comes first exactly when some heading
    is kept; otherwise the outline is empty. *)
Theorem updateTocFromDom_outline
    (titleText : string) (headingNodes : list HeadingNode) (st : TocState) :
  let kept :=
    List.filter (fun node => negb (String.eqb (headingText node) "")) headingNodes in
  let outline := tocItems (snd (updateTocFromDom titleText headingNodes st)) in
  (kept = [] <-> outline = [])
  /\ (kept <> [] <->
      outline !! 0 = Some {| depth := 0; id := tocTitleId; level := 1; text := titleText |})
  /\ length outline = (if decide (kept = []) then 0 else S (length kept))
  /\ (forall k item, outline !! S k = Some item ->
        id item <> tocTitleId /\
        exists node, kept !! k = Some node /\
          item = {| depth := Z.max 0 (levelOf (tagName node) - 1);
                    id := "toc-heading-" ++ pretty k;
                    level := levelOf (tagName node);
                    text := headingText node |})
  /\ (forall k node, kept !! k = Some node -> exists item, outline !! S k = Some item).
Proof.
  intros kept outline. subst outline. rewrite updateTocFromDom_items.
  fold hasText in kept.
  assert (Hlen : length (extractItems headingNodes) = length kept)
    by apply length_imap.
  assert (Hlk : forall k, extractItems headingNodes !! k = itemOf k <$> kept !! k)
    by (intros k; apply list_lookup_imap).
  clearbody kept. destruct kept as [|n kept].
  - rewrite nextTocItems_nil by (now apply length_zero_iff_nil).
    repeat split; try congruence; try discriminate.
  - rewrite nextTocItems_cons by (intros H; now rewrite H in Hlen).
    generalize dependent (extractItems headingNodes). intros items Hlen Hlk.
    split; [split; discriminate|].
    split; [split; [reflexivity|discriminate]|].
    split.
    { destruct (decide (n :: kept = [])); [discriminate|]. cbn [length]. now rewrite Hlen. }
    split.
    + intros k item H. cbn in H. rewrite Hlk in H.
      destruct ((n :: kept) !! k) as [node|] eqn:Hk; [|discriminate].
      cbn in H. injection H as <-. split; [apply headingId_not_title|].
      exists node. split; reflexivity.
    + intros k node Hk. exists (itemOf k node). cbn. rewrite Hlk, Hk. reflexivity.
Qed.

(** The attributes left on the headings agree with the outline: a kept
    heading carries the identifier of its position among the kept ones, a
    heading without text carries none. *)
Lemma tagNodes_ids (index : nat) (headingNodes : list HeadingNode) :
  omap datasetTocId (tagNodes index headingNodes)
  = imap (fun k _ => headingId (index + k)) (List.filter hasText headingNodes).
Proof.
  revert index. induction headingNodes as [|n ns IH]; intros index; [reflexivity|].
  cbn [tagNodes List.filter]. destruct (hasText n); cbn.
  - rewrite IH. f_equal; [f_equal; lia|].
    apply imap_ext. intros k x _. cbn. f_equal. lia.
  - apply IH.
Qed.

End Outline.

(** ** Unique asset names *)

Section AssetNames.

Import Js Prog Host.
Context {R : Runtime}.

Lemma fs_access_run (p : string) (s : State) :
  fs_access p s =
  if decide (pathExists (fs s) p) then (Normal tt, s, [])
  else (Throw (SystemError "ENOENT"
                 ("ENOENT: no such file or directory, access '" ++ p ++ "'")), s, []).
Proof.
  unfold fs_access, pathExists. prog_simpl.
  destruct (decide (is_Some (files (fs s) !! p) ∨ p ∈ dirs (fs s))); reflexivity.
Qed.

Section Probe.
Variables assetsDir baseName stamp extension : string.

Local Abbreviation candidate := (candidate assetsDir baseName stamp extension).

Lemma probeFrom_step (remaining index : nat) (s : State) :
  probeFrom assetsDir baseName stamp extension (S remaining) index s =
  if decide (pathExists (fs s) (candidate index))
  then probeFrom assetsDir baseName stamp extension remaining (S index) s
  else (Normal (candidate index), s, []).
Proof.
  cbn [probeFrom]. prog_unfold. rewrite fs_access_run. fold (candidate index).
  destruct (decide (pathExists (fs s) (candidate index))); cbn.
  - destruct (probeFrom assetsDir baseName stamp extension remaining (S index) s)
      as [[r s'] l]. reflexivity.
  - reflexivity.
Qed.

(** The probe reads the disk and nothing else. *)
Lemma probeFrom_pure (remaining index : nat) (s : State) :
  stateOf (probeFrom assetsDir baseName stamp extension remaining index s) = s /\
  effectsOf (probeFrom assetsDir baseName stamp extension remaining index s) = [].
Proof.
  revert index. induction remaining as [|n IH]; intros index; [split; reflexivity|].
  rewrite probeFrom_step. destruct (decide _); [apply IH|split; reflexivity].
Qed.

Lemma probeFrom_finds (remaining index k : nat) (s : State) :
  k < remaining ->
  (forall j, j < k -> pathExists (fs s) (candidate (index + j))) ->
  ~ pathExists (fs s) (candidate (index + k)) ->
  probeFrom assetsDir baseName stamp extension remaining index s
  = (Normal (candidate (index + k)), s, []).
Proof.
  revert index k. induction remaining as [|n IH]; intros index k Hk Hbusy Hfree; [lia|].
  rewrite probeFrom_step. destruct k as [|k].
  - rewrite Nat.add_0_r in *. destruct (decide _); [contradiction|reflexivity].
  - destruct (decide _) as [_|Hn].
    + replace (index + S k) with (S index + k) in * by lia.
      apply IH; [lia| |assumption].
      intros j Hj. replace (S index + j) with (index + S j) by lia. apply Hbusy. lia.
    + exfalso. apply Hn. specialize (Hbusy 0). rewrite Nat.add_0_r in Hbusy.
      apply Hbusy. lia.
Qed.

Lemma probeFrom_exhausted (remaining index : nat) (s : State) :
  (forall j, j < remaining -> pathExists (fs s) (candidate (index + j))) ->
  probeFrom assetsDir baseName stamp extension remaining index s
  = (Throw (JsError "Could not generate a unique image filename. Please try again."), s, []).
Proof.
  revert index. induction remaining as [|n IH]; intros index Hbusy; [reflexivity|].
  rewrite probeFrom_step. destruct (decide _) as [_|Hn].
  - apply IH. intros j Hj. replace (S index + j) with (index + S j) by lia.
    apply Hbusy. lia.
  - exfalso. apply Hn. specialize (Hbusy 0). rewrite Nat.add_0_r in Hbusy.
    apply Hbusy. lia.
Qed.

(** Conversely, a name the probe returns is free, and all the names before
    it are taken. *)
Lemma probeFrom_result (remaining index : nat) (s : State) (p : string) :
  resultOf (probeFrom assetsDir baseName stamp extension remaining index s) = Normal p ->
  ~ pathExists (fs s) p /\
  exists k, k < remaining /\ p = candidate (index + k) /\
    forall j, j < k -> pathExists (fs s) (candidate (index + j)).
Proof.
  revert index. induction remaining as [|n IH]; intros index; [discriminate|].
  rewrite probeFrom_step. destruct (decide _) as [Hex|Hn].
  - intros H. destruct (IH _ H) as (Hfree & k & Hk & -> & Hbusy).
    split; [assumption|]. exists (S k). split; [lia|].
    split; [f_equal; lia|].
    intros [|j] Hj; [now rewrite Nat.add_0_r|].
    replace (index + S j) with (S index + j) by lia. apply Hbusy. lia.
  - intros H. injection H as <-. split; [assumption|].
    exists 0. rewrite Nat.add_0_r. split; [lia|]. split; [reflexivity|]. intros j Hj. lia.
Qed.

End Probe.

(** C7. The generator probes [base-stamp.ext], then [base-stamp-1.ext],
    [base-stamp-2.ext], ... up to [base-stamp-999.ext], and returns the
    first name that nothing has: with the unsuffixed name taken and the
    [-1] name free it returns the [-1] name, and so on.  When all 1000
    names are taken it throws; in no case does it touch the disk. *)
Theorem createUniqueImageFilePath_first_free
    (now : DateTime) (assetsDir baseName extension : string) (s : State) :
  let name := fun index =>
    path_join assetsDir (candidateName baseName (stampOf now) extension index) in
  let r := createUniqueImageFilePath now assetsDir baseName extension s in
  (name 0 = path_join assetsDir (baseName ++ "-" ++ stampOf now ++ extension) /\
   forall k, name (S k) =
     path_join assetsDir (baseName ++ "-" ++ stampOf now ++ "-" ++ pretty (S k) ++ extension))
  /\ (forall k, k < 1000 ->
        (forall j, j < k -> pathExists (fs s) (name j)) ->
        ~ pathExists (fs s) (name k) ->
        resultOf r = Normal (name k))
  /\ ((forall j, j < 1000 -> pathExists (fs s) (name j)) ->
      resultOf r =
      Throw (JsError "Could not generate a unique image filename. Please try again."))
  /\ (forall p, resultOf r = Normal p -> ~ pathExists (fs s) p)
  /\ stateOf r = s /\ effectsOf r = [].
Proof.
  intros name r. subst r. unfold createUniqueImageFilePath.
  split; [split|split; [|split; [|split]]].
  - subst name. unfold candidateName. cbn. reflexivity.
  - intros k. subst name. unfold candidateName. cbn. reflexivity.
  - intros k Hk Hbusy Hfree.
    rewrite (probeFrom_finds assetsDir baseName (stampOf now) extension 1000 0 k s Hk Hbusy Hfree).
    reflexivity.
  - intros Hbusy.
    rewrite (probeFrom_exhausted assetsDir baseName (stampOf now) extension 1000 0 s Hbusy).
    reflexivity.
  - intros p Hp. eapply probeFrom_result. exact Hp.
  - apply probeFrom_pure.
Qed.

End AssetNames.

(** The scenario of a second save within the same second: the unsuffixed
    name is taken, the name with suffix [-1] is returned. *)
Lemma createUniqueImageFilePath_first_free_witness :
  Prog.resultOf
    (Host.createUniqueImageFilePath Host.newYear2024 "/notes/assets" "image" ".png"
       (Host.hostWithFiles 1 ["/notes/assets/image-20240101-000000.png"]))
  = Prog.Normal "/notes/assets/image-20240101-000000-1.png".
Proof.
  pose proof (@createUniqueImageFilePath_first_free (Host.exampleRuntime 1)
                Host.newYear2024 "/notes/assets" "image" ".png"
                (Host.hostWithFiles 1 ["/notes/assets/image-20240101-000000.png"])) as H.
  cbv zeta in H. destruct H as (_ & H & _).
  apply (H 1).
  - lia.
  - intros j Hj. assert (j = 0) as -> by lia. left. exists 1%Z. vm_compute. reflexivity.
  - intros [[x Hx]|Hd].
    + vm_compute in Hx. discriminate Hx.
    + exact (not_elem_of_empty (C := gset string) _ Hd).
Defined.

(** ** Image upload *)

Section Upload.

Import Js Prog Host.
Context {R : Runtime}.

Lemma saveImageToAssets_run (now : DateTime) (data : string) (fn mt : option string) (s : State) :
  saveImageToAssets now data fn mt s =
  if decide (is_Some (files (fs s) !! assetsDirOf s))
  then (Throw (SystemError "EEXIST"
                 ("EEXIST: file already exists, mkdir '" ++ assetsDirOf s ++ "'")), s, [])
  else
    match fs_mkdir_fault (assetsDirOf s) with
    | Some (code, text) => (Throw (SystemError code text), s, [])
    | None =>
        match resultOf (createUniqueImageFilePath now (assetsDirOf s) (safeImageBaseName fn)
                          (inferImageExtension fn mt) (withAssetsDir s)) with
        | Throw e => (Throw e, withAssetsDir s, [])
        | Normal p => checkedWrite (withAssetsDir s) p (stripDataUri data)
        end
    end.
Proof.
  unfold saveImageToAssets, fs_mkdir, fs_writeFile, checkedWrite. prog_unfold.
  fold (assetsDirOf s).
  destruct (decide (is_Some (files (fs s) !! assetsDirOf s))); [reflexivity|].
  destruct (fs_mkdir_fault (assetsDirOf s)) as [[code text]|]; [reflexivity|].
  fold (withAssetsDir s).
  pose proof (probeFrom_pure (assetsDirOf s) (safeImageBaseName fn)
                (stampOf now) (inferImageExtension fn mt) 1000 0 (withAssetsDir s)) as [Hs He].
  unfold createUniqueImageFilePath in *.
  destruct (probeFrom _ _ _ _ _ _ _) as [[[p|e] s2] l2];
    unfold stateOf, effectsOf in Hs, He; cbn [fst snd] in Hs, He; subst s2 l2;
    cbn [fst snd]; [|reflexivity].
  destruct (negb (base64Test (stripDataUri data))); [reflexivity|].
  destruct (Buffer_length (Buffer_from_base64 (stripDataUri data)) =? 0)%Z; [reflexivity|].
  destruct (Buffer_length (Buffer_from_base64 (stripDataUri data)) >? MAX_SIZE)%Z;
    [reflexivity|].
  destruct (fs_writeFile_fault p (Buffer_from_base64 (stripDataUri data))) as [[code text]|];
    reflexivity.
Qed.

Lemma checkedWrite_effects s1 p raw : effectsOf (checkedWrite s1 p raw) = [].
Proof.
  unfold checkedWrite. repeat (destruct (_ : bool); [reflexivity|]).
  destruct (fs_writeFile_fault _ _) as [[code text]|]; reflexivity.
Qed.

Lemma checkedWrite_throw s1 p raw e :
  resultOf (checkedWrite s1 p raw) = Throw e -> stateOf (checkedWrite s1 p raw) = s1.
Proof.
  unfold checkedWrite. repeat (destruct (_ : bool); [reflexivity|]).
  destruct (fs_writeFile_fault _ _) as [[code text]|]; [reflexivity|discriminate].
Qed.

(** The upload path posts nothing by itself. *)
Lemma saveImageToAssets_effects now data fn mt s :
  effectsOf (saveImageToAssets now data fn mt s) = [].
Proof.
  rewrite saveImageToAssets_run. destruct (decide _); [reflexivity|].
  destruct (fs_mkdir_fault _) as [[code text]|]; [reflexivity|].
  destruct (resultOf _); [apply checkedWrite_effects|reflexivity].
Qed.

(** A failed upload leaves every file as it was. *)
Lemma saveImageToAssets_throw now data fn mt s e :
  resultOf (saveImageToAssets now data fn mt s) = Throw e ->
  files (fs (stateOf (saveImageToAssets now data fn mt s))) = files (fs s).
Proof.
  rewrite saveImageToAssets_run. destruct (decide _); [reflexivity|].
  destruct (fs_mkdir_fault _) as [[code text]|]; [reflexivity|].
  destruct (resultOf (createUniqueImageFilePath _ _ _ _ _)) as [p|e'].
  - intros H. now rewrite (checkedWrite_throw _ _ _ _ H).
  - reflexivity.
Qed.

Lemma upload_image_run (now : DateTime) (outcome : EditOutcome)
    (message : WebviewMessage) (s : State) :
  command message = "upload-image" ->
  onDidReceiveMessage now outcome message s =
  match requestId message with
  | VString rid =>
      if String.eqb rid ""
      then (Normal tt, s, [PostMessage (MsgUploadImageResult
                             (rejection (VString "") "Missing requestId."))])
      else
        match dataBase64 message with
        | VString data =>
            if String.eqb data ""
            then (Normal tt, s, [PostMessage (MsgUploadImageResult
                                   (rejection (VString rid) "Invalid image data."))])
            else
              let saved := saveImageToAssets now data (fileName message) (mimeType message) s in
              (Normal tt, stateOf saved,
               [PostMessage (MsgUploadImageResult (answerOf rid (resultOf saved)))])
        | _ => (Normal tt, s, [PostMessage (MsgUploadImageResult
                                 (rejection (VString rid) "Invalid image data."))])
        end
  | v => (Normal tt, s, [PostMessage (MsgUploadImageResult
                           (rejection (nullish v (VString "")) "Missing requestId."))])
  end.
Proof.
  intros Hcmd. unfold onDidReceiveMessage. rewrite Hcmd. cbn [String.eqb Ascii.eqb Bool.eqb].
  cbv zeta.
  destruct (requestId message) as [| |[]|n|rid]; try reflexivity.
  { cbn. destruct (n =? 0)%Z; reflexivity. }
  cbn [truthy isString negb orb].
  destruct (String.eqb_spec rid "") as [->|Hrid]; [reflexivity|]. cbn [negb orb].
  destruct (dataBase64 message) as [| |[]|n|data]; try reflexivity.
  { cbn. destruct (n =? 0)%Z; reflexivity. }
  cbn [truthy isString negb orb stringOf].
  destruct (String.eqb data ""); [reflexivity|]. cbn [negb orb].
  unfold postResult. prog_unfold.
  pose proof (saveImageToAssets_effects now data (fileName message) (mimeType message) s) as He.
  destruct (saveImageToAssets now data (fileName message) (mimeType message) s)
    as [[[url|e] s'] l]; unfold effectsOf in He; cbn [fst snd] in He; subst l; reflexivity.
Qed.

Lemma saveImageToAssets_reached now data fn mt s :
  validationReached now fn mt s ->
  exists p, saveImageToAssets now data fn mt s
            = checkedWrite (withAssetsDir s) p (stripDataUri data).
Proof.
  intros (Hdir & Hmk & p & Hp). exists p. rewrite saveImageToAssets_run.
  destruct (decide _) as [[x Hx]|_]; [congruence|]. now rewrite Hmk, Hp.
Qed.

(** C5 (amended). Every [upload-image] message is answered with exactly
    one [upload-image-result], on every path, and the handler completes.
    The result carries the request's [requestId] whenever the request has
    one; a request without one ([undefined] or [null]) is answered with the
    empty string as identifier. *)
Theorem upload_image_answered_once (now : DateTime) (outcome : EditOutcome)
    (message : WebviewMessage) (s : State) :
  command message = "upload-image" ->
  let r := onDidReceiveMessage now outcome message s in
  resultOf r = Normal tt /\
  exists result,
    effectsOf r = [PostMessage (MsgUploadImageResult result)] /\
    resultRequestId result = nullish (requestId message) (VString "") /\
    (requestId message <> VUndefined -> requestId message <> VNull ->
     resultRequestId result = requestId message) /\
    (requestId message = VUndefined \/ requestId message = VNull ->
     resultRequestId result = VString "").
Proof.
  intros Hcmd r. subst r. rewrite (upload_image_run now outcome message s Hcmd).
  assert (Hn : forall v, nullish v (VString "") = v \/ (v = VUndefined \/ v = VNull)).
  { intros []; cbn; auto. }
  assert (Hfin : forall (s' : State) (result : UploadImageResultMessage),
             resultRequestId result = nullish (requestId message) (VString "") ->
             resultOf (Normal tt, s', [PostMessage (MsgUploadImageResult result)]) = Normal tt /\
             exists result0,
               effectsOf (Normal tt, s', [PostMessage (MsgUploadImageResult result)])
               = [PostMessage (MsgUploadImageResult result0)] /\
               resultRequestId result0 = nullish (requestId message) (VString "") /\
               (requestId message <> VUndefined -> requestId message <> VNull ->
                resultRequestId result0 = requestId message) /\
               (requestId message = VUndefined \/ requestId message = VNull ->
                resultRequestId result0 = VString "")).
  { intros s' result Hid. split; [reflexivity|]. exists result.
    split; [reflexivity|]. split; [exact Hid|]. rewrite Hid. split.
    - intros H1 H2. destruct (Hn (requestId message)) as [H|[H|H]]; congruence.
    - intros [H|H]; rewrite H; reflexivity. }
  destruct (requestId message) as [| |b|n|rid] eqn:Hrid; try (apply Hfin; reflexivity).
  destruct (String.eqb_spec rid "") as [->|Hne]; [apply Hfin; reflexivity|].
  destruct (dataBase64 message) as [| |b|n|data]; try (apply Hfin; reflexivity).
  destruct (String.eqb data ""); [apply Hfin; reflexivity|].
  cbv zeta. apply Hfin. destruct (resultOf _); reflexivity.
Qed.

(** C6 (amended). A request whose payload decodes to more than 10 MiB,
    or to nothing, is answered with [ok: false]; no file is written and
    the handler completes normally.  The message is the size-limit one,
    which contains [10 MB], respectively the empty-data one, when the
    request has an identifier and the upload gets as far as the size
    checks: the [assets] directory could be made, a free name was found and
    the payload passed the encoding test, all of which comes first. *)
Theorem oversized_or_empty_upload_rejected (now : DateTime) (outcome : EditOutcome)
    (message : WebviewMessage) (s : State) (data : string) :
  command message = "upload-image" ->
  dataBase64 message = VString data ->
  let size := Buffer_length (Buffer_from_base64 (stripDataUri data)) in
  (size > MAX_SIZE \/ size = 0)%Z ->
  let r := onDidReceiveMessage now outcome message s in
  resultOf r = Normal tt /\
  files (fs (stateOf r)) = files (fs s) /\
  exists text,
    effectsOf r = [PostMessage (MsgUploadImageResult
                     {| resultRequestId := nullish (requestId message) (VString "");
                        resultOk := false;
                        resultUrl := None; resultError := Some text |})] /\
    (forall rid, requestId message = VString rid -> rid <> "" ->
     validationReached now (fileName message) (mimeType message) s ->
     base64Test (stripDataUri data) = true ->
     ((size > MAX_SIZE)%Z ->
      text = "Image exceeds the 10 MB size limit (got " ++ toFixed1_MiB size ++ " MB)." /\
      includesStr "10 MB" text = true) /\
     (size = 0%Z -> text = "Image data is empty. Save failed.")).
Proof.
  intros Hcmd Hdata size Hsize r. subst r.
  rewrite (upload_image_run now outcome message s Hcmd), Hdata.
  destruct (requestId message) as [| |b|n|rid] eqn:Hrid;
    try (split; [reflexivity|]; split; [reflexivity|]; eexists;
         split; [reflexivity|]; intros ? [=]).
  destruct (String.eqb_spec rid "") as [->|Hne].
  { split; [reflexivity|]. split; [reflexivity|]. eexists. split; [reflexivity|].
    intros ? [= <-] ?. contradiction. }
  destruct (String.eqb_spec data "") as [->|Hdne].
  { split; [reflexivity|]. split; [reflexivity|]. eexists. split; [reflexivity|].
    intros _ _ _ _ Htest. discriminate Htest. }
  cbv zeta. unfold resultOf at 1, stateOf at 1, effectsOf at 1. cbn [fst snd nullish].
  set (saved := saveImageToAssets now data (fileName message) (mimeType message) s).
  assert (Hthrow : exists e, resultOf saved = Throw e).
  { subst saved. rewrite saveImageToAssets_run. destruct (decide _); [eauto|].
    destruct (fs_mkdir_fault _) as [[code text]|]; [eauto|].
    destruct (resultOf (createUniqueImageFilePath _ _ _ _ _)) as [p|e]; [|eauto].
    unfold checkedWrite. destruct (negb _); [eauto|]. fold size.
    destruct (Z.eqb_spec size 0) as [_|Hz]; [eauto|].
    destruct (Z.gtb_spec size MAX_SIZE) as [_|Hle]; [eauto|]. lia. }
  destruct Hthrow as [e He]. split; [reflexivity|].
  split; [subst saved; eapply saveImageToAssets_throw; exact He|].
  exists (errorMessage e). rewrite He. split; [reflexivity|].
  intros rid' _ _ Hreach Htest.
  destruct (saveImageToAssets_reached now data _ _ s Hreach) as [p Hp].
  fold saved in Hp. rewrite Hp in He. unfold checkedWrite in He.
  rewrite Htest in He. cbn [negb] in He. fold size in He.
  assert (Hmax : (0 < MAX_SIZE)%Z) by reflexivity.
  split.
  - intros Hbig. destruct (Z.eqb_spec size 0) as [Hz|_]; [lia|].
    destruct (Z.gtb_spec size MAX_SIZE) as [_|Hle]; [|lia].
    injection He as <-. split; reflexivity.
  - intros Hz. destruct (Z.eqb_spec size 0) as [_|?]; [|contradiction].
    injection He as <-. reflexivity.
Qed.

End Upload.

(** ** The encoding check of uploaded payloads *)

Section Encoding.

Import Js Prog Host.

Lemma onlyPadding_allOf s : onlyPadding s = allOf (isChar "=") s.
Proof. induction s as [|c s IH]; [reflexivity|]. cbn. now rewrite IH. Qed.

Lemma class_not_padding c : isBase64Class c = true -> isChar "=" c = false.
Proof.
  unfold isChar. destruct (Ascii.eqb_spec c "=") as [->|_]; [|reflexivity].
  vm_compute. discriminate.
Qed.

Lemma base64Body_spec (seen : bool) (s : string) :
  base64Body seen s = true <->
  exists body pad,
    s = body ++ pad /\ (seen = true \/ body <> "") /\
    allOf isBase64Class body = true /\ allOf (isChar "=") pad = true.
Proof.
  revert seen. induction s as [|c s IH]; intros seen.
  - cbn. split.
    + intros ->. exists "", "". auto.
    + intros (body & pad & Hs & [H|H] & _); [exact H|].
      destruct body; [congruence|discriminate].
  - cbn [base64Body]. destruct (isBase64Class c) eqn:Hc.
    + rewrite IH. split.
      * intros (body & pad & -> & _ & Hb & Hp).
        exists (String c body), pad. cbn. rewrite Hc, Hb. repeat split; auto.
        all: right; discriminate.
      * intros (body & pad & Hs & _ & Hb & Hp). destruct body as [|b body].
        -- change (String c s = pad) in Hs. rewrite <- Hs in Hp. cbn in Hp.
           rewrite (class_not_padding c Hc) in Hp. discriminate.
        -- cbn in Hs. injection Hs as <- ->. cbn in Hb. rewrite Hc in Hb.
           exists body, pad. auto.
    + rewrite onlyPadding_allOf, andb_true_iff. split.
      * intros [-> Hp]. exists "", (String c s). auto.
      * intros (body & pad & Hs & Hseen & Hb & Hp). destruct body as [|b body].
        -- change (String c s = pad) in Hs. rewrite <- Hs in Hp.
           destruct Hseen as [->|?]; [auto|congruence].
        -- cbn in Hs. injection Hs as <- ->. cbn in Hb. rewrite Hc in Hb. discriminate.
Qed.

Lemma base64Test_spec (raw : string) : base64Test raw = true <-> matchesBase64Regex raw.
Proof.
  unfold base64Test, matchesBase64Regex. rewrite base64Body_spec.
  split; intros (body & pad & Hs & H & Hb & Hp); exists body, pad; repeat split; auto.
  destruct H; [discriminate|assumption].
Qed.

Lemma stripDataUri_plain (data : string) :
  includes "," data = false -> stripDataUri data = data.
Proof. unfold stripDataUri. now intros ->. Qed.

Lemma append_cons (c : ascii) (a b : string) : String c a ++ b = String c (a ++ b).
Proof. reflexivity. Qed.

Lemma includes_append (pre rest : string) : includes "," (pre ++ String "," rest) = true.
Proof.
  induction pre as [|c pre IH]; [reflexivity|].
  rewrite append_cons. cbn [includes]. now destruct (Ascii.eqb c ",").
Qed.

Lemma indexOf_append (pre rest : string) :
  includes "," pre = false ->
  slice (indexOf "," (pre ++ String "," rest) + 1) (pre ++ String "," rest) = rest.
Proof.
  induction pre as [|c pre IH]; [reflexivity|].
  rewrite append_cons. cbn [includes indexOf].
  destruct (Ascii.eqb c ","); [discriminate|]. intros H. cbn [Nat.add slice]. auto.
Qed.

Lemma stripDataUri_prefix (pre rest : string) :
  includes "," pre = false -> stripDataUri (pre ++ String "," rest) = rest.
Proof.
  intros Hpre. unfold stripDataUri. rewrite includes_append. now apply indexOf_append.
Qed.

Context {R : Runtime}.

(** C8 (amended). When the upload gets as far as the encoding check (the
    [assets] directory could be made and a free name was found, which
    [saveImageToAssets] does first): after a data-URI prefix, everything
    up to and including the first comma, has been dropped when there is
    one, the payload is rejected as invalid base64 exactly when what
    remains is not made of one or more characters among the letters, the
    digits, [_], [+] and [/] followed by zero or more [=]. *)
Theorem invalid_encoding_iff (now : DateTime) (data : string)
    (fn mt : option string) (s : State) :
  validationReached now fn mt s ->
  (resultOf (saveImageToAssets now data fn mt s)
   = Throw (JsError "Invalid base64 image data.")
   <-> ~ matchesBase64Regex (stripDataUri data))
  /\ (includes "," data = false -> stripDataUri data = data)
  /\ (forall pre rest, includes "," pre = false -> data = pre ++ String "," rest ->
      stripDataUri data = rest).
Proof.
  intros Hreach. split; [|split].
  - destruct (saveImageToAssets_reached now data fn mt s Hreach) as [p ->].
    rewrite <- base64Test_spec. unfold checkedWrite.
    destruct (base64Test (stripDataUri data)); cbn [negb].
    + split; [|intros H; now destruct H].
      destruct (_ =? 0)%Z; [discriminate|]. destruct (_ >? _)%Z; [discriminate|].
      destruct (fs_writeFile_fault _ _) as [[code text]|]; discriminate.
    + split; [discriminate|reflexivity].
  - apply stripDataUri_plain.
  - intros pre rest Hpre ->. now apply stripDataUri_prefix.
Qed.

End Encoding.

(** ** Edits received from the surface are not sent back *)

Section HostEcho.

Import Js Prog Host.
Context {R : Runtime}.

Lemma refreshTitle_run (s : State) :
  refreshTitle s = (Normal tt, setTitle (path_basename (documentPath s)) s, []).
Proof. reflexivity. Qed.

Lemma onDidChangeTextDocument_run (eventDocument : string) (s : State) :
  onDidChangeTextDocument eventDocument s =
  if negb (String.eqb eventDocument (documentPath s)) then (Normal tt, s, [])
  else if isApplyingFromWebview s then (Normal tt, s, [])
  else postDocumentToWebview Update s.
Proof.
  unfold onDidChangeTextDocument. prog_unfold.
  destruct (negb _); [reflexivity|]. destruct (isApplyingFromWebview s); reflexivity.
Qed.

(** A change of the document that reaches the listener while the flag is
    down is posted to the surface as an [update] snapshot with the new
    text. *)
Lemma change_outside_is_posted (newText : string) (s : State) :
  isApplyingFromWebview s = false ->
  exists payload,
    effectsOf (documentChangedOutside (documentPath s) newText s)
    = [PostMessage (MsgUpdate payload)] /\
    payloadType payload = Update /\ payloadContent payload = newText.
Proof.
  intros Hflag. unfold documentChangedOutside. prog_unfold.
  rewrite String.eqb_refl. cbn [modify fst snd].
  rewrite onDidChangeTextDocument_run. cbn [documentPath isApplyingFromWebview setText].
  rewrite String.eqb_refl, Hflag. cbn [negb].
  eexists. cbn. split; [reflexivity|]. split; reflexivity.
Qed.

(** So would be the change made by [applyEdit], were the flag down while
    the edit is applied. *)
Lemma applyEdit_unguarded_is_posted (newText : string) (s : State) :
  isApplyingFromWebview s = false ->
  exists payload,
    effectsOf (workspace_applyEdit EditApplied newText s) = [PostMessage (MsgUpdate payload)] /\
    payloadContent payload = newText.
Proof.
  intros Hflag. cbn [workspace_applyEdit]. prog_unfold. cbn [fst snd].
  rewrite onDidChangeTextDocument_run. cbn [documentPath isApplyingFromWebview setText].
  rewrite String.eqb_refl, Hflag. cbn [negb].
  eexists. cbn. split; reflexivity.
Qed.

(** The same change made by [applyEdit] while the flag is up reaches the
    listener and is dropped there. *)
Lemma workspace_applyEdit_guarded (outcome : EditOutcome) (newText : string) (s : State) :
  isApplyingFromWebview s = true ->
  effectsOf (workspace_applyEdit outcome newText s) = [] /\
  isApplyingFromWebview (stateOf (workspace_applyEdit outcome newText s)) = true /\
  (outcome = EditApplied ->
   documentText (stateOf (workspace_applyEdit outcome newText s)) = newText).
Proof.
  intros Hflag. destruct outcome; cbn [workspace_applyEdit].
  - prog_unfold. cbn [fst snd]. rewrite onDidChangeTextDocument_run.
    cbn [documentPath isApplyingFromWebview setText]. rewrite String.eqb_refl, Hflag.
    cbn. auto.
  - cbn. repeat split; [assumption|discriminate].
  - cbn. repeat split; [assumption|discriminate].
Qed.

Lemma applyContent_run (outcome : EditOutcome) (newContent : string) (s : State) :
  let normalizedContent := normalizeContentForDocument newContent (documentEol s) in
  effectsOf (applyContent outcome newContent s) = [] /\
  (isApplyingFromWebview s = false ->
   isApplyingFromWebview (stateOf (applyContent outcome newContent s)) = false) /\
  (outcome = EditApplied ->
   documentText (stateOf (applyContent outcome newContent s)) = normalizedContent) /\
  (normalizedContent = documentText s -> stateOf (applyContent outcome newContent s) = s).
Proof.
  intros normalizedContent. unfold applyContent. prog_unfold. fold normalizedContent.
  destruct (String.eqb_spec normalizedContent (documentText s)) as [Heq|Hne].
  - cbn. repeat split; auto.
  - cbn [fst snd].
    pose proof (workspace_applyEdit_guarded outcome normalizedContent
                  (setApplying true s) eq_refl) as (He & Hf & Ht).
    destruct (workspace_applyEdit outcome normalizedContent (setApplying true s))
      as [[[b|e] s1] l1]; unfold effectsOf, stateOf in He, Hf, Ht; cbn [fst snd] in He, Hf, Ht;
      subst l1; cbn; repeat split; auto; try contradiction.
Qed.

(** Handling an [edit] or a [save] message that carries a content does at
    most ask for the save; the flag and the text afterwards are those
    [applyContent] leaves. *)
Lemma content_message_run (now : DateTime) (outcome : EditOutcome)
    (message : WebviewMessage) (s : State) (newContent : string) :
  command message = "edit" \/ command message = "save" ->
  content message = VString newContent ->
  let r := onDidReceiveMessage now outcome message s in
  (effectsOf r = [] \/ effectsOf r = [DocumentSave]) /\
  isApplyingFromWebview (stateOf r)
  = isApplyingFromWebview (stateOf (applyContent outcome newContent s)) /\
  documentText (stateOf r) = documentText (stateOf (applyContent outcome newContent s)).
Proof.
  intros Hcmd Hcontent r. subst r.
  pose proof (applyContent_run outcome newContent s) as Happly. cbv zeta in Happly.
  destruct Happly as (He & _).
  unfold onDidReceiveMessage.
  destruct Hcmd as [Hcmd|Hcmd]; rewrite Hcmd, Hcontent; cbn [String.eqb Ascii.eqb Bool.eqb].
  - split; [left; exact He|]. split; reflexivity.
  - prog_unfold.
    destruct (applyContent outcome newContent s) as [[[u|e] s1] l1];
      unfold effectsOf in He; cbn [fst snd] in He; subst l1; cbn; auto.
Qed.

(** [applyContent] is its parts, run one after the other. *)
Lemma applyContent_parts (outcome : EditOutcome) (newContent : string) (s : State) :
  applyContent outcome newContent s =
  (asked ← applyContent_request newContent;
   match asked with
   | Some newText =>
       match outcome with EditApplied => editApplies newText | _ => mret tt end;;
       applyContent_resume match outcome with EditFailed e => Some e | _ => None end
   | None => mret tt
   end) s.
Proof.
  unfold applyContent, applyContent_request, applyContent_resume, editApplies.
  prog_unfold.
  destruct (String.eqb _ (documentText s)); [reflexivity|].
  destruct outcome; cbn [workspace_applyEdit]; prog_unfold; cbn [fst snd];
    try reflexivity.
  rewrite onDidChangeTextDocument_run.
  cbn [documentPath isApplyingFromWebview setText setApplying].
  rewrite String.eqb_refl. reflexivity.
Qed.

(** An [edit] or a [save] message that is handled from its first line to
    its last with no other listener in between posts no [update] snapshot:
    the document change made by [applyContent] reaches the change listener
    with [isApplyingFromWebview] up and is dropped there.  The flag is down
    again afterwards, and an applied edit leaves the document with the
    normalised content. *)
Lemma host_edit_not_echoed (now : DateTime) (outcome : EditOutcome)
    (message : WebviewMessage) (s : State) (newContent : string) :
  command message = "edit" \/ command message = "save" ->
  content message = VString newContent ->
  let r := onDidReceiveMessage now outcome message s in
  List.filter isUpdate (effectsOf r) = [] /\
  (forall payload, PostMessage (MsgUpdate payload) ∉ effectsOf r) /\
  (isApplyingFromWebview s = false -> isApplyingFromWebview (stateOf r) = false) /\
  (outcome = EditApplied ->
   documentText (stateOf r) = normalizeContentForDocument newContent (documentEol s)).
Proof.
  intros Hcmd Hcontent r.
  pose proof (applyContent_run outcome newContent s) as Happly. cbv zeta in Happly.
  destruct Happly as (_ & Hf & Ht & _).
  pose proof (content_message_run now outcome message s newContent Hcmd Hcontent) as Hrun.
  cbv zeta in Hrun. fold r in Hrun. destruct Hrun as (Hr & Hs1 & Hs2).
  split; [destruct Hr as [-> | ->]; reflexivity|].
  split.
  - intros payload Hin. destruct Hr as [Hr|Hr]; rewrite Hr in Hin.
    + inversion Hin.
    + apply list_elem_of_singleton in Hin. discriminate.
  - split; [rewrite Hs1; exact Hf|rewrite Hs2; exact Ht].
Qed.

(** Between two events the flag is down: no handler leaves it up, an
    edit that VS Code rejects or fails included, so a change made outside
    is never mistaken for the provider's own. *)
Lemma flag_down_between_events (ev : HostEvent) (s : State) :
  isApplyingFromWebview s = false ->
  isApplyingFromWebview (stateOf (handleEvent ev s)) = false.
Proof.
  intros Hflag. destruct ev as [now outcome message|doc newText]; cbn [handleEvent].
  - unfold onDidReceiveMessage.
    destruct (String.eqb (command message) "ready"); [exact Hflag|].
    destruct (String.eqb_spec (command message) "edit") as [Hc|_].
    { destruct (content message) as [| | | |c] eqn:Hcontent; try exact Hflag.
      apply (applyContent_run outcome c s). exact Hflag. }
    destruct (String.eqb_spec (command message) "save") as [Hc|_].
    { assert (Hdone : forall (p : HostProg unit),
                isApplyingFromWebview (stateOf (p s)) = false ->
                isApplyingFromWebview
                  (stateOf ((p;; emit DocumentSave;; refreshTitle) s)) = false).
      { intros p Hp. prog_unfold. destruct (p s) as [[[u|e] s1] l1]; exact Hp. }
      destruct (content message) as [| | | |c]; apply Hdone; try exact Hflag.
      apply (applyContent_run outcome c s). exact Hflag. }
    destruct (String.eqb (command message) "open-link").
    { destruct (href message) as [| | | |h]; try exact Hflag.
      cbv zeta. destruct (String.eqb (trim h) ""); [exact Hflag|].
      destruct (isHttpUrl (trim h)); exact Hflag. }
    destruct (String.eqb_spec (command message) "upload-image") as [Hc|_]; [|exact Hflag].
    pose proof (upload_image_run now outcome message s Hc) as Hrun.
    unfold onDidReceiveMessage in Hrun. rewrite Hc in Hrun.
    cbn [String.eqb Ascii.eqb Bool.eqb] in Hrun. rewrite Hrun. clear Hrun.
    destruct (requestId message) as [| |b|n|rid]; try exact Hflag.
    destruct (String.eqb rid ""); [exact Hflag|].
    destruct (dataBase64 message) as [| |b|n|data]; try exact Hflag.
    destruct (String.eqb data ""); [exact Hflag|].
    cbv zeta. unfold stateOf at 1. cbn [fst snd].
    rewrite saveImageToAssets_run. destruct (decide _); [exact Hflag|].
    destruct (fs_mkdir_fault _) as [[code text]|]; [exact Hflag|].
    destruct (resultOf (createUniqueImageFilePath _ _ _ _ _)); [|exact Hflag].
    unfold checkedWrite. destruct (negb _); [exact Hflag|].
    destruct (_ =? 0)%Z; [exact Hflag|]. destruct (_ >? _)%Z; [exact Hflag|].
    destruct (fs_writeFile_fault _ _) as [[code text]|]; exact Hflag.
  - unfold documentChangedOutside. prog_unfold.
    destruct (String.eqb doc (documentPath s)) eqn:Hdoc; cbn [modify fst snd];
      rewrite onDidChangeTextDocument_run; cbn [documentPath isApplyingFromWebview setText];
      rewrite Hdoc, Hflag; cbn; exact Hflag.
Qed.

(** Over a whole session in which every event is handled to its end
    before the next one arrives: the handling of an [edit] or [save]
    message posts no snapshot, and the flag is down again at the end. *)
Lemma session_edits_not_echoed (evs : list HostEvent) (s : State) :
  isApplyingFromWebview s = false ->
  isApplyingFromWebview (snd (runEvents evs s)) = false /\
  forall ev effects, (ev, effects) ∈ fst (runEvents evs s) ->
    carriesContent ev -> List.filter isUpdate effects = [].
Proof.
  revert s. induction evs as [|ev evs IH]; intros s Hflag.
  - split; [exact Hflag|]. intros ev effects Hin. inversion Hin.
  - cbn [runEvents fst snd].
    destruct (IH (stateOf (handleEvent ev s)) (flag_down_between_events ev s Hflag))
      as [Hend Hrest].
    split; [exact Hend|].
    intros ev' effects Hin Hc. apply elem_of_cons in Hin as [Heq|Hin]; [|eauto].
    injection Heq as -> ->.
    destruct ev as [now outcome message|]; [|contradiction].
    destruct Hc as (Hcmd & c & Hcontent).
    pose proof (content_message_run now outcome message s c Hcmd Hcontent) as Hrun.
    cbv zeta in Hrun. cbn [handleEvent].
    destruct Hrun as ([-> | ->] & _); reflexivity.
Qed.

End HostEcho.

(** ** The properties on concrete inputs *)

Lemma host_edit_not_echoed_witness :
  List.filter isUpdate
    (Prog.effectsOf (Host.onDidReceiveMessage Host.newYear2024 Host.EditApplied
                       (Host.contentMessage "edit" "# B") (Host.exampleHost 1))) = []
  /\ Host.documentText
       (Prog.stateOf (Host.onDidReceiveMessage Host.newYear2024 Host.EditApplied
                        (Host.contentMessage "edit" "# B") (Host.exampleHost 1))) = "# B".
Proof.
  pose proof (@host_edit_not_echoed (Host.exampleRuntime 1) Host.newYear2024 Host.EditApplied
                (Host.contentMessage "edit" "# B") (Host.exampleHost 1) "# B"
                (or_introl eq_refl) eq_refl) as H.
  cbv zeta in H. destruct H as (H1 & _ & _ & H2). split; [exact H1|exact (H2 eq_refl)].
Defined.

(** C5 fails as stated on a request that carries no [requestId]: the
    single result posted carries the empty string. *)
Lemma upload_without_requestId_gets_empty_id :
  Host.requestId (Host.uploadMessage Js.VUndefined (Js.VString "AAAA") None) = Js.VUndefined /\
  Prog.effectsOf (Host.onDidReceiveMessage Host.newYear2024 Host.EditApplied
                    (Host.uploadMessage Js.VUndefined (Js.VString "AAAA") None)
                    (Host.exampleHost 1))
  = [Host.PostMessage (Host.MsgUploadImageResult
       {| Host.resultRequestId := Js.VString ""; Host.resultOk := false;
          Host.resultUrl := None; Host.resultError := Some "Missing requestId." |})] /\
  Js.VString "" <> Js.VUndefined.
Proof. split; [reflexivity|]. split; [reflexivity|discriminate]. Qed.

Lemma upload_image_answered_once_witness :
  exists result,
    Prog.effectsOf (Host.onDidReceiveMessage Host.newYear2024 Host.EditApplied
                      (Host.uploadMessage (Js.VString "r1") (Js.VString "AAAA") None)
                      (Host.exampleHost 1))
    = [Host.PostMessage (Host.MsgUploadImageResult result)] /\
    Host.resultRequestId result = Js.VString "r1".
Proof.
  pose proof (@upload_image_answered_once (Host.exampleRuntime 1) Host.newYear2024
                Host.EditApplied
                (Host.uploadMessage (Js.VString "r1") (Js.VString "AAAA") None)
                (Host.exampleHost 1) eq_refl) as H.
  cbv zeta in H. destruct H as (_ & result & He & Hid & _).
  exists result. split; [exact He|exact Hid].
Defined.

(** A payload standing for 12 MiB: four characters, at 4 MiB per decoded
    byte triple.  Nothing is written and the answer names the limit. *)
Lemma oversized_or_empty_upload_rejected_witness :
  Host.files (Host.fs (Prog.stateOf
    (Host.onDidReceiveMessage Host.newYear2024 Host.EditApplied
       (Host.uploadMessage (Js.VString "r1") (Js.VString "data:image/png;base64,AAAA")
          (Some "big.png"))
       (Host.exampleHost 4194304))))
  = Host.files (Host.fs (Host.exampleHost 4194304)) /\
  exists text,
    Prog.effectsOf
      (Host.onDidReceiveMessage Host.newYear2024 Host.EditApplied
         (Host.uploadMessage (Js.VString "r1") (Js.VString "data:image/png;base64,AAAA")
            (Some "big.png"))
         (Host.exampleHost 4194304))
    = [Host.PostMessage (Host.MsgUploadImageResult
         {| Host.resultRequestId := Js.VString "r1"; Host.resultOk := false;
            Host.resultUrl := None; Host.resultError := Some text |})] /\
    text = "Image exceeds the 10 MB size limit (got 12.0 MB).".
Proof.
  pose proof (@oversized_or_empty_upload_rejected (Host.exampleRuntime 4194304)
                Host.newYear2024 Host.EditApplied
                (Host.uploadMessage (Js.VString "r1")
                   (Js.VString "data:image/png;base64,AAAA") (Some "big.png"))
                (Host.exampleHost 4194304) "data:image/png;base64,AAAA"
                eq_refl eq_refl) as H.
  cbv zeta in H.
  destruct H as (_ & Hfiles & text & He & Htext); [left; reflexivity|].
  split; [exact Hfiles|]. exists text. split; [exact He|].
  destruct (Htext "r1" eq_refl) as [Hbig _].
  - discriminate.
  - split; [reflexivity|]. split; [reflexivity|]. eexists. vm_compute. reflexivity.
  - reflexivity.
  - destruct Hbig as [-> _]; reflexivity.
Defined.

(** C8 fails as stated in both directions: a payload with [_], which is
    outside the expected alphabet, passes the check and is stored; and a
    bare data-URI prefix, which leaves nothing and so no character outside
    the alphabet, is rejected as invalid base64.  And a payload with
    characters outside the alphabet is not rejected as invalid base64 when
    the upload fails before the check, here because a file has the name
    [assets]. *)
Lemma encoding_check_is_not_the_expected_alphabet :
  (inExpectedAlphabet (Host.stripDataUri "%%") = false /\
   Prog.effectsOf (Host.onDidReceiveMessage Host.newYear2024 Host.EditApplied
                     (Host.uploadMessage (Js.VString "r1") (Js.VString "%%") None)
                     (Host.hostWithFiles 1 ["/notes/assets"]))
   = [Host.PostMessage (Host.MsgUploadImageResult
        {| Host.resultRequestId := Js.VString "r1"; Host.resultOk := false;
           Host.resultUrl := None;
           Host.resultError :=
             Some "EEXIST: file already exists, mkdir '/notes/assets'" |})]) /\
  inExpectedAlphabet (Host.stripDataUri "ab_c") = false /\
  Host.base64Test (Host.stripDataUri "ab_c") = true /\
  Prog.effectsOf (Host.onDidReceiveMessage Host.newYear2024 Host.EditApplied
                    (Host.uploadMessage (Js.VString "r1") (Js.VString "ab_c") None)
                    (Host.exampleHost 1))
  = [Host.PostMessage (Host.MsgUploadImageResult
       {| Host.resultRequestId := Js.VString "r1"; Host.resultOk := true;
          Host.resultUrl := Some "assets/image-20240101-000000.png";
          Host.resultError := None |})] /\
  inExpectedAlphabet (Host.stripDataUri "data:image/png;base64,") = true /\
  Host.base64Test (Host.stripDataUri "data:image/png;base64,") = false /\
  Prog.effectsOf (Host.onDidReceiveMessage Host.newYear2024 Host.EditApplied
                    (Host.uploadMessage (Js.VString "r1")
                       (Js.VString "data:image/png;base64,") None)
                    (Host.exampleHost 1))
  = [Host.PostMessage (Host.MsgUploadImageResult
       {| Host.resultRequestId := Js.VString "r1"; Host.resultOk := false;
          Host.resultUrl := None;
          Host.resultError := Some "Invalid base64 image data." |})].
Proof. repeat split; vm_compute; reflexivity. Qed.

(** C6 fails as stated when the upload does not get as far as the size
    check.  A payload that decodes to 12 MiB is answered with the error of
    [mkdir] when a file has the name [assets], with the invalid-encoding
    error when it has a character outside the class of the encoding test,
    and with the missing-identifier error when the request has no
    [requestId]; none of these messages contains [10 MB]. *)
Lemma oversized_upload_answered_without_the_limit :
  ((@Host.Buffer_length (Host.exampleRuntime 4194304)
      (Host.Buffer_from_base64 (Host.stripDataUri "data:image/png;base64,AAAA"))
    > Host.MAX_SIZE)%Z /\
   Prog.effectsOf
     (Host.onDidReceiveMessage Host.newYear2024 Host.EditApplied
        (Host.uploadMessage (Js.VString "r1") (Js.VString "data:image/png;base64,AAAA")
           (Some "big.png"))
        (Host.hostWithFiles 4194304 ["/notes/assets"]))
   = [Host.PostMessage (Host.MsgUploadImageResult
        {| Host.resultRequestId := Js.VString "r1"; Host.resultOk := false;
           Host.resultUrl := None;
           Host.resultError :=
             Some "EEXIST: file already exists, mkdir '/notes/assets'" |})] /\
   Js.includesStr "10 MB" "EEXIST: file already exists, mkdir '/notes/assets'" = false)
  /\ ((@Host.Buffer_length (Host.exampleRuntime 4194304)
         (Host.Buffer_from_base64 (Host.stripDataUri "AAAA%"))
       > Host.MAX_SIZE)%Z /\
      Prog.effectsOf
        (Host.onDidReceiveMessage Host.newYear2024 Host.EditApplied
           (Host.uploadMessage (Js.VString "r1") (Js.VString "AAAA%") (Some "big.png"))
           (Host.exampleHost 4194304))
      = [Host.PostMessage (Host.MsgUploadImageResult
           {| Host.resultRequestId := Js.VString "r1"; Host.resultOk := false;
              Host.resultUrl := None;
              Host.resultError := Some "Invalid base64 image data." |})] /\
      Js.includesStr "10 MB" "Invalid base64 image data." = false)
  /\ (Prog.effectsOf
        (Host.onDidReceiveMessage Host.newYear2024 Host.EditApplied
           (Host.uploadMessage Js.VUndefined (Js.VString "data:image/png;base64,AAAA")
              (Some "big.png"))
           (Host.exampleHost 4194304))
      = [Host.PostMessage (Host.MsgUploadImageResult
           {| Host.resultRequestId := Js.VString ""; Host.resultOk := false;
              Host.resultUrl := None;
              Host.resultError := Some "Missing requestId." |})] /\
      Js.includesStr "10 MB" "Missing requestId." = false).
Proof. repeat split; vm_compute; reflexivity. Qed.


(** C10 fails as stated when the user touches the editor between the
    arrival of the snapshot and the initialisation, and the engine does not
    give back the markdown it was given: the snapshot, with CR LF line
    endings, is buffered, set at the initialisation and recorded as last
    synchronised; the engine holds it with LF line endings, and its update,
    reported after the initialisation, is posted as an [edit]. *)
Lemma pre_init_snapshot_echoed_after_interaction :
  Surface.readyRef (Surface.initialState (E := Surface.lfEngine) "") = false /\
  List.filter isSetDocument
    (Prog.effectsOf (Surface.onInit
       (Prog.stateOf (Surface.markUserInteraction true
          (Prog.stateOf (Surface.setEditorMarkdown Surface.twoLinesCrlf
             (Surface.initialState (E := Surface.lfEngine) "")))))))
  = [Surface.SetDocument Surface.twoLinesCrlf] /\
  List.filter isPost
    (Prog.effectsOf (Surface.engineUpdate (E := Surface.lfEngine) Surface.twoLinesLf
       {| Surface.dirtyElements := 1; Surface.dirtyLeaves := 1 |}
       (Prog.stateOf (Surface.onInit
          (Prog.stateOf (Surface.markUserInteraction true
             (Prog.stateOf (Surface.setEditorMarkdown Surface.twoLinesCrlf
                (Surface.initialState (E := Surface.lfEngine) "")))))))))
  = [Surface.PostMessage (Surface.OutEdit Surface.twoLinesLf)].
Proof. repeat split; vm_compute; reflexivity. Qed.

Lemma invalid_encoding_iff_witness :
  Prog.resultOf (Host.saveImageToAssets Host.newYear2024 "data:image/png;base64,%%"
                   None None (Host.exampleHost 1))
  = Prog.Throw (Js.JsError "Invalid base64 image data.")
  <-> ~ matchesBase64Regex (Host.stripDataUri "data:image/png;base64,%%").
Proof.
  refine (proj1 (@invalid_encoding_iff (Host.exampleRuntime 1) Host.newYear2024
                   "data:image/png;base64,%%" None None (Host.exampleHost 1) _)).
  split; [vm_compute; reflexivity|]. split; [reflexivity|].
  eexists. vm_compute. reflexivity.
Defined.

(** The outline of a document with an empty heading between two others. *)
Example outline_of_three_headings :
  Surface.nextTocItems "readme"
    [ {| Surface.tagName := Surface.H1; Surface.textContent := Some "Intro";
         Surface.datasetTocId := None |};
      {| Surface.tagName := Surface.H2; Surface.textContent := Some "  ";
         Surface.datasetTocId := Some "toc-heading-1" |};
      {| Surface.tagName := Surface.H3; Surface.textContent := Some " Sub ";
         Surface.datasetTocId := None |} ]
  = [ {| Surface.depth := 0; Surface.id := "toc-document-title";
         Surface.level := 1; Surface.text := "readme" |};
      {| Surface.depth := 0; Surface.id := "toc-heading-0";
         Surface.level := 1; Surface.text := "Intro" |};
      {| Surface.depth := 2; Surface.id := "toc-heading-1";
         Surface.level := 3; Surface.text := "Sub" |} ].
Proof. vm_compute. reflexivity. Qed.

(** Typing after the first snapshot: one [edit] with the new text (the
    outline pass asked for at initialisation is still pending and is
    rescheduled). *)
Example basic_round_trip :
  Prog.effectsOf
    (Surface.engineUpdate (E := Surface.plainEngine) "# A!"
       {| Surface.dirtyElements := 1; Surface.dirtyLeaves := 1 |}
       (Prog.stateOf (Surface.markUserInteraction true
          (Prog.stateOf (Surface.onInit
             (Prog.stateOf (Surface.setEditorMarkdown "# A" (Surface.exampleMounted ""))))))))
  = [Surface.PostMessage (Surface.OutEdit "# A!");
     Surface.CancelAnimationFrame; Surface.RequestTocFrame]
  /\ List.filter isPost
       (Prog.effectsOf (Surface.onInit
          (Prog.stateOf (Surface.setEditorMarkdown "# A" (Surface.exampleMounted ""))))) = [].
Proof. split; vm_compute; reflexivity. Qed.

(** A text with the three line endings, normalised for a CRLF document. *)
Example normalize_mixed_line_endings :
  Host.normalizeContentForDocument
    (String "a" (String Js.CR (String Js.LF (String "b" (String Js.CR
       (String "c" (String Js.LF "")))))))
    Host.EOL_CRLF
  = String "a" (String Js.CR (String Js.LF (String "b" (String Js.CR (String Js.LF
       (String "c" (String Js.CR (String Js.LF "")))))))).
Proof. vm_compute. reflexivity. Qed.

(** * Further properties *)

(** ** Names of the stored images *)

Section AssetBaseNames.

Import Js Prog Host.
Context {R : Runtime}.

Lemma allOf_In cls s :
  allOf cls s = true <-> forall c, In c (list_ascii_of_string s) -> cls c = true.
Proof.
  induction s as [|a s IH]; cbn.
  - split; [intros _ c []|reflexivity].
  - rewrite andb_true_iff, IH. split.
    + intros [Ha Hs] c [<-|Hc]; auto.
    + intros H. split; [apply H; now left|]. intros c Hc. apply H. now right.
Qed.

Lemma replaceRuns_allOf (cls keep : ascii -> bool) (inRun : bool) (s : string) :
  keep "-"%char = true ->
  (forall c, cls c = false -> In c (list_ascii_of_string s) -> keep c = true) ->
  allOf keep (replaceRuns cls "-" inRun s) = true.
Proof.
  intros Hk. revert inRun. induction s as [|a s IH]; intros inRun H; [reflexivity|].
  cbn [replaceRuns]. destruct (cls a) eqn:Ha.
  - assert (Hrest : allOf keep (replaceRuns cls "-" true s) = true).
    { apply IH. intros c Hc Hin. apply H; [assumption|now right]. }
    destruct inRun.
    + exact Hrest.
    + change ("-" ++ ?x) with (String "-" x). cbn [allOf]. now rewrite Hk, Hrest.
  - cbn [allOf]. rewrite (H a Ha) by now left. cbn. apply IH.
    intros c Hc Hin. apply H; [assumption|now right].
Qed.

Lemma dropWhile_allOf cls keep s :
  allOf keep s = true -> allOf keep (dropWhile cls s) = true.
Proof.
  induction s as [|a s IH]; [reflexivity|]. intros H. cbn [dropWhile].
  destruct (cls a); [|exact H]. apply IH. cbn in H. apply andb_true_iff in H. tauto.
Qed.

Lemma dropWhileEnd_allOf cls keep s :
  allOf keep s = true -> allOf keep (dropWhileEnd cls s) = true.
Proof.
  induction s as [|a s IH]; [reflexivity|]. cbn [allOf dropWhileEnd].
  intros H. apply andb_true_iff in H as [Ha Hs]. specialize (IH Hs).
  destruct (dropWhileEnd cls s) as [|d r].
  - destruct (cls a); cbn; [reflexivity|now rewrite Ha].
  - cbn [allOf] in *. now rewrite Ha, IH.
Qed.

Lemma dropWhile_first cls s c : firstChar (dropWhile cls s) = Some c -> cls c = false.
Proof.
  induction s as [|a s IH]; [discriminate|]. cbn [dropWhile].
  destruct (cls a) eqn:Ha; [exact IH|]. cbn. intros [= <-]. exact Ha.
Qed.

Lemma dropWhileEnd_first cls s c :
  firstChar (dropWhileEnd cls s) = Some c -> firstChar s = Some c.
Proof.
  destruct s as [|a s]; [discriminate|]. cbn [dropWhileEnd].
  destruct (dropWhileEnd cls s); [destruct (cls a)|]; cbn; congruence.
Qed.

Lemma dropWhileEnd_last cls s c : lastChar (dropWhileEnd cls s) = Some c -> cls c = false.
Proof.
  induction s as [|a s IH]; [discriminate|]. cbn [dropWhileEnd].
  destruct (dropWhileEnd cls s) as [|d r] eqn:Hd.
  - destruct (cls a) eqn:Ha; cbn; [discriminate|]. intros [= <-]. exact Ha.
  - cbn [lastChar]. exact IH.
Qed.

(** Collapsing the runs of hyphens leaves no two in a row. *)
Lemma replaceRuns_hyphen (inRun : bool) (s : string) :
  noDoubleHyphen (replaceRuns (isChar "-") "-" inRun s) = true /\
  (inRun = true ->
   forall c, firstChar (replaceRuns (isChar "-") "-" inRun s) = Some c -> isChar "-" c = false).
Proof.
  revert inRun. induction s as [|a s IH]; intros inRun; [split; [reflexivity|discriminate]|].
  cbn [replaceRuns]. destruct (isChar "-" a) eqn:Ha.
  - destruct (IH true) as [Hn Hf]. destruct inRun.
    + change ("" ++ ?x) with x. split; [exact Hn|intros _; apply Hf; reflexivity].
    + split; [|discriminate].
      change ("-" ++ ?x) with (String "-" x). cbn [noDoubleHyphen]. rewrite Hn, andb_true_r.
      destruct (replaceRuns (isChar "-") "-" true s) as [|b r] eqn:Hr; [reflexivity|].
      rewrite (Hf eq_refl b eq_refl). reflexivity.
  - destruct (IH false) as [Hn _]. split.
    + cbn [noDoubleHyphen]. rewrite Hn, Ha. cbn. now destruct (replaceRuns _ _ _ _).
    + intros _ c [= <-]. exact Ha.
Qed.

Lemma noDoubleHyphen_tail a s : noDoubleHyphen (String a s) = true -> noDoubleHyphen s = true.
Proof. cbn [noDoubleHyphen]. intros H. apply andb_true_iff in H. tauto. Qed.

Lemma dropWhile_noDouble cls s :
  noDoubleHyphen s = true -> noDoubleHyphen (dropWhile cls s) = true.
Proof.
  induction s as [|a s IH]; [reflexivity|]. intros H. cbn [dropWhile].
  destruct (cls a); [|exact H]. apply IH. eapply noDoubleHyphen_tail, H.
Qed.

Lemma dropWhileEnd_noDouble cls s :
  noDoubleHyphen s = true -> noDoubleHyphen (dropWhileEnd cls s) = true.
Proof.
  induction s as [|a s IH]; [reflexivity|]. intros H. cbn [dropWhileEnd].
  pose proof (IH (noDoubleHyphen_tail _ _ H)) as Hr.
  destruct (dropWhileEnd cls s) as [|d r] eqn:Hd.
  - destruct (cls a); [reflexivity|]. cbn. now rewrite andb_false_r.
  - cbn [noDoubleHyphen] in *. rewrite Hr, andb_true_r.
    destruct s as [|b s']; [discriminate|].
    assert (d = b) as ->.
    { assert (Hf : firstChar (dropWhileEnd cls (String b s')) = Some d) by now rewrite Hd.
      apply dropWhileEnd_first in Hf. now injection Hf. }
    apply andb_true_iff in H. tauto.
Qed.

(** X1. Whatever the name of the uploaded file, the base name of the
    stored image is not empty, is made of lower-case letters, digits, [-]
    and [_] only, neither starts nor ends with [-], [_] or [.], and has no
    two hyphens in a row. *)
Theorem safeImageBaseName_is_safe (fileName : option string) :
  let base := safeImageBaseName fileName in
  base <> "" /\
  allOf isSafeNameChar base = true /\
  noDoubleHyphen base = true /\
  (forall c, firstChar base = Some c -> isEdgeChar c = false) /\
  (forall c, lastChar base = Some c -> isEdgeChar c = false).
Proof.
  intros base. subst base. unfold safeImageBaseName.
  set (original := match fileName with
                   | Some f => if String.eqb f "" then "image" else path_parse_name f
                   | None => "image" end).
  set (lowered := toLowerCase (trim original)).
  set (replaced := replaceRuns isUnsafeNameChar "-" false lowered).
  set (collapsed := replaceRuns (isChar "-") "-" false replaced).
  set (normalized := dropWhileEnd isEdgeChar (dropWhile isEdgeChar collapsed)).
  assert (Hsafe : allOf isSafeNameChar normalized = true).
  { apply dropWhileEnd_allOf, dropWhile_allOf, replaceRuns_allOf; [reflexivity|].
    intros c _. apply allOf_In. clear c.
    apply replaceRuns_allOf; [reflexivity|].
    intros c Hc _. unfold isUnsafeNameChar in Hc. apply negb_false_iff in Hc. exact Hc. }
  assert (Hdouble : noDoubleHyphen normalized = true).
  { apply dropWhileEnd_noDouble, dropWhile_noDouble, replaceRuns_hyphen. }
  assert (Hfirst : forall c, firstChar normalized = Some c -> isEdgeChar c = false).
  { intros c Hc. apply dropWhileEnd_first in Hc. eapply dropWhile_first, Hc. }
  assert (Hlast : forall c, lastChar normalized = Some c -> isEdgeChar c = false).
  { intros c Hc. eapply dropWhileEnd_last, Hc. }
  destruct (String.eqb_spec normalized "") as [_|Hne].
  - repeat split; try reflexivity; try discriminate.
    + intros c [= <-]. reflexivity.
    + intros c [= <-]. reflexivity.
  - auto.
Qed.

Lemma lowerChar_idempotent (c : ascii) : lowerChar (lowerChar c) = lowerChar c.
Proof. destruct c as [[] [] [] [] [] [] [] []]; reflexivity. Qed.

Lemma toLowerCase_idempotent (s : string) : toLowerCase (toLowerCase s) = toLowerCase s.
Proof.
  induction s as [|c s IH]; [reflexivity|]. cbn [toLowerCase].
  now rewrite lowerChar_idempotent, IH.
Qed.

Lemma toLowerCase_nonempty (s : string) : s <> "" -> toLowerCase s <> "".
Proof. destruct s; [congruence|discriminate]. Qed.

Lemma lookupTable_known (key ext : string) :
  lookupTable key extensionTable = Some ext ->
  In ext knownExtensions /\ toLowerCase ext = ext /\ ext <> "".
Proof.
  unfold extensionTable, lookupTable.
  repeat (destruct (String.eqb _ key);
          [intros [= <-]; split; [cbn; tauto|split; [reflexivity|discriminate]]|]).
  discriminate.
Qed.

(** X2. The extension of the stored image is never empty.  When the file
    name has an extension, it is that one in lower case, whatever the media
    type says.  Otherwise the media type decides, without regard to the
    case of its letters: for a media type other than [constructor] and
    [__proto__] the extension is one of the seven of the table, in lower
    case, and [.png] when the table does not have the media type; for
    these two the table, an object literal, gives the member it inherits,
    and the file name gets the text of that member. *)
Theorem inferImageExtension_cases (fileName mimeType : option string) :
  let fromName :=
    match fileName with
    | Some f => if String.eqb f "" then "" else path_extname f
    | None => ""
    end in
  let key := toLowerCase (default "" mimeType) in
  let ext := inferImageExtension fileName mimeType in
  ext <> "" /\
  (fromName <> "" -> ext = toLowerCase fromName /\ toLowerCase ext = ext) /\
  (fromName = "" ->
   ext = inferImageExtension None (toLowerCase <$> mimeType) /\
   (key <> "constructor" -> key <> "__proto__" ->
    In ext knownExtensions /\ toLowerCase ext = ext /\
    (lookupTable key extensionTable = None -> ext = ".png")) /\
   (key = "constructor" -> ext = "function Object() { [native code] }") /\
   (key = "__proto__" -> ext = "[object Object]")).
Proof.
  intros fromName key ext. subst ext. unfold inferImageExtension. fold fromName key.
  destruct (String.eqb_spec fromName "") as [Hn|Hn]; cbn [negb].
  - assert (Hmime : toLowerCase (default "" (toLowerCase <$> mimeType)) = key).
    { subst key. destruct mimeType; cbn; [apply toLowerCase_idempotent|reflexivity]. }
    rewrite Hmime. clearbody key.
    assert (Hlook : lookupTable key (extensionTable ++ inheritedMembers)
                    = match lookupTable key extensionTable with
                      | Some e => Some e
                      | None => lookupTable key inheritedMembers
                      end).
    { unfold extensionTable. cbn [app lookupTable].
      repeat (destruct (String.eqb _ key); [reflexivity|]). reflexivity. }
    rewrite Hlook.
    assert (Hown : key = "constructor" \/ key = "__proto__" ->
                   lookupTable key extensionTable = None).
    { intros [-> | ->]; reflexivity. }
    destruct (lookupTable key extensionTable) as [e|] eqn:He.
    + destruct (lookupTable_known _ _ He) as (Hin & Hlow & Hne).
      split; [exact Hne|]. split; [contradiction|]. intros _.
      split; [reflexivity|]. split; [intros _ _; repeat split; [assumption..|discriminate]|].
      split; intros Hk; discriminate (Hown (ltac:(auto))).
    + unfold inheritedMembers. cbn [lookupTable].
      destruct (String.eqb_spec "constructor" key) as [Hc|Hc].
      { split; [discriminate|]. split; [contradiction|]. intros _.
        split; [reflexivity|]. split; [congruence|]. split; [reflexivity|].
        intros ->. discriminate. }
      destruct (String.eqb_spec "__proto__" key) as [Hp|Hp].
      { split; [discriminate|]. split; [contradiction|]. intros _.
        split; [reflexivity|]. split; [congruence|]. split; [congruence|reflexivity]. }
      split; [discriminate|]. split; [contradiction|]. intros _.
      split; [reflexivity|]. split; [|split; congruence].
      intros _ _. split; [cbn; tauto|]. split; reflexivity.
  - split; [now apply toLowerCase_nonempty|].
    split; [intros _; split; [reflexivity|apply toLowerCase_idempotent]|contradiction].
Qed.

End AssetBaseNames.

(** ** The files an upload writes *)

Section UploadFiles.

Import Js Prog Host.
Context {R : Runtime}.

Lemma pathExists_withAssetsDir (s : State) (p : string) :
  pathExists (fs s) p -> pathExists (fs (withAssetsDir s)) p.
Proof.
  intros [H|H]; [left; exact H|right]. cbn. apply elem_of_union. now right.
Qed.

Lemma setFs_same (s : State) : setFs (fs s) s = s.
Proof. destruct s. reflexivity. Qed.

(** [saveImageToAssets] is its two parts, run one after the other. *)
Lemma saveImageToAssets_parts now data fn mt (s : State) :
  saveImageToAssets now data fn mt s
  = (absolutePath ← saveImage_findPath now fn mt; saveImage_store data absolutePath) s.
Proof.
  unfold saveImageToAssets, saveImage_findPath, saveImage_store. prog_unfold.
  destruct (fs_mkdir _ s) as [[[u|e] s1] l1] eqn:Hmk; cbn [fst snd]; [|reflexivity].
  assert (Hpath : documentPath s1 = documentPath s /\ l1 = []).
  { unfold fs_mkdir in Hmk. prog_unfold.
    destruct (decide _); [discriminate|].
    destruct (fs_mkdir_fault _) as [[code text]|]; [discriminate|].
    injection Hmk as <- <- <-. split; reflexivity. }
  destruct Hpath as [Hpath ->].
  pose proof (probeFrom_pure (path_join (path_dirname (documentPath s)) "assets")
                (safeImageBaseName fn) (stampOf now) (inferImageExtension fn mt)
                1000 0 s1) as [Hs He].
  unfold createUniqueImageFilePath.
  destruct (probeFrom _ _ _ _ _ _ s1) as [[[p|e] s2] l2];
    unfold stateOf, effectsOf in Hs, He; cbn [fst snd] in Hs, He; subst s2 l2;
    cbn [fst snd]; [|reflexivity].
  rewrite Hpath.
  destruct (negb (base64Test (stripDataUri data))); [reflexivity|].
  destruct (Buffer_length (Buffer_from_base64 (stripDataUri data)) =? 0)%Z; [reflexivity|].
  destruct (Buffer_length (Buffer_from_base64 (stripDataUri data)) >? MAX_SIZE)%Z;
    [reflexivity|].
  destruct (fs_writeFile _ _ s1) as [[[u'|e] s3] l3]; cbn; rewrite ?app_nil_r; reflexivity.
Qed.

(** What a save that nothing interrupts leaves behind: after a failure
    the files are those of before; after a success there is one more, under
    the name the generator returned, which nothing had, and it holds the
    decoded payload, which is not empty and within the limit. *)
Lemma saveImageToAssets_outcome now data fn mt (s : State) :
  let saved := saveImageToAssets now data fn mt s in
  let raw := stripDataUri data in
  (exists disk, stateOf saved = setFs disk s) /\
  match resultOf saved with
  | Normal url =>
      exists p,
        resultOf (createUniqueImageFilePath now (assetsDirOf s) (safeImageBaseName fn)
                    (inferImageExtension fn mt) (withAssetsDir s)) = Normal p /\
        ~ pathExists (fs s) p /\
        base64Test raw = true /\
        Buffer_length (Buffer_from_base64 raw) <> 0%Z /\
        (Buffer_length (Buffer_from_base64 raw) <= MAX_SIZE)%Z /\
        fs_writeFile_fault p (Buffer_from_base64 raw) = None /\
        url = replace_all path_sep "/" (path_relative (path_dirname (documentPath s)) p) /\
        files (fs (stateOf saved)) = <[p := Buffer_from_base64 raw]> (files (fs s))
  | Throw _ => files (fs (stateOf saved)) = files (fs s)
  end.
Proof.
  intros saved raw. subst saved. rewrite saveImageToAssets_run.
  destruct (decide _) as [_|_].
  { split; [exists (fs s); symmetry; apply setFs_same|reflexivity]. }
  destruct (fs_mkdir_fault _) as [[code text]|].
  { split; [exists (fs s); symmetry; apply setFs_same|reflexivity]. }
  destruct (resultOf (createUniqueImageFilePath _ _ _ _ _)) as [p|e] eqn:Hp.
  2:{ split; [eexists; reflexivity|reflexivity]. }
  unfold checkedWrite. fold raw.
  destruct (base64Test raw) eqn:Htest; cbn [negb].
  2:{ split; [eexists; reflexivity|reflexivity]. }
  destruct (Z.eqb_spec (Buffer_length (Buffer_from_base64 raw)) 0) as [_|Hz].
  { split; [eexists; reflexivity|reflexivity]. }
  destruct (Z.gtb_spec (Buffer_length (Buffer_from_base64 raw)) MAX_SIZE) as [_|Hle].
  { split; [eexists; reflexivity|reflexivity]. }
  destruct (fs_writeFile_fault p (Buffer_from_base64 raw)) as [[code text]|] eqn:Hw.
  { split; [eexists; reflexivity|reflexivity]. }
  split; [eexists; reflexivity|].
  unfold resultOf, stateOf. cbn [fst snd].
  exists p. split; [reflexivity|]. split.
  - intros Hex. apply pathExists_withAssetsDir in Hex.
    unfold createUniqueImageFilePath in Hp.
    now apply probeFrom_result in Hp as [Hfree _].
  - repeat split; try assumption; reflexivity.
Qed.

(** The same for the handling of a whole [upload-image] message. *)
Lemma upload_image_outcome (now : DateTime) (outcome : EditOutcome)
    (message : WebviewMessage) (s : State) :
  command message = "upload-image" ->
  let r := onDidReceiveMessage now outcome message s in
  exists result,
    effectsOf r = [PostMessage (MsgUploadImageResult result)] /\
    (exists disk, stateOf r = setFs disk s) /\
    if resultOk result
    then exists p buffer,
           ~ pathExists (fs s) p /\
           Buffer_length buffer <> 0%Z /\ (Buffer_length buffer <= MAX_SIZE)%Z /\
           files (fs (stateOf r)) = <[p := buffer]> (files (fs s))
    else files (fs (stateOf r)) = files (fs s).
Proof.
  intros Hcmd r. subst r. rewrite (upload_image_run now outcome message s Hcmd).
  assert (Hsame : exists disk, s = setFs disk s)
    by (exists (fs s); symmetry; apply setFs_same).
  destruct (requestId message) as [| |b|n|rid];
    try (eexists; split; [reflexivity|]; split; [exact Hsame|reflexivity]).
  destruct (String.eqb rid "");
    [eexists; split; [reflexivity|]; split; [exact Hsame|reflexivity]|].
  destruct (dataBase64 message) as [| |b|n|data];
    try (eexists; split; [reflexivity|]; split; [exact Hsame|reflexivity]).
  destruct (String.eqb data "");
    [eexists; split; [reflexivity|]; split; [exact Hsame|reflexivity]|].
  cbv zeta. unfold effectsOf at 1, stateOf at 1 2 3. cbn [fst snd].
  pose proof (saveImageToAssets_outcome now data (fileName message) (mimeType message) s)
    as Hout. cbv zeta in Hout. destruct Hout as [Hframe Hout].
  eexists. split; [reflexivity|]. split; [exact Hframe|].
  destruct (resultOf (saveImageToAssets now data (fileName message) (mimeType message) s))
    as [url|e]; cbn [answerOf resultOk]; [|exact Hout].
  destruct Hout as (p & _ & Hfree & _ & Hz & Hle & _ & _ & Hfiles).
  exists p, (Buffer_from_base64 (stripDataUri data)). auto.
Qed.

(** X3. An upload that is handled from its first line to its last with no
    other upload in between never overwrites or removes a file, and does
    not touch the document: whatever the request, every file of before is
    there afterwards with the same bytes.  When the answer is [ok: true]
    exactly one file was added, under a name that nothing had, holding
    between 1 byte and 10 MiB; when it is [ok: false] the files are those
    of before. *)
Theorem upload_never_overwrites (now : DateTime) (outcome : EditOutcome)
    (message : WebviewMessage) (s : State) :
  command message = "upload-image" ->
  let r := onDidReceiveMessage now outcome message s in
  (forall p b, files (fs s) !! p = Some b -> files (fs (stateOf r)) !! p = Some b) /\
  documentText (stateOf r) = documentText s /\
  isApplyingFromWebview (stateOf r) = isApplyingFromWebview s /\
  exists result,
    effectsOf r = [PostMessage (MsgUploadImageResult result)] /\
    if resultOk result
    then exists p buffer,
           ~ pathExists (fs s) p /\
           Buffer_length buffer <> 0%Z /\ (Buffer_length buffer <= MAX_SIZE)%Z /\
           files (fs (stateOf r)) = <[p := buffer]> (files (fs s))
    else files (fs (stateOf r)) = files (fs s).
Proof.
  intros Hcmd r.
  destruct (upload_image_outcome now outcome message s Hcmd) as (result & He & [disk Hs] & Hf).
  fold r in He, Hs, Hf.
  split; [|split; [now rewrite Hs|split; [now rewrite Hs|exists result; auto]]].
  intros p b Hp. destruct (resultOk result).
  - destruct Hf as (q & buffer & Hfree & _ & _ & ->).
    rewrite lookup_insert_ne; [exact Hp|].
    intros ->. apply Hfree. left. now rewrite Hp.
  - now rewrite Hf.
Qed.

(** X4. When the upload gets as far as the checks of the payload, and
    is handled with no other upload in between, a request with an
    identifier and a payload is answered with [ok: true] exactly when the
    payload passes the encoding test, decodes to at least one byte and at
    most 10 MiB, the limit included, and the file system does not refuse
    the write.  The file is then stored under the first free name, and the
    URL of the answer is its path relative to the directory of the
    document, with [/] as separator. *)
Theorem upload_accepted_iff (now : DateTime) (outcome : EditOutcome)
    (message : WebviewMessage) (s : State) (rid data : string) :
  command message = "upload-image" ->
  requestId message = VString rid -> rid <> "" ->
  dataBase64 message = VString data -> data <> "" ->
  validationReached now (fileName message) (mimeType message) s ->
  let raw := stripDataUri data in
  let size := Buffer_length (Buffer_from_base64 raw) in
  let r := onDidReceiveMessage now outcome message s in
  exists p result,
    resultOf (createUniqueImageFilePath now (assetsDirOf s)
                (safeImageBaseName (fileName message))
                (inferImageExtension (fileName message) (mimeType message))
                (withAssetsDir s)) = Normal p /\
    effectsOf r = [PostMessage (MsgUploadImageResult result)] /\
    (resultOk result = true <->
     base64Test raw = true /\ size <> 0%Z /\ (size <= MAX_SIZE)%Z /\
     fs_writeFile_fault p (Buffer_from_base64 raw) = None) /\
    (resultOk result = true ->
     resultUrl result
     = Some (replace_all path_sep "/" (path_relative (path_dirname (documentPath s)) p)) /\
     files (fs (stateOf r)) !! p = Some (Buffer_from_base64 raw)) /\
    (resultOk result = false -> files (fs (stateOf r)) = files (fs s)).
Proof.
  intros Hcmd Hrid Hne Hdata Hdne (Hdir & Hmk & p & Hp) raw size r. subst r.
  rewrite (upload_image_run now outcome message s Hcmd), Hrid, Hdata.
  destruct (String.eqb_spec rid "") as [?|_]; [contradiction|].
  destruct (String.eqb_spec data "") as [?|_]; [contradiction|].
  cbv zeta. unfold effectsOf at 1, stateOf at 1 2. cbn [fst snd].
  exists p. eexists. split; [exact Hp|]. split; [reflexivity|].
  rewrite saveImageToAssets_run.
  destruct (decide _) as [[x Hx]|_]; [congruence|]. rewrite Hmk, Hp.
  unfold checkedWrite. fold raw. fold size.
  destruct (base64Test raw); cbn [negb].
  2:{ cbn. split; [split; [discriminate|intros [? _]; discriminate]|].
      split; [discriminate|reflexivity]. }
  destruct (Z.eqb_spec size 0) as [Hz|Hz].
  { cbn. split; [split; [discriminate|intros (_ & ? & _); contradiction]|].
    split; [discriminate|reflexivity]. }
  destruct (Z.gtb_spec size MAX_SIZE) as [Hgt|Hle].
  { cbn. split; [split; [discriminate|intros (_ & _ & ? & _); lia]|].
    split; [discriminate|reflexivity]. }
  destruct (fs_writeFile_fault p (Buffer_from_base64 raw)) as [[code text]|].
  { cbn. split; [split; [discriminate|intros (_ & _ & _ & ?); discriminate]|].
    split; [discriminate|reflexivity]. }
  cbn. split; [split; [intros _; repeat split; assumption|reflexivity]|].
  split; [|discriminate].
  intros _. split; [reflexivity|]. apply lookup_insert_eq.
Qed.

(** X5. Over any run of uploads that are handled one after the other, each
    to its end before the next begins, every file of before is kept with
    its bytes, and the number of files grows by exactly the number of
    answers with [ok: true]: each accepted image has a file of its own,
    also when several come within the same second under the same name. *)
Theorem uploads_only_add_files (evs : list HostEvent) (s : State) :
  Forall isUploadEvent evs ->
  let run := runEvents evs s in
  (forall p b, files (fs s) !! p = Some b -> files (fs (snd run)) !! p = Some b) /\
  size (files (fs (snd run))) = size (files (fs s)) + positiveAnswers (fst run).
Proof.
  intros Hall. revert s. induction Hall as [|ev evs Hev _ IH]; intros s run; subst run.
  - split; [auto|]. cbn. lia.
  - cbn [runEvents fst snd].
    destruct ev as [now outcome message|]; [|contradiction]. cbn [handleEvent].
    pose proof (upload_image_outcome now outcome message s Hev) as Hstep. cbv zeta in Hstep.
    destruct Hstep as (result & He & _ & Hf).
    set (s1 := stateOf (onDidReceiveMessage now outcome message s)) in *.
    destruct (IH s1) as [Hkeep Hsize]. cbv zeta in Hkeep, Hsize.
    unfold positiveAnswers in *. cbn [map snd concat].
    rewrite List.filter_app, length_app, He. cbn [List.filter isPositiveAnswer].
    destruct (resultOk result).
    + destruct Hf as (q & buffer & Hfree & _ & _ & Hfiles).
      assert (Hq : files (fs s) !! q = None).
      { destruct (files (fs s) !! q) eqn:Hq; [|reflexivity].
        exfalso. apply Hfree. left. eauto. }
      split.
      * intros p b Hp. apply Hkeep. rewrite Hfiles, lookup_insert_ne; [exact Hp|].
        intros ->. congruence.
      * rewrite Hsize, Hfiles, map_size_insert_None by exact Hq. cbn [length]. lia.
    + split.
      * intros p b Hp. apply Hkeep. now rewrite Hf.
      * rewrite Hsize, Hf. cbn [length]. lia.
Qed.

Lemma fs_mkdir_again (dir : string) (s : State) :
  resultOf (fs_mkdir dir s) = Normal tt ->
  fs_mkdir dir (stateOf (fs_mkdir dir s)) = (Normal tt, stateOf (fs_mkdir dir s), []).
Proof.
  unfold fs_mkdir. prog_unfold.
  destruct (decide (is_Some (files (fs s) !! dir))) as [|Hn]; [discriminate|].
  destruct (fs_mkdir_fault dir) as [[code text]|] eqn:Hf; [discriminate|].
  intros _. cbn.
  destruct (decide (is_Some (files (fs s) !! dir))); [contradiction|].
  cbn.
  replace ({[dir]} ∪ ({[dir]} ∪ dirs (fs s))) with ({[dir]} ∪ dirs (fs s))
    by (now rewrite (assoc_L (∪)), (idemp_L (∪))).
  destruct s as [t e p a ti [fl ds]]. reflexivity.
Qed.

(** X24. Two uploads that overlap collide.  When a second upload of the
    same name looks for its path in the same second, after the first has
    found its own and before the first has written, it is given the same
    path.  If both payloads are then stored, both uploads are answered with
    the same URL, and the one file that was added holds the bytes of the
    upload that wrote last. *)
Theorem overlapping_uploads_collide (now : DateTime) (fn mt : option string)
    (first second : string) (s : State) (p : string) :
  resultOf (saveImage_findPath now fn mt s) = Normal p ->
  let s1 := stateOf (saveImage_findPath now fn mt s) in
  let s2 := stateOf (saveImage_findPath now fn mt s1) in
  let stored1 := saveImage_store first p s2 in
  let stored2 := saveImage_store second p (stateOf stored1) in
  resultOf (saveImage_findPath now fn mt s1) = Normal p /\
  (forall url1 url2,
     resultOf stored1 = Normal url1 -> resultOf stored2 = Normal url2 ->
     url1 = url2 /\
     files (fs (stateOf stored2))
     = <[p := Buffer_from_base64 (stripDataUri second)]> (files (fs s))).
Proof.
  intros Hp s1 s2 stored1 stored2.
  assert (Hfind : saveImage_findPath now fn mt s = (Normal p, withAssetsDir s, [])).
  { unfold saveImage_findPath in *. prog_unfold. fold (assetsDirOf s) in *.
    unfold fs_mkdir in *. prog_unfold.
    destruct (decide (is_Some (files (fs s) !! assetsDirOf s))); [discriminate|].
    destruct (fs_mkdir_fault (assetsDirOf s)) as [[code text]|]; [discriminate|].
    cbn [fst snd] in *. fold (withAssetsDir s) in *.
    pose proof (probeFrom_pure (assetsDirOf s) (safeImageBaseName fn) (stampOf now)
                  (inferImageExtension fn mt) 1000 0 (withAssetsDir s)) as [Hs He].
    unfold createUniqueImageFilePath in *.
    destruct (probeFrom _ _ _ _ _ _ _) as [[[q|e] s'] l];
      unfold stateOf, effectsOf in Hs, He; cbn [fst snd] in *; subst s' l;
      [|discriminate].
    injection Hp as ->. reflexivity. }
  assert (Hagain : saveImage_findPath now fn mt (withAssetsDir s)
                   = (Normal p, withAssetsDir s, [])).
  { assert (Hmk : fs_mkdir (assetsDirOf s) s = (Normal tt, withAssetsDir s, [])).
    { unfold saveImage_findPath in Hfind. prog_unfold. fold (assetsDirOf s) in Hfind.
      destruct (fs_mkdir (assetsDirOf s) s) as [[[u|e] s'] l] eqn:Hm;
        cbn [fst snd] in Hfind; [|discriminate].
      unfold fs_mkdir in Hm. prog_unfold.
      destruct (decide _); [discriminate|].
      destruct (fs_mkdir_fault _) as [[code text]|]; [discriminate|].
      destruct u. injection Hm as <- <-. reflexivity. }
    pose proof (fs_mkdir_again (assetsDirOf s) s) as Hre.
    rewrite Hmk in Hre. unfold resultOf, stateOf in Hre. cbn [fst snd] in Hre.
    specialize (Hre eq_refl).
    unfold saveImage_findPath in *. prog_unfold.
    change (documentPath (withAssetsDir s)) with (documentPath s).
    fold (assetsDirOf s) in *. rewrite Hre. rewrite Hmk in Hfind.
    cbn [fst snd] in *. exact Hfind. }
  subst s1 s2 stored1 stored2. rewrite Hfind. unfold stateOf, resultOf. cbn [fst snd].
  rewrite !Hagain. cbn [fst snd].
  split; [reflexivity|].
  intros url1 url2.
  unfold saveImage_store, fs_writeFile. prog_unfold.
  change (documentPath (withAssetsDir s)) with (documentPath s).
  destruct (negb (base64Test (stripDataUri first))); [discriminate|].
  destruct (Buffer_length (Buffer_from_base64 (stripDataUri first)) =? 0)%Z; [discriminate|].
  destruct (Buffer_length (Buffer_from_base64 (stripDataUri first)) >? MAX_SIZE)%Z;
    [discriminate|].
  destruct (fs_writeFile_fault p (Buffer_from_base64 (stripDataUri first)))
    as [[code text]|]; [discriminate|].
  cbn [fst snd]. intros [= <-].
  destruct (negb (base64Test (stripDataUri second))); [discriminate|].
  destruct (Buffer_length (Buffer_from_base64 (stripDataUri second)) =? 0)%Z; [discriminate|].
  destruct (Buffer_length (Buffer_from_base64 (stripDataUri second)) >? MAX_SIZE)%Z;
    [discriminate|].
  destruct (fs_writeFile_fault p (Buffer_from_base64 (stripDataUri second)))
    as [[code' text']|]; [discriminate|].
  cbn. intros [= <-]. split; [reflexivity|]. apply insert_insert_eq.
Qed.

End UploadFiles.

Lemma upload_never_overwrites_witness :
  Host.files (Host.fs (Prog.stateOf
    (Host.onDidReceiveMessage Host.newYear2024 Host.EditApplied
       (Host.uploadMessage (Js.VString "r1") (Js.VString "AAAA") None)
       (Host.hostWithFiles 1 ["/notes/assets/image-20240101-000000.png"]))))
  !! "/notes/assets/image-20240101-000000.png" = Some 1%Z.
Proof.
  pose proof (@upload_never_overwrites (Host.exampleRuntime 1) Host.newYear2024
                Host.EditApplied
                (Host.uploadMessage (Js.VString "r1") (Js.VString "AAAA") None)
                (Host.hostWithFiles 1 ["/notes/assets/image-20240101-000000.png"])
                eq_refl) as H.
  cbv zeta in H. destruct H as (H & _). apply H. vm_compute. reflexivity.
Defined.

(** A payload of exactly 10 MiB is accepted. *)
Lemma upload_accepted_iff_witness :
  exists result,
    Prog.effectsOf (Host.onDidReceiveMessage Host.newYear2024 Host.EditApplied
                      (Host.uploadMessage (Js.VString "r1") (Js.VString "AA") None)
                      (Host.exampleHost 10485760))
    = [Host.PostMessage (Host.MsgUploadImageResult result)] /\
    Host.resultOk result = true.
Proof.
  pose proof (@upload_accepted_iff (Host.exampleRuntime 10485760) Host.newYear2024
                Host.EditApplied
                (Host.uploadMessage (Js.VString "r1") (Js.VString "AA") None)
                (Host.exampleHost 10485760) "r1" "AA" eq_refl eq_refl) as H.
  cbv zeta in H.
  destruct H as (p & result & _ & He & Hiff & _);
    [discriminate|reflexivity|discriminate| |].
  - split; [vm_compute; reflexivity|]. split; [reflexivity|].
    eexists. vm_compute. reflexivity.
  - exists result. split; [exact He|]. apply Hiff.
    split; [reflexivity|]. split; [discriminate|]. split; [|reflexivity].
    vm_compute. discriminate.
Defined.

(** Two uploads of the same name within the same second, the second
    handled after the first. *)
Lemma uploads_only_add_files_witness :
  size (Host.files (Host.fs (snd
    (Host.runEvents
       [Host.MessageReceived Host.newYear2024 Host.EditApplied
          (Host.uploadMessage (Js.VString "r1") (Js.VString "AAAA") None);
        Host.MessageReceived Host.newYear2024 Host.EditApplied
          (Host.uploadMessage (Js.VString "r2") (Js.VString "AAAA") None)]
       (Host.exampleHost 1)))))
  = 2.
Proof.
  pose proof (@uploads_only_add_files (Host.exampleRuntime 1)
                [Host.MessageReceived Host.newYear2024 Host.EditApplied
                   (Host.uploadMessage (Js.VString "r1") (Js.VString "AAAA") None);
                 Host.MessageReceived Host.newYear2024 Host.EditApplied
                   (Host.uploadMessage (Js.VString "r2") (Js.VString "AAAA") None)]
                (Host.exampleHost 1)) as H.
  cbv zeta in H. destruct H as [_ H].
  - repeat constructor.
  - rewrite H. vm_compute. reflexivity.
Defined.

(** The same two uploads, overlapping: one path for both. *)
Lemma overlapping_uploads_collide_witness :
  Prog.resultOf
    (Host.saveImage_findPath Host.newYear2024 None (Some "image/png")
       (Prog.stateOf (Host.saveImage_findPath Host.newYear2024 None (Some "image/png")
                        (Host.exampleHost 1))))
  = Prog.Normal "/notes/assets/image-20240101-000000.png".
Proof.
  pose proof (@overlapping_uploads_collide (Host.exampleRuntime 1) Host.newYear2024
                None (Some "image/png") "AAAA" "BBBBBBBB" (Host.exampleHost 1)
                "/notes/assets/image-20240101-000000.png") as H.
  cbv zeta in H. destruct H as [H _]; [vm_compute; reflexivity|exact H].
Defined.

(** ** Line endings of the content applied to the document *)

Section AppliedContent.

Import Js Prog Host.
Context {R : Runtime}.

Lemma normalizeContentForDocument_canonical (x : string) (eol : EndOfLine) :
  normalizeContentForDocument x eol = toTargetConvention (toCanonical x) eol.
Proof.
  rewrite normalizeContentForDocument_unfold.
  destruct (toLf_toCanonical x) as [-> _]. destruct eol; [reflexivity|].
  apply lf_to_crlf_expandLf.
Qed.

Lemma toCanonical_no_cr (s : string) : has_cr (toCanonical s) = false.
Proof. destruct (toLf_toCanonical s) as [<- _]. apply toLf_no_cr. Qed.

Lemma toCanonical_id (s : string) : has_cr s = false -> toCanonical s = s.
Proof. intros H. destruct (toLf_toCanonical s) as [<- _]. now apply toLf_id. Qed.

Lemma toCanonical_expandLf (s : string) : has_cr s = false -> toCanonical (expandLf s) = s.
Proof.
  intros H. destruct (toLf_toCanonical (expandLf s)) as [<- _].
  rewrite <- lf_to_crlf_expandLf. now apply toLf_expand.
Qed.

Lemma crlfOnly_expandLf (s : string) : has_cr s = false -> crlfOnly (expandLf s) = true.
Proof.
  induction s as [|c s IH]; [reflexivity|]. cbn [has_cr expandLf].
  destruct (Ascii.eqb_spec c CR) as [->|Hc]; [discriminate|]. intros H.
  destruct (Ascii.eqb_spec c LF) as [->|Hl].
  - cbn. now apply IH.
  - cbn [crlfOnly]. destruct (Ascii.eqb_spec c CR); [contradiction|].
    destruct (Ascii.eqb_spec c LF); [contradiction|]. cbn. now apply IH.
Qed.

(** X8. Normalisation changes line endings and nothing else: the content
    and its normal form are the same text once every line ending is written
    LF.  The normal form is in the convention of the document: without any
    CR for an LF document, with every line ending written CR LF for a CRLF
    document.  Two contents have the same normal form exactly when they
    differ in their line endings only. *)
Theorem normalizeContentForDocument_line_endings_only (x : string) (eol : EndOfLine) :
  let normalized := normalizeContentForDocument x eol in
  toCanonical normalized = toCanonical x /\
  match eol with
  | EOL_LF => has_cr normalized = false
  | EOL_CRLF => crlfOnly normalized = true
  end /\
  forall y, normalizeContentForDocument y eol = normalized <-> toCanonical y = toCanonical x.
Proof.
  intros normalized.
  assert (Hback : forall z, toCanonical (normalizeContentForDocument z eol) = toCanonical z).
  { intros z. rewrite normalizeContentForDocument_canonical. destruct eol; cbn.
    - apply toCanonical_id, toCanonical_no_cr.
    - apply toCanonical_expandLf, toCanonical_no_cr. }
  split; [apply Hback|]. split.
  - subst normalized. rewrite normalizeContentForDocument_canonical. destruct eol; cbn.
    + apply toCanonical_no_cr.
    + apply crlfOnly_expandLf, toCanonical_no_cr.
  - intros y. subst normalized. split.
    + intros H. rewrite <- (Hback y), H. apply Hback.
    + intros H. rewrite !normalizeContentForDocument_canonical. now rewrite H.
Qed.

Lemma applyContent_noop (outcome : EditOutcome) (newContent : string) (s : State) :
  normalizeContentForDocument newContent (documentEol s) = documentText s ->
  applyContent outcome newContent s = (Normal tt, s, []).
Proof.
  intros H. unfold applyContent. prog_unfold. rewrite H, String.eqb_refl. reflexivity.
Qed.

(** X7. A content that differs from the text of the document in its line
    endings only is not applied: no edit is asked of VS Code, whatever it
    would have answered, and an [edit] message with such a content leaves
    the provider as it was. *)
Theorem applyContent_same_text_is_noop (outcome : EditOutcome) (newContent : string)
    (s : State) :
  normalizeContentForDocument (documentText s) (documentEol s) = documentText s ->
  toCanonical newContent = toCanonical (documentText s) ->
  applyContent outcome newContent s = (Normal tt, s, []) /\
  forall now message,
    command message = "edit" -> content message = VString newContent ->
    onDidReceiveMessage now outcome message s = (Normal tt, s, []).
Proof.
  intros Hdoc Hsame.
  assert (Hn : normalizeContentForDocument newContent (documentEol s) = documentText s).
  { rewrite normalizeContentForDocument_canonical, Hsame,
      <- normalizeContentForDocument_canonical. exact Hdoc. }
  split; [now apply applyContent_noop|].
  intros now message Hcmd Hcontent. unfold onDidReceiveMessage.
  rewrite Hcmd, Hcontent. cbn [String.eqb Ascii.eqb Bool.eqb].
  now apply applyContent_noop.
Qed.

Lemma applyContent_document (outcome : EditOutcome) (newContent : string) (s : State) :
  documentEol (stateOf (applyContent outcome newContent s)) = documentEol s /\
  documentPath (stateOf (applyContent outcome newContent s)) = documentPath s.
Proof.
  unfold applyContent. prog_unfold.
  destruct (String.eqb _ (documentText s)); [split; reflexivity|].
  destruct outcome; cbn [workspace_applyEdit]; prog_unfold; cbn [fst snd modify];
    rewrite ?onDidChangeTextDocument_run;
    cbn [documentPath isApplyingFromWebview setText setApplying];
    rewrite ?String.eqb_refl; cbn; split; reflexivity.
Qed.

(** The end-of-line convention and the path of the document are those of
    the document: no handler changes them. *)
Lemma handleEvent_document (ev : HostEvent) (s : State) :
  documentEol (stateOf (handleEvent ev s)) = documentEol s /\
  documentPath (stateOf (handleEvent ev s)) = documentPath s.
Proof.
  destruct ev as [now outcome message|doc newText]; cbn [handleEvent].
  - destruct (String.eqb_spec (command message) "upload-image") as [Hc|Hup].
    { destruct (upload_image_outcome now outcome message s Hc) as (_ & _ & [disk ->] & _).
      split; reflexivity. }
    unfold onDidReceiveMessage.
    destruct (String.eqb (command message) "ready"); [split; reflexivity|].
    destruct (String.eqb (command message) "edit").
    { destruct (content message) as [| | | |c]; try (split; reflexivity).
      apply applyContent_document. }
    destruct (String.eqb (command message) "save").
    { assert (Hdone : forall (p : HostProg unit),
                documentEol (stateOf (p s)) = documentEol s /\
                documentPath (stateOf (p s)) = documentPath s ->
                documentEol (stateOf ((p;; emit DocumentSave;; refreshTitle) s))
                = documentEol s /\
                documentPath (stateOf ((p;; emit DocumentSave;; refreshTitle) s))
                = documentPath s).
      { intros p Hp. prog_unfold. destruct (p s) as [[[u|e] s1] l1]; exact Hp. }
      destruct (content message) as [| | | |c]; apply Hdone; try (split; reflexivity).
      apply applyContent_document. }
    destruct (String.eqb (command message) "open-link").
    { destruct (href message) as [| | | |h]; try (split; reflexivity).
      cbv zeta. destruct (String.eqb (trim h) ""); [split; reflexivity|].
      destruct (isHttpUrl (trim h)); split; reflexivity. }
    destruct (String.eqb_spec (command message) "upload-image"); [contradiction|].
    split; reflexivity.
  - unfold documentChangedOutside. prog_unfold.
    destruct (String.eqb doc (documentPath s)) eqn:Hdoc; cbn [modify fst snd];
      rewrite onDidChangeTextDocument_run; cbn [documentPath isApplyingFromWebview setText];
      rewrite Hdoc; cbn [negb]; [|split; reflexivity].
    destruct (isApplyingFromWebview s); split; reflexivity.
Qed.

(** X9. A [save] that follows an [edit] with the same content does not
    apply the content a second time: the document already holds it in
    normal form, no edit is asked of VS Code, whatever it would have
    answered, and the handler only asks the document to be saved. *)
Theorem save_after_edit_only_saves (now1 now2 : DateTime) (outcome2 : EditOutcome)
    (edit save : WebviewMessage) (newContent : string) (s : State) :
  command edit = "edit" -> content edit = VString newContent ->
  command save = "save" -> content save = VString newContent ->
  let s1 := stateOf (onDidReceiveMessage now1 EditApplied edit s) in
  let r2 := onDidReceiveMessage now2 outcome2 save s1 in
  documentText s1 = normalizeContentForDocument newContent (documentEol s) /\
  resultOf r2 = Normal tt /\
  effectsOf r2 = [DocumentSave] /\
  documentText (stateOf r2) = documentText s1.
Proof.
  intros Hc1 Hx1 Hc2 Hx2 s1 r2.
  pose proof (content_message_run now1 EditApplied edit s newContent (or_introl Hc1) Hx1)
    as Hrun. cbv zeta in Hrun. fold s1 in Hrun. destruct Hrun as (_ & _ & Htext).
  pose proof (applyContent_run EditApplied newContent s) as Happly. cbv zeta in Happly.
  destruct Happly as (_ & _ & Ht & _). rewrite (Ht eq_refl) in Htext.
  pose proof (handleEvent_document (MessageReceived now1 EditApplied edit) s) as [Heol _].
  cbn [handleEvent] in Heol. fold s1 in Heol.
  split; [exact Htext|].
  assert (Hnoop : applyContent outcome2 newContent s1 = (Normal tt, s1, [])).
  { apply applyContent_noop. now rewrite Heol, Htext. }
  subst r2. unfold onDidReceiveMessage. rewrite Hc2, Hx2.
  cbn [String.eqb Ascii.eqb Bool.eqb]. prog_unfold. rewrite Hnoop. cbn.
  repeat split; reflexivity.
Qed.

Lemma runEvents_flag_down (evs : list HostEvent) (s : State) :
  isApplyingFromWebview s = false -> isApplyingFromWebview (snd (runEvents evs s)) = false.
Proof.
  revert s. induction evs as [|ev evs IH]; intros s Hflag; [exact Hflag|].
  cbn [runEvents snd]. apply IH. now apply flag_down_between_events.
Qed.

(** X6. In a session of the provider in which every event is handled to
    its end before the next one arrives, whatever messages the surface sends
    in between, every change of the edited document that VS Code reports on
    its own account is posted to the surface, as one [update] snapshot that
    carries the new text; a change of another document posts nothing.  A
    change of the edited document that is reported while an edit of the
    surface is still being applied, between the request and its end, is
    not posted: the document has the new text and the surface is not told. *)
Theorem outside_changes_posted_unless_edit_pending (evs : list HostEvent) (s : State) :
  isApplyingFromWebview s = false ->
  (forall doc newText effects,
     (DocumentChanged doc newText, effects) ∈ fst (runEvents evs s) ->
     if String.eqb doc (documentPath s)
     then exists payload,
            effects = [PostMessage (MsgUpdate payload)] /\
            payloadType payload = Update /\ payloadContent payload = newText
     else effects = []) /\
  (forall newContent normalizedContent newText,
     resultOf (applyContent_request newContent s) = Normal (Some normalizedContent) ->
     let pending := stateOf (applyContent_request newContent s) in
     let r := documentChangedOutside (documentPath s) newText pending in
     resultOf r = Normal tt /\ effectsOf r = [] /\ documentText (stateOf r) = newText).
Proof.
  intros Hflag0. split.
  - revert s Hflag0.
    induction evs as [|ev evs IH]; intros s Hflag doc newText effects Hin.
    + inversion Hin.
    + cbn [runEvents fst] in Hin. apply elem_of_cons in Hin as [Heq|Hin].
      * injection Heq as <- ->. cbn [handleEvent].
        destruct (String.eqb_spec doc (documentPath s)) as [->|Hne].
        -- now apply change_outside_is_posted.
        -- unfold documentChangedOutside. prog_unfold.
           destruct (String.eqb_spec doc (documentPath s)) as [?|_]; [contradiction|].
           cbn [fst snd]. rewrite onDidChangeTextDocument_run.
           destruct (String.eqb_spec doc (documentPath s)) as [?|_]; [contradiction|].
           reflexivity.
      * destruct (handleEvent_document ev s) as [_ Hpath]. rewrite <- Hpath.
        apply (IH (stateOf (handleEvent ev s))); [|exact Hin].
        now apply flag_down_between_events.
  - intros newContent normalizedContent newText.
    unfold applyContent_request. prog_unfold.
    destruct (String.eqb _ (documentText s)); [discriminate|].
    cbn [fst snd]. intros _. cbv zeta.
    unfold documentChangedOutside, stateOf, resultOf, effectsOf. prog_unfold.
    cbn [fst snd documentPath setApplying]. rewrite String.eqb_refl. cbn [fst snd].
    rewrite onDidChangeTextDocument_run.
    cbn [documentPath setText setApplying isApplyingFromWebview].
    rewrite String.eqb_refl. cbn. repeat split; reflexivity.
Qed.

End AppliedContent.

Lemma applyContent_same_text_is_noop_witness :
  Host.applyContent (R := Host.exampleRuntime 1) Host.EditApplied Surface.twoLinesLf
    (Host.openDocument "/notes/readme.md" Surface.twoLinesCrlf Host.EOL_CRLF (Host.emptyDisk 1))
  = (Prog.Normal tt,
     Host.openDocument "/notes/readme.md" Surface.twoLinesCrlf Host.EOL_CRLF (Host.emptyDisk 1),
     []).
Proof.
  apply (@applyContent_same_text_is_noop (Host.exampleRuntime 1) Host.EditApplied
           Surface.twoLinesLf
           (Host.openDocument "/notes/readme.md" Surface.twoLinesCrlf Host.EOL_CRLF
              (Host.emptyDisk 1))); reflexivity.
Defined.

Lemma save_after_edit_only_saves_witness :
  Prog.effectsOf
    (Host.onDidReceiveMessage Host.newYear2024 (Host.EditFailed Js.NonError)
       (Host.contentMessage "save" "# B")
       (Prog.stateOf (Host.onDidReceiveMessage Host.newYear2024 Host.EditApplied
                        (Host.contentMessage "edit" "# B") (Host.exampleHost 1))))
  = [Host.DocumentSave].
Proof.
  pose proof (@save_after_edit_only_saves (Host.exampleRuntime 1) Host.newYear2024
                Host.newYear2024 (Host.EditFailed Js.NonError)
                (Host.contentMessage "edit" "# B") (Host.contentMessage "save" "# B")
                "# B" (Host.exampleHost 1) eq_refl eq_refl eq_refl eq_refl) as H.
  cbv zeta in H. destruct H as (_ & _ & H & _). exact H.
Defined.

(** A change made in a text editor, after an edit from the surface that
    VS Code failed to apply; and the same change while an edit is pending. *)
Lemma outside_changes_posted_unless_edit_pending_witness :
  (exists payload,
     snd <$> (fst (Host.runEvents
       [Host.MessageReceived Host.newYear2024 (Host.EditFailed Js.NonError)
          (Host.contentMessage "edit" "# B");
        Host.DocumentChanged "/notes/readme.md" "# C"]
       (Host.exampleHost 1))) !! 1
     = Some [Host.PostMessage (Host.MsgUpdate payload)] /\
     Host.payloadContent payload = "# C") /\
  Prog.effectsOf
    (Host.documentChangedOutside "/notes/readme.md" "# C"
       (Prog.stateOf (Host.applyContent_request "# B" (Host.exampleHost 1))))
  = [].
Proof.
  pose proof (@outside_changes_posted_unless_edit_pending (Host.exampleRuntime 1)
                [Host.MessageReceived Host.newYear2024 (Host.EditFailed Js.NonError)
                   (Host.contentMessage "edit" "# B");
                 Host.DocumentChanged "/notes/readme.md" "# C"]
                (Host.exampleHost 1) eq_refl) as [Hposted Hdropped].
  split.
  - destruct (Hposted "/notes/readme.md" "# C"
                (Prog.effectsOf (Host.documentChangedOutside "/notes/readme.md" "# C"
                   (Prog.stateOf (Host.onDidReceiveMessage Host.newYear2024
                      (Host.EditFailed Js.NonError) (Host.contentMessage "edit" "# B")
                      (Host.exampleHost 1))))))
      as (payload & He & _ & Hc).
    + apply elem_of_cons. right. apply elem_of_cons. left. reflexivity.
    + exists payload. split; [|exact Hc].
      cbn [Host.runEvents fst lookup list_lookup fmap option_fmap option_map snd
           Host.handleEvent].
      rewrite <- He. reflexivity.
  - destruct (Hdropped "# B" "# B" "# C" eq_refl) as (_ & He & _). exact He.
Defined.

(** ** Sessions of the surface *)

Section SurfaceSessions.

Import Js Prog Surface.
Context {E : Engine}.

Lemma filter_isEdit_isPost (l : list Effect) :
  List.filter isPost l = [] -> List.filter isEdit l = [].
Proof.
  induction l as [|e l IH]; [reflexivity|]. cbn [List.filter].
  destruct e as [[]| | | | | | | | |]; cbn; try discriminate; exact IH.
Qed.

Lemma updateListener_latch (u : UpdateEvent) (s : State) :
  hasUserInteractionRef (stateOf (updateListener u s)) = hasUserInteractionRef s.
Proof.
  rewrite updateListener_run.
  destruct (_ && _); [reflexivity|]. destruct (String.eqb _ _); [reflexivity|].
  cbv zeta. rewrite syncToHost_run. destruct (shouldSync _); reflexivity.
Qed.

(** A snapshot posts nothing and leaves the interaction latch down, in
    whatever state it arrives. *)
Lemma setEditorMarkdown_quiet (markdown : string) (s : State) :
  List.filter isPost (effectsOf (setEditorMarkdown markdown s)) = [] /\
  hasUserInteractionRef (stateOf (setEditorMarkdown markdown s)) = false.
Proof.
  destruct (readyRef s) eqn:Hr.
  - destruct (String.eqb_spec (getMarkdown (editor s)) markdown) as [Hm|Hm].
    + rewrite (setEditorMarkdown_same markdown s Hr Hm). split; reflexivity.
    + pose proof (setEditorMarkdown_differs markdown s Hr Hm) as H. cbv zeta in H.
      destruct H as (_ & _ & _ & _ & Hu & _ & Hp & _). auto.
  - rewrite (setEditorMarkdown_not_ready markdown s Hr). split; reflexivity.
Qed.

Lemma onInit_quiet (s : State) :
  List.filter isPost (effectsOf (onInit s)) = [] /\
  hasUserInteractionRef (stateOf (onInit s)) = hasUserInteractionRef s.
Proof.
  unfold onInit. prog_simpl. destruct (pendingRemoteContentRef s) as [m|]; cbn.
  - set (s2 := setApplyingRemote true (setReady true s)).
    pose proof (editor_setDocument_guarded m s2 eq_refl) as (Hres & Hsame & Hp & _).
    destruct (editor_setDocument m s2) as [[r s3] l3].
    unfold resultOf, stateOf, effectsOf in *. cbn in *. subst r. cbn.
    rewrite scheduleTocSync_run. cbn.
    destruct Hsame as (_ & _ & _ & Hu & _). cbn in Hu.
    rewrite !List.filter_app, Hp. split; [destruct (tocRafRef s3); reflexivity|exact Hu].
  - rewrite scheduleTocSync_run. cbn. split; [destruct (tocRafRef s); reflexivity|reflexivity].
Qed.

(** An [update] message sets the theme, the options and the file name it
    carries, then applies its content. *)
Lemma handleMessage_update_run (userLanguage : string) (m : UpdateMessage) (s : State) :
  exists pre,
    List.filter isPost pre = [] /\
    handleMessage userLanguage (CmdUpdate m) s =
    match content m with
    | VString c =>
        (resultOf (setEditorMarkdown c s), stateOf (setEditorMarkdown c s),
         (pre ++ effectsOf (setEditorMarkdown c s))%list)
    | _ => (Normal tt, s, pre)
    end.
Proof.
  cbn [handleMessage]. prog_unfold.
  destruct (theme m); destruct (optionsEditorMaxWidth m) as [w|];
    try destruct (w =? 0)%Z; destruct (optionsUseVscodeThemeColor m);
    destruct (metaFileName m) as [f|]; try destruct (String.eqb f "");
    cbn [fst snd app];
    (eexists; split; cycle 1;
     [destruct (content m) as [| | | |c]; try reflexivity;
      destruct (setEditorMarkdown c s) as [[r s'] l]; cbn [fst snd app]; reflexivity
     |reflexivity]).
Qed.

(** What a message of the host does to the channel and to the latch. *)
Lemma handleMessage_quiet (userLanguage : string) (message : HostMessage) (s : State) :
  List.filter isPost (effectsOf (handleMessage userLanguage message s)) = [] /\
  (hasUserInteractionRef s = false ->
   hasUserInteractionRef (stateOf (handleMessage userLanguage message s)) = false) /\
  (forall m c, message = CmdUpdate m -> content m = VString c ->
   hasUserInteractionRef (stateOf (handleMessage userLanguage message s)) = false).
Proof.
  destruct message as [dark|requestId ok url error|m|].
  - cbn. split; [reflexivity|]. split; [auto|discriminate].
  - unfold handleMessage. prog_unfold.
    destruct (decide (requestId ∈ uploadResolversRef s)).
    + destruct ok, url as [u|]; cbn; try destruct (String.eqb u ""); cbn;
        (split; [reflexivity|]; split; [auto|discriminate]).
    + cbn. split; [reflexivity|]. split; [auto|discriminate].
  - destruct (handleMessage_update_run userLanguage m s) as (pre & Hpre & ->).
    destruct (content m) as [| | | |c] eqn:Hc;
      try (split; [exact Hpre|]; split; [auto|intros ? ? [= <-]; congruence]).
    destruct (setEditorMarkdown_quiet c s) as [Hp Hu].
    unfold effectsOf at 1, stateOf at 1 3. cbn [fst snd].
    rewrite List.filter_app, Hpre, Hp. auto.
  - cbn. split; [reflexivity|]. split; [auto|discriminate].
Qed.

Lemma forEach_emit {A} (f : A -> Effect) (xs : list A) (s : State) :
  forEach (fun x => emit (f x)) xs s = (Normal tt, s, f <$> xs).
Proof.
  revert s. induction xs as [|x xs IH]; intros s; [reflexivity|].
  cbn [forEach]. unfold bind, emit. rewrite IH. reflexivity.
Qed.

(** The cleanup of the effect that registers [handleMessage]: every pending
    upload is rejected and the table is left empty. *)
Lemma messageEffectCleanup_run (userLanguage : string) (s : State) :
  Outline.messageEffectCleanup userLanguage s
  = (Normal tt, setUploadResolvers ∅ s,
     (fun requestId => RejectUpload requestId (Outline.editorClosedText userLanguage))
       <$> elements (uploadResolversRef s)).
Proof.
  pose proof (forEach_emit
                (fun requestId => RejectUpload requestId (Outline.editorClosedText userLanguage))
                (elements (uploadResolversRef s)) s) as Hall.
  unfold Outline.messageEffectCleanup. prog_unfold. rewrite Hall.
  cbn [fst snd]. now rewrite !app_nil_r.
Qed.

Lemma filter_isEdit_rejections (text : string) (ids : list string) :
  List.filter isEdit ((fun requestId => RejectUpload requestId text) <$> ids) = [].
Proof. induction ids as [|i ids IH]; [reflexivity|exact IH]. Qed.

(** Handling an event other than an interaction inside the editing
    region, with the latch down: no [edit] is posted and the latch stays
    down. *)
Lemma handleSurfaceEvent_untouched (userLanguage : string) (ev : SurfaceEvent) (s : State) :
  touchesEditor ev = false ->
  hasUserInteractionRef s = false ->
  List.filter isEdit (effectsOf (handleSurfaceEvent userLanguage ev s)) = [] /\
  hasUserInteractionRef (stateOf (handleSurfaceEvent userLanguage ev s)) = false.
Proof.
  intros Hev Hu. destruct ev as [message|newDoc u|[]| | | |]; cbn [handleSurfaceEvent];
    try discriminate.
  - destruct (handleMessage_quiet userLanguage message s) as (Hp & Hl & _).
    split; [now apply filter_isEdit_isPost|auto].
  - unfold engineUpdate. prog_unfold. cbn [fst snd].
    pose proof (updateListener_quiet u (setEditor newDoc s)) as Hq.
    pose proof (updateListener_latch u (setEditor newDoc s)) as Hl.
    destruct (updateListener u (setEditor newDoc s)) as [[r s1] l1].
    unfold effectsOf, stateOf in *. cbn [fst snd] in *. split.
    + apply filter_isEdit_isPost, Hq. unfold shouldSync. cbn. rewrite Hu.
      now rewrite andb_false_r.
    + now rewrite Hl.
  - split; [reflexivity|exact Hu].
  - destruct (onInit_quiet s) as [Hp Hl]. split; [now apply filter_isEdit_isPost|congruence].
  - split; [reflexivity|exact Hu].
  - prog_unfold. destruct (tocRafRef s); split; solve [reflexivity|exact Hu].
  - unfold Outline.messageEffect. prog_unfold. rewrite messageEffectCleanup_run.
    cbn [fst snd]. rewrite List.filter_app, filter_isEdit_rejections.
    split; [reflexivity|exact Hu].
Qed.

Lemma runSurface_untouched (userLanguage : string) (evs : list SurfaceEvent) (s : State) :
  forallb (fun ev => negb (touchesEditor ev)) evs = true ->
  hasUserInteractionRef s = false ->
  List.filter isEdit (fst (runSurface userLanguage evs s)) = [].
Proof.
  revert s. induction evs as [|ev evs IH]; intros s Hall Hu; [reflexivity|].
  cbn [forallb] in Hall. apply andb_true_iff in Hall as [Hev Hall].
  apply negb_true_iff in Hev.
  destruct (handleSurfaceEvent_untouched userLanguage ev s Hev Hu) as [He Hu'].
  cbn [runSurface fst]. rewrite List.filter_app, He. cbn [app]. now apply IH.
Qed.

(** X10. The surface never sends an [edit] for a document that is only
    looked at.  As long as no interaction event reaches the editing region,
    no [edit] is posted, whatever the host sends, whatever updates the
    engine commits and whenever the editor initialises: from a state with
    the interaction latch down, such as the initial one, and, from any
    state at all, after a snapshot has been received. *)
Theorem edits_need_interaction (userLanguage : string) (evs : list SurfaceEvent)
    (s : State) :
  forallb (fun ev => negb (touchesEditor ev)) evs = true ->
  (hasUserInteractionRef s = false ->
   List.filter isEdit (fst (runSurface userLanguage evs s)) = []) /\
  (forall m c, content m = VString c ->
   List.filter isEdit (fst (runSurface userLanguage (HostSent (CmdUpdate m) :: evs) s)) = []).
Proof.
  intros Hall. split; [now apply runSurface_untouched|].
  intros m c Hc. cbn [runSurface fst handleSurfaceEvent].
  destruct (handleMessage_quiet userLanguage (CmdUpdate m) s) as (Hp & _ & Hl).
  rewrite List.filter_app, (filter_isEdit_isPost _ Hp). cbn [app].
  apply runSurface_untouched; [exact Hall|]. now apply (Hl m c).
Qed.

(** X11. The save shortcut always sends the current markdown in a [save]
    message, with or without a prior interaction, and that content counts
    as synchronised: an update of the engine that leaves the markdown as it
    is posts nothing afterwards. *)
Theorem handleSave_posts_current (s : State) :
  let r := handleSave s in
  effectsOf r = [PostMessage (OutSave (getMarkdown (editor s)))] /\
  lastSyncedMarkdownRef (stateOf r) = getMarkdown (editor s) /\
  List.filter isPost (effectsOf (syncToHost (stateOf r))) = [] /\
  forall newDoc u,
    getMarkdown newDoc = getMarkdown (editor s) ->
    List.filter isPost (effectsOf (engineUpdate newDoc u (stateOf r))) = [].
Proof.
  intros r. subst r.
  assert (Hsave : handleSave s = (Normal tt, setLastSynced (getMarkdown (editor s)) s,
                                  [PostMessage (OutSave (getMarkdown (editor s)))]))
    by reflexivity.
  rewrite Hsave. unfold effectsOf at 1, stateOf at 1 2 3. cbn [fst snd].
  split; [reflexivity|]. split; [reflexivity|].
  assert (Hq : forall d, getMarkdown d = getMarkdown (editor s) ->
               shouldSync (setEditor d (setLastSynced (getMarkdown (editor s)) s)) = false).
  { intros d Hd. unfold shouldSync. cbn. rewrite Hd, String.eqb_refl.
    now rewrite andb_false_r. }
  split.
  - rewrite syncToHost_run.
    assert (Hs : shouldSync (setLastSynced (getMarkdown (editor s)) s) = false).
    { unfold shouldSync. cbn. rewrite String.eqb_refl. now rewrite andb_false_r. }
    now rewrite Hs.
  - intros newDoc u Hd.
    pose proof (updateListener_quiet u _ (Hq newDoc Hd)) as Hquiet.
    unfold engineUpdate. prog_unfold. cbn [fst snd].
    destruct (updateListener u _) as [[r1 s1] l1]. cbn [fst snd] in *. exact Hquiet.
Qed.

End SurfaceSessions.

(** ** Uploads and outline frames on the surface *)

Section SurfaceUploads.

Import Js Prog Surface.
Context {E : Engine}.

Lemma upload_result_unknown (userLanguage requestId : string) (ok : bool)
    (url error : option string) (s : State) :
  requestId ∉ uploadResolversRef s ->
  handleMessage userLanguage (CmdUploadImageResult requestId ok url error) s
  = (Normal tt, s, []).
Proof.
  intros Hout.
  now apply (upload_result_settles_once userLanguage requestId ok url error s).
Qed.

Lemma filter_settles_rejections (text requestId : string) (ids : list string) :
  NoDup ids -> requestId ∈ ids ->
  List.filter (settlesUpload requestId) ((fun r => RejectUpload r text) <$> ids)
  = [RejectUpload requestId text].
Proof.
  assert (Hnone : forall l, requestId ∉ l ->
            List.filter (settlesUpload requestId) ((fun r => RejectUpload r text) <$> l) = []).
  { induction l as [|i l IH]; intros Hout; [reflexivity|].
    cbn. destruct (String.eqb_spec i requestId) as [->|_].
    - exfalso. apply Hout. now left.
    - apply IH. intros Hin. apply Hout. now right. }
  induction 1 as [|i ids Hi Hnd IH]; intros Hin; [inversion Hin|].
  cbn. destruct (String.eqb_spec i requestId) as [->|Hne].
  - now rewrite (Hnone ids Hi).
  - apply elem_of_cons in Hin as [->|Hin]; [contradiction|]. now apply IH.
Qed.

(** X12. An upload is settled exactly once, by whichever comes first of
    the result of the host, the timer and the cleanup of the effect that
    registers the listener of the messages.  The request goes to the host
    with its identifier and the upload is pending.  In any state in which
    it is pending: the first result with that identifier resolves the
    upload with the URL when the result is positive and has one, and
    rejects it otherwise, with the error of the result or a default text;
    the timer rejects it with the text of the timeout; the cleanup, which
    runs when the component goes away and also each time the effect runs
    again, rejects it, once, with the text of a closed editor, and empties
    the table, and the effect that runs again posts [ready].  After any of
    the three the upload is no longer pending, and a result with that
    identifier is ignored.  Results, timers and requests for other
    identifiers leave the upload pending. *)
Theorem upload_settled_once (userLanguage requestId : string) (s : State) :
  requestId ∈ uploadResolversRef s ->
  (forall ok url error,
     let r := handleMessage userLanguage (CmdUploadImageResult requestId ok url error) s in
     let reason :=
       match error with
       | Some e => if String.eqb e "" then uploadFailedText userLanguage else e
       | None => uploadFailedText userLanguage
       end in
     effectsOf r =
     [match ok, url with
      | true, Some u =>
          if String.eqb u "" then RejectUpload requestId reason else ResolveUpload requestId u
      | _, _ => RejectUpload requestId reason
      end] /\
     requestId ∉ uploadResolversRef (stateOf r)) /\
  (let timedOut := Outline.uploadTimedOut userLanguage requestId s in
   effectsOf timedOut = [RejectUpload requestId (Outline.uploadTimeoutText userLanguage)] /\
   requestId ∉ uploadResolversRef (stateOf timedOut)) /\
  (let cleaned := Outline.messageEffectCleanup userLanguage s in
   let reran := handleSurfaceEvent userLanguage MessageEffectReran s in
   List.filter (settlesUpload requestId) (effectsOf cleaned)
   = [RejectUpload requestId (Outline.editorClosedText userLanguage)] /\
   uploadResolversRef (stateOf cleaned) = ∅ /\
   effectsOf reran = (effectsOf cleaned ++ [PostMessage OutReady])%list /\
   stateOf reran = stateOf cleaned) /\
  (forall settled ok url error,
     requestId ∉ uploadResolversRef settled ->
     handleMessage userLanguage (CmdUploadImageResult requestId ok url error) settled
     = (Normal tt, settled, [])) /\
  (forall other,
     other <> requestId ->
     (forall ok url error,
        requestId ∈ uploadResolversRef
          (stateOf (handleMessage userLanguage (CmdUploadImageResult other ok url error) s))) /\
     requestId ∈ uploadResolversRef (stateOf (Outline.uploadTimedOut userLanguage other s)) /\
     (forall data fileName mimeType,
        requestId ∈ uploadResolversRef
          (stateOf (handleImageUpload other data fileName mimeType s)))) /\
  (forall data fileName mimeType before,
     let sent := handleImageUpload requestId data fileName mimeType before in
     effectsOf sent = [PostMessage (OutUploadImage requestId data fileName mimeType)] /\
     requestId ∈ uploadResolversRef (stateOf sent)).
Proof.
  intros Hin.
  assert (Hgone : forall X : gset string, requestId ∉ X ∖ {[requestId]}).
  { intros X H. apply elem_of_difference in H as [_ H]. apply H. now apply elem_of_singleton. }
  assert (Hkept : forall other, other <> requestId ->
            requestId ∈ uploadResolversRef s ∖ {[other]}).
  { intros other Hother. apply elem_of_difference. split; [exact Hin|].
    intros H. apply elem_of_singleton in H. congruence. }
  split; [|split; [|split; [|split; [|split]]]].
  - intros ok url error r reason. subst r. unfold handleMessage. prog_unfold.
    destruct (decide (requestId ∈ uploadResolversRef s)) as [_|?]; [|contradiction].
    fold reason.
    destruct ok, url as [u|]; cbn; try destruct (String.eqb u ""); cbn;
      (split; [reflexivity|apply Hgone]).
  - cbv zeta. split; [reflexivity|].
    change (requestId ∉ uploadResolversRef s ∖ {[requestId]}). apply Hgone.
  - cbv zeta. cbn [handleSurfaceEvent]. unfold Outline.messageEffect.
    unfold mbind, prog_bind, Prog.bind. rewrite messageEffectCleanup_run.
    unfold effectsOf, stateOf, emit. cbn [fst snd].
    split; [|split; [reflexivity|split; reflexivity]].
    apply filter_settles_rejections; [apply NoDup_elements|].
    now apply elem_of_elements.
  - intros settled ok url error Hout. now apply upload_result_unknown.
  - intros other Hother. split; [|split].
    + intros ok url error. unfold handleMessage. prog_unfold.
      destruct (decide (other ∈ uploadResolversRef s)); [|exact Hin].
      destruct ok, url as [u|]; cbn; try destruct (String.eqb u ""); cbn;
        now apply Hkept.
    + change (requestId ∈ uploadResolversRef s ∖ {[other]}). now apply Hkept.
    + intros data fileName mimeType.
      change (requestId ∈ {[other]} ∪ uploadResolversRef s).
      apply elem_of_union. now right.
  - intros data fileName mimeType before. cbv zeta. split; [reflexivity|].
    change (requestId ∈ {[requestId]} ∪ uploadResolversRef before).
    apply elem_of_union. left. now apply elem_of_singleton.
Qed.

Lemma scheduleTocSync_again (n : nat) (s : State) :
  tocRafRef s = true ->
  forEach (fun _ : unit => scheduleTocSync) (replicate n tt) s
  = (Normal tt, s, concat (replicate n [CancelAnimationFrame; RequestTocFrame])).
Proof.
  intros Hs. induction n as [|n IH]; [reflexivity|].
  cbn [replicate forEach]. unfold Prog.bind. rewrite scheduleTocSync_run, Hs.
  assert (Hsame : setTocRaf true s = s) by (destruct s; cbn in *; now subst).
  rewrite Hsame, IH. reflexivity.
Qed.

(** X13. Requests for an outline pass are coalesced: however many are made
    in a row, each cancels the frame requested before it, so that exactly
    one frame is pending afterwards, until it fires. *)
Theorem scheduleTocSync_coalesces (n : nat) (s : State) :
  let r := forEach (fun _ : unit => scheduleTocSync) (replicate (S n) tt) s in
  effectsOf r =
    ((if tocRafRef s then [CancelAnimationFrame] else []) ++ [RequestTocFrame]
     ++ concat (replicate n [CancelAnimationFrame; RequestTocFrame]))%list /\
  tocRafRef (stateOf r) = true /\
  tocRafRef (stateOf (tocFrameDone (stateOf r))) = false.
Proof.
  intros r. subst r. cbn [replicate forEach]. unfold Prog.bind.
  rewrite scheduleTocSync_run, (scheduleTocSync_again n (setTocRaf true s) eq_refl).
  unfold effectsOf, stateOf. cbn [fst snd]. rewrite <- app_assoc.
  repeat split; reflexivity.
Qed.

End SurfaceUploads.

(** ** The outline and its active entry *)

Section OutlinePasses.

Import Js Surface Outline.

(** X14. The comparison of two outlines answers [true] exactly when they
    are the same list of entries: same length and, position by position,
    same identifier, depth, level and text. *)
Theorem isSameToc_decides_equality (a b : list TocItem) :
  (isSameToc a b = true <-> a = b) /\
  (isSameToc a b = false <-> a <> b).
Proof.
  pose proof (isSameToc_eq a b) as H. split; [exact H|].
  destruct (isSameToc a b); split; intros H'; try congruence.
  - exfalso. apply H'. now apply H.
  - intros Hab. apply H in Hab. discriminate.
Qed.

Lemma hasText_retag (node : HeadingNode) (i : option string) :
  hasText {| tagName := tagName node; textContent := textContent node; datasetTocId := i |}
  = hasText node.
Proof. reflexivity. Qed.

Lemma tagNodes_twice (i j : nat) (headingNodes : list HeadingNode) :
  tagNodes i (tagNodes j headingNodes) = tagNodes i headingNodes.
Proof.
  revert i j. induction headingNodes as [|node rest IH]; intros i j; [reflexivity|].
  cbn [tagNodes]. destruct (hasText node) eqn:Hn; cbn [tagNodes];
    rewrite hasText_retag, Hn, IH; reflexivity.
Qed.

Lemma imap_tagNodes {A} (f : nat -> HeadingNode -> A) (i : nat)
    (headingNodes : list HeadingNode) :
  (forall k node t, f k {| tagName := tagName node; textContent := textContent node;
                          datasetTocId := t |} = f k node) ->
  imap f (List.filter hasText (tagNodes i headingNodes))
  = imap f (List.filter hasText headingNodes).
Proof.
  revert f i. induction headingNodes as [|node rest IH]; intros f i Hf; [reflexivity|].
  cbn [tagNodes List.filter]. destruct (hasText node) eqn:Hn; cbn [List.filter];
    rewrite hasText_retag, Hn.
  - cbn [imap]. rewrite Hf. f_equal. apply IH. intros k n t. apply Hf.
  - now apply IH.
Qed.

Lemma extractItems_tagNodes (i : nat) (headingNodes : list HeadingNode) :
  extractItems (tagNodes i headingNodes) = extractItems headingNodes.
Proof. unfold extractItems. apply imap_tagNodes. reflexivity. Qed.

Lemma tagNodes_shape (i : nat) (headingNodes : list HeadingNode) :
  map tagName (tagNodes i headingNodes) = map tagName headingNodes /\
  map textContent (tagNodes i headingNodes) = map textContent headingNodes.
Proof.
  revert i. induction headingNodes as [|node rest IH]; intros i; [split; reflexivity|].
  cbn [tagNodes]. destruct (hasText node); cbn;
    [destruct (IH (S i)) as [-> ->]|destruct (IH i) as [-> ->]]; split; reflexivity.
Qed.

(** X15. The outline pass leaves the headings with the identifiers of the
    outline: the headings that keep a text carry, in order, the identifiers
    of the entries after the title, the others carry none, and tags and
    texts are untouched.  The pass is idempotent: run again on the headings
    it has tagged, it changes neither the headings nor the state of the
    component. *)
Theorem updateTocFromDom_stable (titleText : string) (headingNodes : list HeadingNode)
    (st : TocState) :
  let pass := updateTocFromDom titleText headingNodes st in
  omap datasetTocId (fst pass) = id <$> extractItems headingNodes /\
  (forall node, node ∈ fst pass -> (datasetTocId node = None <-> headingText node = "")) /\
  map tagName (fst pass) = map tagName headingNodes /\
  map textContent (fst pass) = map textContent headingNodes /\
  updateTocFromDom titleText (fst pass) (snd pass) = pass.
Proof.
  intros pass.
  assert (Hfst : fst pass = tagNodes 0 headingNodes) by reflexivity.
  split; [|split; [|split; [|split]]].
  - rewrite Hfst, tagNodes_ids. unfold extractItems. rewrite fmap_imap.
    apply imap_ext. intros k node _. reflexivity.
  - rewrite Hfst. generalize 0. induction headingNodes as [|n rest IH]; intros i node Hin.
    + inversion Hin.
    + cbn [tagNodes] in Hin. destruct (hasText n) eqn:Hn;
        apply elem_of_cons in Hin as [->|Hin]; eauto.
      * unfold hasText in Hn. apply negb_true_iff in Hn.
        destruct (String.eqb_spec (headingText n) "") as [|Hne]; [discriminate|].
        split; [discriminate|]. intros H. contradiction.
      * unfold hasText in Hn. apply negb_false_iff in Hn. apply String.eqb_eq in Hn.
        split; [intros _; exact Hn|reflexivity].
  - rewrite Hfst. apply tagNodes_shape.
  - rewrite Hfst. apply tagNodes_shape.
  - pose proof (updateTocFromDom_items titleText headingNodes st) as Hitems.
    fold pass in Hitems.
    assert (Hnext : nextTocItems titleText (fst pass) = nextTocItems titleText headingNodes).
    { rewrite Hfst. unfold nextTocItems. now rewrite extractItems_tagNodes. }
    unfold updateTocFromDom at 1. cbv zeta. rewrite Hnext, Hitems.
    assert (Hsame : isSameToc (nextTocItems titleText headingNodes)
                      (nextTocItems titleText headingNodes) = true)
      by now apply isSameToc_eq.
    rewrite Hsame, Hfst, tagNodes_twice.
    subst pass. unfold updateTocFromDom in *. cbv zeta in *. cbn [fst snd] in *.
    f_equal. destruct (nextTocItems titleText headingNodes) eqn:Hn.
    + cbn [tocItems] in Hitems. now rewrite Hitems.
    + cbn [tocItems tocCollapsed activeTocId] in *. now rewrite Hitems.
Qed.

Lemma scanHeadings_reached (currentId : option string) (nodes : list ScrollNode) :
  scanHeadings currentId nodes
  = match last (reachedIds (List.filter bearsId nodes)) with
    | Some i => Some i
    | None => currentId
    end.
Proof.
  revert currentId. induction nodes as [|node rest IH]; intros currentId; [reflexivity|].
  cbn [scanHeadings List.filter]. unfold bearsId at 1.
  destruct (String.eqb (scrollTocId node) ""); cbn [negb]; [apply IH|].
  cbn [reachedIds]. destruct (reachedAnchor node); [|reflexivity].
  rewrite IH. cbn [last].
  destruct (reachedIds (List.filter bearsId rest)) as [|i l] eqn:Hr; [reflexivity|].
  change (last (scrollTocId node :: i :: l)) with (last (i :: l)).
  destruct (last (i :: l)) eqn:Hl; [reflexivity|].
  apply last_None in Hl. discriminate.
Qed.

(** X16. The active entry of the outline.  A heading or title that holds
    the selection wins.  Otherwise, without any tagged heading there is no
    active entry; with some, the active entry is the last of the headings
    at or above the anchor line that come before the first heading below
    it, and, when the first heading is still below the line, the title if
    the outline has one, else the first heading. *)
Theorem updateActiveTocFromScroll_cases (selectionTocId : option string)
    (headingNodes : list ScrollNode) (tocItems : list TocItem) :
  let active := updateActiveTocFromScroll selectionTocId headingNodes tocItems in
  (forall i, selectionTocId = Some i -> i <> "" -> active = Some i) /\
  (selectionTocId = None \/ selectionTocId = Some "" ->
   (headingNodes = [] -> active = None) /\
   (forall first rest, headingNodes = first :: rest ->
      active =
      match last (reachedIds (List.filter bearsId headingNodes)) with
      | Some i => Some i
      | None =>
          if existsb (fun item => String.eqb (id item) tocTitleId) tocItems
          then Some tocTitleId
          else Some (scrollTocId first)
      end)).
Proof.
  intros active. subst active. unfold updateActiveTocFromScroll. split.
  - intros i -> Hi. destruct (String.eqb_spec i ""); [contradiction|reflexivity].
  - intros Hsel.
    assert (Hby : match selectionTocId with
                  | Some i => if String.eqb i "" then None else Some i
                  | None => None
                  end = None) by (destruct Hsel as [-> | ->]; reflexivity).
    rewrite Hby. split; [intros ->; reflexivity|].
    intros first rest ->. cbv zeta. apply scanHeadings_reached.
Qed.

End OutlinePasses.
(** An upload requested at the start of a session: the host's positive
    answer resolves it, and the cleanup would have rejected it. *)
Lemma upload_settled_once_witness :
  Prog.effectsOf
    (Surface.handleMessage (E := Surface.plainEngine) "en"
       (Surface.CmdUploadImageResult "r1" true (Some "assets/a.png") None)
       (Prog.stateOf (Surface.handleImageUpload "r1" "AAAA" "a.png" "image/png"
                        (Surface.exampleTouched "# A"))))
  = [Surface.ResolveUpload "r1" "assets/a.png"] /\
  List.filter (settlesUpload "r1")
    (Prog.effectsOf
       (Outline.messageEffectCleanup (E := Surface.plainEngine) "en"
          (Prog.stateOf (Surface.handleImageUpload "r1" "AAAA" "a.png" "image/png"
                           (Surface.exampleTouched "# A")))))
  = [Surface.RejectUpload "r1" "Editor closed."].
Proof.
  pose proof (@upload_settled_once Surface.plainEngine "en" "r1"
                (Prog.stateOf (Surface.handleImageUpload "r1" "AAAA" "a.png" "image/png"
                                 (Surface.exampleTouched "# A")))) as H.
  destruct H as (Hresult & _ & (Hcleanup & _) & _).
  - vm_compute. reflexivity.
  - split.
    + destruct (Hresult true (Some "assets/a.png") None) as [He _]. exact He.
    + exact Hcleanup.
Defined.

(** ** Markdown file names *)

Section MarkdownNames.

Import Js Host Markdown Commands Outline.

Lemma length_toLowerCase (s : string) : String.length (toLowerCase s) = String.length s.
Proof. induction s as [|c s IH]; [reflexivity|]. cbn. now rewrite IH. Qed.

Lemma toLowerCase_slice (n : nat) (s : string) :
  toLowerCase (slice n s) = slice n (toLowerCase s).
Proof.
  revert s. induction n as [|n IH]; intros [|c s]; try reflexivity. cbn [slice toLowerCase].
  apply IH.
Qed.

Lemma length_append (a b : string) :
  String.length (a ++ b) = String.length a + String.length b.
Proof. induction a as [|c a IH]; [reflexivity|]. rewrite append_cons. cbn. now rewrite IH. Qed.

Lemma slice_append (a b : string) (k : nat) :
  slice (String.length a + k) (a ++ b) = slice k b.
Proof. induction a as [|c a IH]; [reflexivity|]. rewrite append_cons. cbn. exact IH. Qed.

Lemma substring_append (a b : string) : substring 0 (String.length a) (a ++ b) = a.
Proof. induction a as [|c a IH]; [now destruct b|]. rewrite append_cons. cbn. now rewrite IH. Qed.

Lemma substring_slice (n : nat) (s : string) :
  n <= String.length s -> substring 0 n s ++ slice n s = s.
Proof.
  revert s. induction n as [|n IH]; intros [|c s] Hn; cbn in *; try reflexivity; try lia.
  rewrite append_cons. now rewrite IH by lia.
Qed.

(** The test for a suffix, the case of the letters apart, finds the
    suffixes, and tells where the stem ends. *)
Lemma endsWithCI_spec (suffix s : string) :
  endsWithCI suffix s = true <-> exists stem ext, s = stem ++ ext /\ toLowerCase ext = suffix.
Proof.
  unfold endsWithCI. rewrite andb_true_iff, Nat.leb_le, String.eqb_eq. split.
  - intros [Hlen Hlow].
    exists (substring 0 (String.length s - String.length suffix) s),
           (slice (String.length s - String.length suffix) s).
    split; [symmetry; apply substring_slice; lia|exact Hlow].
  - intros (stem & ext & -> & Hext).
    assert (Hl : String.length ext = String.length suffix)
      by (rewrite <- Hext; symmetry; apply length_toLowerCase).
    rewrite length_append, Hl.
    replace (String.length stem + String.length suffix - String.length suffix)
      with (String.length stem + 0) by lia.
    rewrite slice_append. split; [lia|exact Hext].
Qed.

Lemma hasMarkdownExtension_spec (s : string) :
  hasMarkdownExtension s = true <->
  exists stem ext, s = stem ++ ext /\ (toLowerCase ext = ".md" \/ toLowerCase ext = ".markdown").
Proof.
  unfold hasMarkdownExtension. rewrite orb_true_iff, !endsWithCI_spec. split.
  - intros [(stem & ext & H1 & H2)|(stem & ext & H1 & H2)]; exists stem, ext; auto.
  - intros (stem & ext & H1 & [H2|H2]); [left|right]; exists stem, ext; auto.
Qed.

Lemma stripMarkdownExtension_stem (stem ext : string) :
  toLowerCase ext = ".md" \/ toLowerCase ext = ".markdown" ->
  stripMarkdownExtension (stem ++ ext) = stem.
Proof.
  intros Hext. unfold stripMarkdownExtension.
  assert (Hcut : forall n, String.length ext = n ->
                 substring 0 (String.length (stem ++ ext) - n) (stem ++ ext) = stem).
  { intros n <-. rewrite length_append.
    replace (String.length stem + String.length ext - String.length ext)
      with (String.length stem) by lia.
    apply substring_append. }
  destruct Hext as [Hext|Hext].
  - assert (Hmd : endsWithCI ".md" (stem ++ ext) = true)
      by (apply endsWithCI_spec; eauto).
    rewrite Hmd. apply Hcut. rewrite <- (length_toLowerCase ext), Hext. reflexivity.
  - assert (Hl : String.length ext = 9)
      by (rewrite <- (length_toLowerCase ext), Hext; reflexivity).
    assert (Hmd : endsWithCI ".md" (stem ++ ext) = false).
    { unfold endsWithCI. rewrite length_append, Hl.
      replace (String.length stem + 9 - String.length ".md")
        with (String.length stem + 6) by (cbn; lia).
      rewrite slice_append, toLowerCase_slice, Hext. cbn. apply andb_false_r. }
    assert (Hmk : endsWithCI ".markdown" (stem ++ ext) = true)
      by (apply endsWithCI_spec; eauto).
    rewrite Hmd, Hmk. now apply Hcut.
Qed.

Lemma stripMarkdownExtension_none (s : string) :
  hasMarkdownExtension s = false -> stripMarkdownExtension s = s.
Proof.
  unfold hasMarkdownExtension, stripMarkdownExtension. intros H.
  apply orb_false_iff in H as [-> ->]. reflexivity.
Qed.

(** X17. The title shown above the document and used as first entry of
    the outline is never empty.  It is the trimmed file name without its
    [.md] or [.markdown] extension, whatever the case of the letters of
    the extension; a name that is nothing but the extension is kept whole,
    a name without such an extension is kept as it is, and an empty name
    gives [Untitled]. *)
Theorem titleTextOf_cases (fileName : string) :
  let name := trim fileName in
  let title := titleTextOf fileName in
  title <> "" /\
  (name = "" -> title = "Untitled") /\
  (forall stem ext,
     name = stem ++ ext ->
     toLowerCase ext = ".md" \/ toLowerCase ext = ".markdown" ->
     title = if String.eqb stem "" then name else stem) /\
  (name <> "" -> hasMarkdownExtension name = false -> title = name).
Proof.
  intros name title. subst title. unfold titleTextOf. fold name. clearbody name.
  destruct (String.eqb_spec name "") as [Hn|Hn].
  - split; [discriminate|]. split; [reflexivity|]. split; [|contradiction].
    intros stem ext Hname Hext. exfalso.
    destruct stem; [|rewrite Hn, append_cons in Hname; discriminate].
    change ("" ++ ext) with ext in Hname. subst ext. rewrite Hn in Hext.
    destruct Hext; discriminate.
  - split; [|split; [contradiction|split]].
    + destruct (String.eqb_spec (stripMarkdownExtension name) ""); assumption.
    + intros stem ext Hname Hext. subst name.
      rewrite (stripMarkdownExtension_stem stem ext Hext).
      destruct (String.eqb stem ""); reflexivity.
    + intros _ Hno. rewrite (stripMarkdownExtension_none name Hno).
      destruct (String.eqb_spec name ""); [contradiction|reflexivity].
Qed.

(** X18. The command that opens the editor takes the file it is given,
    else the file of the active text editor.  It opens that file in the
    custom editor exactly when its path ends in [.md] or [.markdown], in
    whatever case; in every other case it opens nothing and shows one error
    message. *)
Theorem openEditor_only_markdown {R : Runtime} (uri activeDocument : option string) :
  let target := match uri with Some u => Some u | None => activeDocument end in
  let isMarkdown := fun p =>
    exists stem ext, p = stem ++ ext /\
      (toLowerCase ext = ".md" \/ toLowerCase ext = ".markdown") in
  (forall p, target = Some p -> isMarkdown p ->
   openEditor uri activeDocument = [ExecuteOpenWith p VIEW_TYPE]) /\
  ((target = None \/ exists p, target = Some p /\ ~ isMarkdown p) ->
   exists text, openEditor uri activeDocument = [ShowErrorMessage text]) /\
  (forall p, isMarkdownUri p = true <-> isMarkdown p).
Proof.
  intros target isMarkdown.
  assert (Hspec : forall p, isMarkdownUri p = true <-> isMarkdown p)
    by (intros p; apply hasMarkdownExtension_spec).
  unfold openEditor. fold target. split; [|split; [|exact Hspec]].
  - intros p -> Hp. apply Hspec in Hp. now rewrite Hp.
  - intros [-> |(p & -> & Hp)]; [eexists; reflexivity|].
    destruct (isMarkdownUri p) eqn:Hm; [exfalso; apply Hp, Hspec, Hm|].
    eexists. reflexivity.
Qed.

End MarkdownNames.

(** ** The Mermaid code block plugin *)

Section MermaidPlugin.

Import Js Mermaid.

(** X19. Registering the Mermaid mode keeps the modes that are there, in
    their order, and adds the Mermaid mode at the end only when no mode has
    its value: afterwards there is one, and registering again changes
    nothing, so that the mode is never listed twice by the plugin. *)
Theorem ensureMermaidMode_once (MODES : list Mode) :
  let registered := ensureMermaidMode MODES in
  MODES `prefix_of` registered /\
  existsb isMermaidMode registered = true /\
  length (List.filter isMermaidMode registered)
  = Nat.max 1 (length (List.filter isMermaidMode MODES)) /\
  ensureMermaidMode registered = registered.
Proof.
  intros registered. subst registered. unfold ensureMermaidMode.
  change (fun mode => String.eqb (value mode) MERMAID_MODE_VALUE) with isMermaidMode.
  destruct (existsb isMermaidMode MODES) eqn:Hex.
  - split; [reflexivity|]. split; [exact Hex|]. split; [|now rewrite Hex].
    apply existsb_exists in Hex as (mode & Hin & Hmode).
    assert (Hf : In mode (List.filter isMermaidMode MODES))
      by (apply List.filter_In; auto).
    destruct (List.filter isMermaidMode MODES); [destruct Hf|cbn; lia].
  - split; [now apply prefix_app_r|].
    assert (Hnone : List.filter isMermaidMode MODES = []).
    { induction MODES as [|m ms IH]; [reflexivity|]. cbn in Hex |- *.
      apply orb_false_iff in Hex as [-> Hex]. now apply IH. }
    rewrite !existsb_app, List.filter_app, Hnone. cbn.
    rewrite orb_true_r. repeat split; reflexivity.
Qed.

Lemma initMermaid_theme (requested : ThemeType) (initialized : option ThemeType) :
  snd (initMermaid requested initialized) = Some requested /\
  (fst (initMermaid requested initialized) = [] /\ initialized = Some requested \/
   initialized <> Some requested /\
   exists config, fst (initMermaid requested initialized) = [config] /\
     theme config = mermaidThemeOf requested /\ securityLevel config = "strict").
Proof.
  unfold initMermaid. destruct initialized as [[]|], requested; cbn;
    (split; [reflexivity|]);
    solve [left; split; reflexivity
          |right; split; [congruence|eexists; repeat split; reflexivity]].
Qed.

Lemma adjacentDistinct_cons (a b : string) (l : list string) :
  adjacentDistinct (a :: b :: l) = negb (String.eqb a b) && adjacentDistinct (b :: l).
Proof. reflexivity. Qed.

(** X20. Mermaid is initialised once per change of theme.  Over any run
    of renders, a render that asks for the theme Mermaid was last
    initialised with initialises nothing; so there are never more
    initialisations than renders, no two initialisations in a row are for
    the same theme, the first one differs from the theme in force before,
    each uses the strict security level, and the theme in force at the end
    is the one asked for last. *)
Theorem initMermaid_per_theme_change (requests : list ThemeType)
    (initialized : option ThemeType) :
  let run := initAll requests initialized in
  length (fst run) <= length requests /\
  adjacentDistinct
    (match initialized with Some t => [mermaidThemeOf t] | None => [] end
     ++ map theme (fst run)) = true /\
  Forall (fun config => securityLevel config = "strict") (fst run) /\
  snd run = match last requests with Some t => Some t | None => initialized end /\
  (forall t, initialized = Some t -> Forall (fun r => r = t) requests -> fst run = []).
Proof.
  revert initialized. induction requests as [|requested rest IH]; intros initialized run.
  - subst run. cbn. rewrite app_nil_r. repeat split; auto.
    destruct initialized; reflexivity.
  - subst run. cbn [initAll fst snd].
    destruct (initMermaid_theme requested initialized) as [Hsnd Hfst].
    specialize (IH (snd (initMermaid requested initialized))). cbv zeta in IH.
    rewrite Hsnd in *. destruct IH as (Hlen & Hadj & Hstrict & Hlast & Hsame).
    destruct Hfst as [[-> ->]|(Hne & config & -> & Htheme & Hsec)]; cbn [app length].
    + split; [lia|]. split; [exact Hadj|]. split; [exact Hstrict|]. split.
      * rewrite Hlast. cbn [last]. destruct rest as [|r rest']; [reflexivity|].
        change (last (requested :: r :: rest')) with (last (r :: rest')).
        destruct (last (r :: rest')) eqn:Hl; [reflexivity|].
        apply last_None in Hl. discriminate.
      * intros t [= <-] Hall. apply (Hsame requested eq_refl).
        now apply Forall_cons in Hall as [_ Hall].
    + split; [lia|]. split; [|split; [|split]].
      * cbn [map]. rewrite Htheme. cbn [app] in Hadj.
        destruct initialized as [t|]; cbn [app]; [|exact Hadj].
        rewrite adjacentDistinct_cons, Hadj, andb_true_r.
        destruct t, requested; try reflexivity; congruence.
      * constructor; assumption.
      * rewrite Hlast. destruct rest as [|r rest']; [reflexivity|].
        change (last (requested :: r :: rest')) with (last (r :: rest')).
        destruct (last (r :: rest')) eqn:Hl; [reflexivity|].
        apply last_None in Hl. discriminate.
      * intros t -> Hall. apply Forall_cons in Hall as [-> _]. congruence.
Qed.

End MermaidPlugin.

(** ** Snapshots applied again, and the payload of an upload *)

Section SnapshotsAgain.

Import Js Prog Surface.
Context {E : Engine}.

Lemma setLastSynced_same (markdown : string) (s : State) :
  lastSyncedMarkdownRef s = markdown -> hasUserInteractionRef s = false ->
  setLastSynced markdown (setHasUserInteraction false s) = s.
Proof. destruct s. cbn. intros -> ->. reflexivity. Qed.

(** X21. Applying a snapshot is idempotent when the engine gives back the
    markdown it was given: the second application of the same snapshot
    finds the content in place, has no effect at all and leaves the state
    as the first one left it, so that over both the document is set at most
    once, and only if the snapshot differed from the editor's markdown. *)
Theorem snapshot_applied_twice (s : State) (markdown : string) :
  readyRef s = true ->
  getMarkdown (setMarkdown markdown (editor s)) = markdown ->
  let r1 := setEditorMarkdown markdown s in
  let r2 := setEditorMarkdown markdown (stateOf r1) in
  effectsOf r2 = [] /\
  stateOf r2 = stateOf r1 /\
  List.filter isSetDocument (effectsOf r1 ++ effectsOf r2)
  = (if String.eqb (getMarkdown (editor s)) markdown then [] else [SetDocument markdown]).
Proof.
  intros Hr Hrt r1 r2.
  assert (H1 : readyRef (stateOf r1) = true /\
               getMarkdown (editor (stateOf r1)) = markdown /\
               lastSyncedMarkdownRef (stateOf r1) = markdown /\
               hasUserInteractionRef (stateOf r1) = false /\
               List.filter isSetDocument (effectsOf r1)
               = (if String.eqb (getMarkdown (editor s)) markdown
                  then [] else [SetDocument markdown])).
  { subst r1. destruct (String.eqb_spec (getMarkdown (editor s)) markdown) as [Hm|Hm].
    - rewrite (setEditorMarkdown_same markdown s Hr Hm). cbn. auto.
    - pose proof (setEditorMarkdown_differs markdown s Hr Hm) as H. cbv zeta in H.
      destruct H as (_ & He & Hrd & _ & Hu & Hl & _ & Hd & _).
      rewrite He. auto. }
  destruct H1 as (Hr1 & Hm1 & Hl1 & Hu1 & Hd1).
  assert (H2 : r2 = (Normal tt, stateOf r1, [])).
  { subst r2. rewrite (setEditorMarkdown_same markdown (stateOf r1) Hr1 Hm1).
    now rewrite (setLastSynced_same markdown (stateOf r1) Hl1 Hu1). }
  rewrite H2. unfold effectsOf at 1 3, stateOf at 1. cbn [fst snd].
  rewrite app_nil_r. auto.
Qed.

End SnapshotsAgain.

Section UploadPayload.

Import Js Host Outline.

Lemma includes_app (c : ascii) (a b : string) :
  includes c (a ++ b) = includes c a || includes c b.
Proof.
  induction a as [|x a IH]; [reflexivity|]. rewrite append_cons. cbn [includes].
  destruct (Ascii.eqb x c); [reflexivity|exact IH].
Qed.

Lemma allOf_excludes (cls : ascii -> bool) (c : ascii) (s : string) :
  cls c = false -> allOf cls s = true -> includes c s = false.
Proof.
  intros Hc. induction s as [|x s IH]; [reflexivity|]. cbn [allOf includes].
  intros H. apply andb_true_iff in H as [Hx Hs].
  destruct (Ascii.eqb_spec x c) as [->|_]; [congruence|auto].
Qed.

(** A payload that passes the encoding test has no comma. *)
Lemma base64Test_no_comma (raw : string) : base64Test raw = true -> includes "," raw = false.
Proof.
  intros H. apply base64Test_spec in H as (body & pad & -> & _ & Hb & Hp).
  rewrite includes_app.
  rewrite (allOf_excludes isBase64Class "," body eq_refl Hb).
  now rewrite (allOf_excludes (isChar "=") "," pad eq_refl Hp).
Qed.

(** X22. The payload of an image reaches the decoder of the host intact.
    The surface sends what follows the first comma of the data URL the
    reader gives; when that passes the encoding test, the removal of a
    data-URI prefix that the host does on its side leaves it as it is, and
    the host gets the same payload from the whole data URL. *)
Theorem upload_payload_delivered (prefix payload : string) :
  includes "," prefix = false ->
  base64Test payload = true ->
  let sent := fileToBase64 (Some (prefix ++ String "," payload)) in
  sent = payload /\
  stripDataUri sent = payload /\
  stripDataUri (prefix ++ String "," payload) = payload.
Proof.
  intros Hprefix Htest sent. subst sent.
  change (fileToBase64 (Some (prefix ++ String "," payload)))
    with (stripDataUri (prefix ++ String "," payload)).
  rewrite (stripDataUri_prefix prefix payload Hprefix).
  split; [reflexivity|]. split; [|reflexivity].
  apply stripDataUri_plain. now apply base64Test_no_comma.
Qed.

End UploadPayload.

(** A session in which the document is received, shown and re-rendered,
    and the user clicks outside the editing region. *)
Lemma edits_need_interaction_witness :
  List.filter isEdit
    (fst (runSurface (E := Surface.plainEngine) "en"
            [ HostSent (Surface.CmdUpdate (snapshotOf "# A"));
              EditorInitialised;
              EngineUpdated (E := Surface.plainEngine) "# A"
                {| Surface.dirtyElements := 1; Surface.dirtyLeaves := 1 |};
              UserInteracted false;
              EngineUpdated (E := Surface.plainEngine) "# A "
                {| Surface.dirtyElements := 1; Surface.dirtyLeaves := 0 |};
              TocFrameFired;
              HostSent (Surface.CmdUpdate (snapshotOf "# B")) ]
            (Surface.exampleMounted "")))
  = [].
Proof.
  refine (proj1 (@edits_need_interaction Surface.plainEngine "en" _ _ _) _); reflexivity.
Defined.

Lemma snapshot_applied_twice_witness :
  Prog.effectsOf
    (Surface.setEditorMarkdown "# B"
       (Prog.stateOf (Surface.setEditorMarkdown "# B" (Surface.exampleTouched "# A"))))
  = [].
Proof.
  pose proof (@snapshot_applied_twice Surface.plainEngine (Surface.exampleTouched "# A")
                "# B" eq_refl eq_refl) as H.
  cbv zeta in H. destruct H as (H & _). exact H.
Defined.

Lemma upload_payload_delivered_witness :
  Outline.fileToBase64 (Some "data:image/png;base64,iVBORw0KGgo=") = "iVBORw0KGgo=" /\
  Host.stripDataUri "iVBORw0KGgo=" = "iVBORw0KGgo=".
Proof.
  pose proof (upload_payload_delivered "data:image/png;base64" "iVBORw0KGgo="
                eq_refl eq_refl) as H.
  cbv zeta in H. destruct H as (H1 & H2 & _).
  split; [exact H1|]. rewrite <- H1 at 1. exact H2.
Defined.

(** ** Renders of a Mermaid preview that settle out of order *)

Section MermaidRenders.

Import Js Mermaid.

(** X23. A Mermaid render that settles after a newer one has started is
    never shown.  A render that starts gets a token above every token given
    before; when a render with an older token settles, with a diagram or
    with an error, the preview is left exactly as it is, and so it is when
    the canvas is gone; when the render just started settles with a
    diagram, the canvas shows that diagram.  Settling never changes the
    token. *)
Theorem stale_render_ignored (code : string) (st : PreviewState)
    (token : nat) (source : string) :
  snd (startRender true code st) = Some (token, source) ->
  let started := fst (startRender true code st) in
  token = S (renderTokenRef st) /\ renderTokenRef started = token /\ source <> "" /\
  (forall earlier mounted isZh result,
     earlier <= renderTokenRef st ->
     finishRender mounted isZh earlier result started = started) /\
  (forall isZh result, finishRender false isZh token result started = started) /\
  (forall isZh svg, innerHTML (finishRender true isZh token (Rendered svg) started) = svg) /\
  (forall mounted isZh t result,
     renderTokenRef (finishRender mounted isZh t result started) = renderTokenRef started).
Proof.
  unfold startRender. cbn [negb].
  destruct (String.eqb_spec
              (trim (replace_all (String CR "") (String LF "")
                       (replace_all (String CR (String LF "")) (String LF "") code))) "")
    as [He|Hne]; cbn [fst snd]; [discriminate|].
  intros [= <- <-]. cbv zeta.
  split; [reflexivity|]. split; [reflexivity|]. split; [exact Hne|].
  split; [|split; [|split]].
  - intros earlier mounted isZh result Hle. unfold finishRender. cbn [renderTokenRef].
    destruct (Nat.eqb_spec earlier (S (renderTokenRef st))) as [?|_]; [lia|].
    now rewrite orb_true_r.
  - reflexivity.
  - intros isZh svg. unfold finishRender. cbn [renderTokenRef negb orb].
    now rewrite Nat.eqb_refl.
  - intros mounted isZh t result. unfold finishRender.
    destruct (negb mounted || negb (Nat.eqb t _)); [reflexivity|].
    destruct result; reflexivity.
Qed.

End MermaidRenders.

(** Two renders, the first of which settles last. *)
Lemma stale_render_ignored_witness :
  let st0 := {| Mermaid.renderTokenRef := 0; Mermaid.innerHTML := "";
                Mermaid.error := None; Mermaid.isEmpty := false |} in
  let st1 := fst (Mermaid.startRender true "graph TD; A-->B" st0) in
  let st2 := fst (Mermaid.startRender true "graph TD; A-->C" st1) in
  Mermaid.innerHTML
    (Mermaid.finishRender true false 1 (Mermaid.Rendered "<svg>B</svg>")
       (Mermaid.finishRender true false 2 (Mermaid.Rendered "<svg>C</svg>") st2))
  = "<svg>C</svg>".
Proof.
  cbv zeta.
  pose proof (stale_render_ignored "graph TD; A-->C"
                (fst (Mermaid.startRender true "graph TD; A-->B"
                        {| Mermaid.renderTokenRef := 0; Mermaid.innerHTML := "";
                           Mermaid.error := None; Mermaid.isEmpty := false |}))
                2 "graph TD; A-->C" eq_refl) as H.
  cbv zeta in H. destruct H as (_ & _ & _ & _ & _ & H & _).
  exact (H false "<svg>C</svg>").
Defined.
